(** * OpenMeters: the WASAPI capture and metering pipeline

    A shallow embedding of [core/audio/wasapi-capture.cpp] and
    [core/audio/audio-engine.cpp], with the properties of the capture
    pipeline proved over it.

    Conventions.
    - Machine integers are [Z]; [UINT32] arithmetic is wrapped with
      [wrap32] where the source computes in 32 bits.
    - [float] is IEEE binary32 and [double] is binary64, both through the
      executable specification [SpecFloat] (round to nearest, ties to even).
    - Device memory is a [list byte]; a read outside it has no defined
      behaviour in C++, so every memory access returns an [option].
    - Calls into the operating system are answered by an oracle record and
      are written to a log, so that acquisitions and releases can be
      counted. *)

From Stdlib Require Import ZArith List Bool Lia QArith Qpower.
From Stdlib Require Import Strings.Byte.
From Stdlib Require Import Floats.SpecFloat.
From stdpp Require Import base list.

Local Open Scope Z_scope.

(** ** Machine arithmetic *)

Definition wrap32 (z : Z) : Z := z mod 2 ^ 32.

Definition byteZ (b : byte) : Z := Z.of_N (Byte.to_N b).

(** Two's complement reading of a [w]-bit pattern. *)
Definition signed (w : Z) (u : Z) : Z :=
  if u <? 2 ^ (w - 1) then u else u - 2 ^ w.

(** ** IEEE binary32 ([float]) *)

Module F32.

Definition prec : Z := 24.
Definition emax : Z := 128.

Definition zero : spec_float := S754_zero false.

(** [static_cast<float>(z)] for an integer [z]. *)
Definition of_int (z : Z) : spec_float := binary_normalize prec emax z 0 false.

Definition mul : spec_float -> spec_float -> spec_float := SFmul prec emax.
Definition div : spec_float -> spec_float -> spec_float := SFdiv prec emax.

(** The value whose object representation is the 32-bit pattern [w]
    ([reinterpret_cast<const float*>]). *)
Definition of_bits (w : Z) : spec_float :=
  let s := Z.testbit w 31 in
  let e := Z.land (Z.shiftr w 23) 255 in
  let m := Z.land w (2 ^ 23 - 1) in
  if e =? 0 then
    match m with
    | Zpos p => S754_finite s p (-149)
    | _ => S754_zero s
    end
  else if e =? 255 then
    (if m =? 0 then S754_infinity s else S754_nan)
  else
    match m + 2 ^ 23 with
    | Zpos p => S754_finite s p (e - 150)
    | _ => S754_nan
    end.

(** The rational number a float denotes; infinities and NaN denote none. *)
Definition to_Q (x : spec_float) : option Q :=
  match x with
  | S754_zero _ => Some 0%Q
  | S754_finite s m e =>
      Some (Qred (inject_Z (cond_Zopp s (Zpos m)) * Qpower 2 e))%Q
  | _ => None
  end.

End F32.

(** ** Device memory and the conversion buffer *)

(** Little-endian value of a run of bytes. *)
Fixpoint le_decode (bs : list byte) : Z :=
  match bs with
  | [] => 0
  | b :: r => byteZ b + 256 * le_decode r
  end.

(** [((const T* )mem)[i]] for a [width]-byte type [T]: [None] when the
    element does not lie inside the buffer. *)
Definition load (width : nat) (mem : list byte) (i : Z) : option Z :=
  let bs := take width (drop (Z.to_nat i * width) mem) in
  if decide (length bs = width) then Some (le_decode bs) else None.

Definition load_i16 (mem : list byte) (i : Z) : option Z :=
  signed 16 <$> load 2 mem i.

Definition load_i32 (mem : list byte) (i : Z) : option Z :=
  signed 32 <$> load 4 mem i.

Definition load_f32 (mem : list byte) (i : Z) : option spec_float :=
  F32.of_bits <$> load 4 mem i.

(** [pDest[i] = v]: [None] when [i] is outside the buffer. *)
Definition store (buf : list spec_float) (i : Z) (v : spec_float)
  : option (list spec_float) :=
  if decide (Z.to_nat i < length buf)%nat
  then Some (<[Z.to_nat i := v]> buf) else None.

(** [for (i = lo; i < lo + n; ++i) body], threading the state [s]. *)
Fixpoint for_loop {S : Type} (n : nat) (i : Z) (body : Z -> S -> option S) (s : S)
  : option S :=
  match n with
  | O => Some s
  | Datatypes.S n' =>
      match body i s with
      | Some s' => for_loop n' (i + 1) body s'
      | None => None
      end
  end.

(** ** The negotiated wave format *)

Record WAVEFORMATEX := {
  wFormatTag : Z;
  nChannels : Z;
  nSamplesPerSec : Z;
  nBlockAlign : Z;
  wBitsPerSample : Z
}.

Definition WAVE_FORMAT_PCM : Z := 1.
Definition WAVE_FORMAT_IEEE_FLOAT : Z := 3.

(** ** Sample Converter: [WasapiCapture::convertToFloat32] *)

(** [1.0f / 32768.0f] and [1.0f / 2147483648.0f]. *)
Definition scale16 : spec_float := F32.div (F32.of_int 1) (F32.of_int 32768).
Definition scale32 : spec_float := F32.div (F32.of_int 1) (F32.of_int 2147483648).

(** [static_cast<float>(s) * scale]. *)
Definition sample16 (s : Z) : spec_float := F32.mul (F32.of_int s) scale16.
Definition sample32 (s : Z) : spec_float := F32.mul (F32.of_int s) scale32.

(** [std::copy(src, src + count, pDest)] over [float] elements. *)
Definition copy_floats (pSource : list byte) (count : Z) (pDest : list spec_float)
  : option (list spec_float) :=
  for_loop (Z.to_nat count) 0
    (fun i buf => match load_f32 pSource i with
                  | Some v => store buf i v
                  | None => None
                  end) pDest.

(** [std::fill(pDest, pDest + count, 0.0f)]. *)
Definition fill_zero (count : Z) (pDest : list spec_float) : option (list spec_float) :=
  for_loop (Z.to_nat count) 0 (fun i buf => store buf i F32.zero) pDest.

(** The two nested loops over frames and channels.  The index
    [frame * channels + ch] is computed in 32-bit unsigned arithmetic. *)
Definition pcm_loop (conv : Z -> option spec_float) (numFrames channels : Z)
  (pDest : list spec_float) : option (list spec_float) :=
  for_loop (Z.to_nat numFrames) 0
    (fun frame buf =>
       for_loop (Z.to_nat channels) 0
         (fun ch buf =>
            let srcIdx := wrap32 (wrap32 (frame * channels) + ch) in
            let destIdx := wrap32 (wrap32 (frame * channels) + ch) in
            match conv srcIdx with
            | Some v => store buf destIdx v
            | None => None
            end) buf) pDest.

(** Pointers are [option]s, [None] being the null pointer.  The result is
    the destination buffer after the call; [None] means that the call
    touched memory outside one of the buffers. *)
Definition convertToFloat32 (m_waveFormat : option WAVEFORMATEX)
  (pSource : option (list byte)) (pDest : option (list spec_float)) (numFrames : Z)
  : option (option (list spec_float)) :=
  match pSource, pDest, m_waveFormat with
  | Some src, Some dst, Some wf =>
      if numFrames =? 0 then Some pDest else
      let bitsPerSample := wBitsPerSample wf in
      let channels := nChannels wf in
      Some <$>
      (if wFormatTag wf =? WAVE_FORMAT_IEEE_FLOAT then
         copy_floats src (wrap32 (numFrames * channels)) dst
       else if wFormatTag wf =? WAVE_FORMAT_PCM then
         if bitsPerSample =? 16 then
           pcm_loop (fun i => sample16 <$> load_i16 src i) numFrames channels dst
         else if bitsPerSample =? 32 then
           pcm_loop (fun i => sample32 <$> load_i32 src i) numFrames channels dst
         else
           fill_zero (wrap32 (numFrames * channels)) dst
       else
         fill_zero (wrap32 (numFrames * channels)) dst)
  | _, _, _ => Some pDest
  end.


(** ** IEEE binary64 ([double]) and conversions between the two formats *)

Module F64.

Definition prec : Z := 53.
Definition emax : Z := 1024.

Definition zero : spec_float := S754_zero false.

(** [static_cast<double>(z)] for an integer [z]. *)
Definition of_int (z : Z) : spec_float := binary_normalize prec emax z 0 false.

(** [static_cast<double>(x)] for a [float] [x]: exact. *)
Definition of_float (x : spec_float) : spec_float :=
  match x with
  | S754_finite s m e => binary_round prec emax s m e
  | _ => x
  end.

(** [static_cast<float>(x)] for a [double] [x]: rounds to nearest even. *)
Definition to_float (x : spec_float) : spec_float :=
  match x with
  | S754_finite s m e => binary_round F32.prec F32.emax s m e
  | _ => x
  end.

Definition add : spec_float -> spec_float -> spec_float := SFadd prec emax.
Definition mul : spec_float -> spec_float -> spec_float := SFmul prec emax.
Definition div : spec_float -> spec_float -> spec_float := SFdiv prec emax.
Definition sqrt : spec_float -> spec_float := SFsqrt prec emax.

End F64.

(** ** Shared value types

    Modelled from the spec: [common/audio-format.h] and [common/types.h]
    are not among the sources.  The Format Descriptor is
    [{ sampleRate, channelCount }], [samplesPerFrame()] is the number of
    samples of one frame, that is the channel count, and
    [common::ChannelCount] is taken wide enough to hold the [UINT16]
    channel count of the wave format.  A Per-Channel Level is
    [{ left, right }] and a Meter Snapshot is [{ peak, rms, timestampMs }],
    the field names being those [audio-engine.cpp] assigns. *)

Record AudioFormat := {
  sampleRate : Z;
  channelCount : Z
}.

Definition samplesPerFrame (f : AudioFormat) : Z := channelCount f.

Record PerChannelLevel := {
  level_left : spec_float;
  level_right : spec_float
}.

Record MeterSnapshot := {
  peak : PerChannelLevel;
  rms : PerChannelLevel;
  timestampMs : Z
}.

(** ** Level Meters

    Modelled from the spec: [core/meters/peak-meter.cpp] and
    [core/meters/rms-meter.cpp] are not among the sources.  Section 4.3:
    the Peak Meter reports, per channel, the maximum absolute value of the
    channel's samples, clamped to [0, 1]; the RMS Meter accumulates the sum
    of squares in double precision, divides by the channel's sample count,
    takes the square root and clamps to [0, 1]; a zero-length buffer gives
    level 0.0; for mono input right is equal to left. *)

Module Meters.

Definition one : spec_float := F32.of_int 1.

(** The samples of channel [c] in an interleaved buffer of [frameCount]
    frames. *)
Definition channel (buffer : list spec_float) (frameCount channels : Z) (c : Z)
  : list spec_float :=
  omap (fun f => buffer !! Z.to_nat (Z.of_nat f * channels + c))
       (seq 0 (Z.to_nat frameCount)).

Definition fmax (a b : spec_float) : spec_float :=
  if SFltb a b then b else a.

Definition clamp01 (x : spec_float) : spec_float :=
  if SFltb one x then one
  else if SFltb x F32.zero then F32.zero
  else x.

Definition peak_level (samples : list spec_float) : spec_float :=
  clamp01 (fold_left (fun acc x => fmax acc (SFabs x)) samples F32.zero).

Definition sum_squares (samples : list spec_float) : spec_float :=
  fold_left (fun acc x => F64.add acc (F64.mul (F64.of_float x) (F64.of_float x)))
            samples F64.zero.

Definition rms_level (samples : list spec_float) (frameCount : Z) : spec_float :=
  if frameCount =? 0 then F32.zero
  else clamp01 (F64.to_float
                  (F64.sqrt (F64.div (sum_squares samples) (F64.of_int frameCount)))).

Definition per_channel (level : list spec_float -> spec_float)
  (buffer : list spec_float) (frameCount : Z) (format : AudioFormat)
  : PerChannelLevel :=
  let l := level (channel buffer frameCount (channelCount format) 0) in
  let r := if channelCount format =? 1 then l
           else level (channel buffer frameCount (channelCount format) 1) in
  {| level_left := l; level_right := r |}.

(** [PeakMeter::process] *)
Definition PeakMeter_process (buffer : list spec_float) (frameCount : Z)
  (format : AudioFormat) : PerChannelLevel :=
  per_channel peak_level buffer frameCount format.

(** [RmsMeter::process] *)
Definition RmsMeter_process (buffer : list spec_float) (frameCount : Z)
  (format : AudioFormat) : PerChannelLevel :=
  per_channel (fun s => rms_level s frameCount) buffer frameCount format.

End Meters.

(** ** Observers and the operating system *)

(** An [IAudioDataCallback*]: null, the engine's own Metering Adapter
    ([&m_meteringCallback]), or an object of the application. *)
Inductive IAudioDataCallbackPtr :=
| nullptr
| metering_adapter
| observer (id : nat).

Definition ptr_eqb (a b : IAudioDataCallbackPtr) : bool :=
  match a, b with
  | nullptr, nullptr => true
  | metering_adapter, metering_adapter => true
  | observer i, observer j => Nat.eqb i j
  | _, _ => false
  end.

Definition is_null (p : IAudioDataCallbackPtr) : bool := ptr_eqb p nullptr.

(** What the process holds of the operating system. *)
Inductive Resource :=
| ComLibrary
| DeviceEnumerator
| Device
| AudioClient
| CaptureClient
| MixFormat
| StopEvent
| CaptureThread.

Definition Resource_eqb (a b : Resource) : bool :=
  match a, b with
  | ComLibrary, ComLibrary | DeviceEnumerator, DeviceEnumerator
  | Device, Device | AudioClient, AudioClient
  | CaptureClient, CaptureClient | MixFormat, MixFormat
  | StopEvent, StopEvent | CaptureThread, CaptureThread => true
  | _, _ => false
  end.

(** The calls that leave the object, in the order they are made. *)
Inductive Event :=
| Acquire (r : Resource)          (* CoInitializeEx, CoCreateInstance, Activate, ... *)
| Release (r : Resource)          (* CoUninitialize, Release, CoTaskMemFree, CloseHandle *)
| StreamStart                     (* IAudioClient::Start *)
| StreamStop                      (* IAudioClient::Stop *)
| EventReset                      (* ResetEvent(m_stopEvent) *)
| EventSet                        (* SetEvent(m_stopEvent) *)
| EventWait (result : Z)          (* WaitForMultipleObjects on m_stopEvent *)
| ThreadPriority                  (* SetThreadPriority *)
| ThreadJoin                      (* WaitForSingleObject(m_captureThread, INFINITE) *)
| BufferGet (frames : Z)          (* GetBuffer succeeded *)
| BufferGetFailed (hr : Z)        (* GetBuffer failed *)
| BufferRelease (frames : Z)      (* ReleaseBuffer *)
| OnAudioData (cb : IAudioDataCallbackPtr) (buffer : list spec_float)
              (frameCount : Z) (format : AudioFormat)
| OnMeterData (cb : IAudioDataCallbackPtr) (snapshot : MeterSnapshot).

(** [HRESULT] is a signed 32-bit integer; [FAILED] tests the sign. *)
Definition FAILED (hr : Z) : bool := hr <? 0.
Definition S_OK : Z := 0.
Definition RPC_E_CHANGED_MODE : Z := signed 32 0x80010106.
Definition AUDCLNT_E_BUFFER_ERROR : Z := signed 32 0x88890018.
Definition WAIT_OBJECT_0 : Z := 0.
Definition WAIT_TIMEOUT : Z := 258.
Definition AUDCLNT_BUFFERFLAGS_SILENT : Z := 2.

(** Resources acquired and not yet released, counted over a log. *)
Definition outstanding (r : Resource) (log : list Event) : Z :=
  fold_left (fun n e =>
               match e with
               | Acquire r' => if Resource_eqb r r' then n + 1 else n
               | Release r' => if Resource_eqb r r' then n - 1 else n
               | _ => n
               end) log 0.

(** Whether the device stream runs after the calls of a log, given whether
    it ran before. *)
Definition stream_running (before : bool) (log : list Event) : bool :=
  fold_left (fun b e =>
               match e with
               | StreamStart => true
               | StreamStop => false
               | _ => b
               end) log before.

(** ** Callback Registration Set: a [std::vector] of pointers *)

(** [if (!callback) return; m_callbacks.push_back(callback);] *)
Definition vector_register (callback : IAudioDataCallbackPtr)
  (callbacks : list IAudioDataCallbackPtr) : list IAudioDataCallbackPtr :=
  if is_null callback then callbacks else callbacks ++ [callback].

(** [if (!callback) return;
     m_callbacks.erase(std::remove(begin, end, callback), end);] *)
Definition vector_unregister (callback : IAudioDataCallbackPtr)
  (callbacks : list IAudioDataCallbackPtr) : list IAudioDataCallbackPtr :=
  if is_null callback then callbacks
  else List.filter (fun c => negb (ptr_eqb c callback)) callbacks.

(** ** The normalized buffer: a [std::vector<float>] *)

(** [v.data()] for a [std::vector<float>]: the pointer to its storage,
    null for a vector that holds no sample. *)
Definition vector_data (v : list spec_float) : option (list spec_float) :=
  match v with
  | [] => None
  | _ => Some v
  end.

(** ** Device Capture Engine: [WasapiCapture] *)

Module WasapiCapture.

(** The data members.  A COM interface pointer or handle is [true] when it
    is not null. *)
Record t := mk {
  m_deviceEnumerator : bool;
  m_device : bool;
  m_audioClient : bool;
  m_captureClient : bool;
  m_waveFormat : option WAVEFORMATEX;
  m_format : AudioFormat;
  m_capturing : bool;
  m_captureThread : bool;
  m_stopEvent : bool;
  m_callbacks : list IAudioDataCallbackPtr;
  m_floatBuffer : list spec_float;
  m_comInitialized : bool
}.

(** The object after construction; [fmt] is the default-constructed
    Format Descriptor. *)
Definition constructed (fmt : AudioFormat) : t :=
  mk false false false false None fmt false false false [] [] false.

Definition set_deviceEnumerator (v : bool) (s : t) : t :=
  mk v (m_device s) (m_audioClient s) (m_captureClient s) (m_waveFormat s)
     (m_format s) (m_capturing s) (m_captureThread s) (m_stopEvent s)
     (m_callbacks s) (m_floatBuffer s) (m_comInitialized s).

Definition set_device (v : bool) (s : t) : t :=
  mk (m_deviceEnumerator s) v (m_audioClient s) (m_captureClient s) (m_waveFormat s)
     (m_format s) (m_capturing s) (m_captureThread s) (m_stopEvent s)
     (m_callbacks s) (m_floatBuffer s) (m_comInitialized s).

Definition set_audioClient (v : bool) (s : t) : t :=
  mk (m_deviceEnumerator s) (m_device s) v (m_captureClient s) (m_waveFormat s)
     (m_format s) (m_capturing s) (m_captureThread s) (m_stopEvent s)
     (m_callbacks s) (m_floatBuffer s) (m_comInitialized s).

Definition set_captureClient (v : bool) (s : t) : t :=
  mk (m_deviceEnumerator s) (m_device s) (m_audioClient s) v (m_waveFormat s)
     (m_format s) (m_capturing s) (m_captureThread s) (m_stopEvent s)
     (m_callbacks s) (m_floatBuffer s) (m_comInitialized s).

Definition set_waveFormat (v : option WAVEFORMATEX) (s : t) : t :=
  mk (m_deviceEnumerator s) (m_device s) (m_audioClient s) (m_captureClient s) v
     (m_format s) (m_capturing s) (m_captureThread s) (m_stopEvent s)
     (m_callbacks s) (m_floatBuffer s) (m_comInitialized s).

Definition set_format (v : AudioFormat) (s : t) : t :=
  mk (m_deviceEnumerator s) (m_device s) (m_audioClient s) (m_captureClient s)
     (m_waveFormat s) v (m_capturing s) (m_captureThread s) (m_stopEvent s)
     (m_callbacks s) (m_floatBuffer s) (m_comInitialized s).

Definition set_capturing (v : bool) (s : t) : t :=
  mk (m_deviceEnumerator s) (m_device s) (m_audioClient s) (m_captureClient s)
     (m_waveFormat s) (m_format s) v (m_captureThread s) (m_stopEvent s)
     (m_callbacks s) (m_floatBuffer s) (m_comInitialized s).

Definition set_captureThread (v : bool) (s : t) : t :=
  mk (m_deviceEnumerator s) (m_device s) (m_audioClient s) (m_captureClient s)
     (m_waveFormat s) (m_format s) (m_capturing s) v (m_stopEvent s)
     (m_callbacks s) (m_floatBuffer s) (m_comInitialized s).

Definition set_stopEvent (v : bool) (s : t) : t :=
  mk (m_deviceEnumerator s) (m_device s) (m_audioClient s) (m_captureClient s)
     (m_waveFormat s) (m_format s) (m_capturing s) (m_captureThread s) v
     (m_callbacks s) (m_floatBuffer s) (m_comInitialized s).

Definition set_callbacks (v : list IAudioDataCallbackPtr) (s : t) : t :=
  mk (m_deviceEnumerator s) (m_device s) (m_audioClient s) (m_captureClient s)
     (m_waveFormat s) (m_format s) (m_capturing s) (m_captureThread s) (m_stopEvent s)
     v (m_floatBuffer s) (m_comInitialized s).

Definition set_floatBuffer (v : list spec_float) (s : t) : t :=
  mk (m_deviceEnumerator s) (m_device s) (m_audioClient s) (m_captureClient s)
     (m_waveFormat s) (m_format s) (m_capturing s) (m_captureThread s) (m_stopEvent s)
     (m_callbacks s) v (m_comInitialized s).

Definition set_comInitialized (v : bool) (s : t) : t :=
  mk (m_deviceEnumerator s) (m_device s) (m_audioClient s) (m_captureClient s)
     (m_waveFormat s) (m_format s) (m_capturing s) (m_captureThread s) (m_stopEvent s)
     (m_callbacks s) (m_floatBuffer s) v.

(** [releaseCom] *)
Definition releaseCom (s : t) : t * list Event :=
  if m_comInitialized s
  then (set_comInitialized false s, [Release ComLibrary])
  else (s, []).

(** [releaseAudioClient] *)
Definition releaseAudioClient (s : t) : t * list Event :=
  let '(s, l1) := if m_captureClient s
                  then (set_captureClient false s, [Release CaptureClient])
                  else (s, []) in
  let '(s, l2) := if m_audioClient s
                  then (set_audioClient false s, [Release AudioClient])
                  else (s, []) in
  let '(s, l3) := if m_device s
                  then (set_device false s, [Release Device])
                  else (s, []) in
  let '(s, l4) := if m_deviceEnumerator s
                  then (set_deviceEnumerator false s, [Release DeviceEnumerator])
                  else (s, []) in
  let '(s, l5) := match m_waveFormat s with
                  | Some _ => (set_waveFormat None s, [Release MixFormat])
                  | None => (s, [])
                  end in
  (s, l1 ++ l2 ++ l3 ++ l4 ++ l5).

(** What the operating system answers during [initialize].  A call that
    fails leaves a null pointer in its out parameter. *)
Record InitOracle := {
  hrCoInitializeEx : Z;
  hrCoCreateInstance : Z;
  hrGetDefaultAudioEndpoint : Z;
  hrActivate : Z;
  hrGetMixFormat : Z;
  mixFormat : WAVEFORMATEX;
  hrInitialize : Z;
  hrGetService : Z;
  createEvent : bool
}.

(** [releaseCom(); return false;] *)
Definition fail_releaseCom (s : t) (log : list Event) : bool * t * list Event :=
  let '(s, l) := releaseCom s in (false, s, log ++ l).

(** [CoTaskMemFree(m_waveFormat); m_waveFormat = nullptr; releaseCom();
     return false;] *)
Definition fail_freeFormat (s : t) (log : list Event) : bool * t * list Event :=
  fail_releaseCom (set_waveFormat None s) (log ++ [Release MixFormat]).

(** [initialize] *)
Definition initialize (os : InitOracle) (s : t) : bool * t * list Event :=
  if m_comInitialized s then (true, s, []) else
  let hr := hrCoInitializeEx os in
  if FAILED hr && negb (hr =? RPC_E_CHANGED_MODE) then (false, s, []) else
  let log := if FAILED hr then [] else [Acquire ComLibrary] in
  let s := set_comInitialized true s in
  (* Create device enumerator *)
  let hr := hrCoCreateInstance os in
  if FAILED hr then fail_releaseCom (set_deviceEnumerator false s) log else
  let s := set_deviceEnumerator true s in
  let log := log ++ [Acquire DeviceEnumerator] in
  (* Get default audio render device *)
  let hr := hrGetDefaultAudioEndpoint os in
  if FAILED hr then fail_releaseCom (set_device false s) log else
  let s := set_device true s in
  let log := log ++ [Acquire Device] in
  (* Activate audio client *)
  let hr := hrActivate os in
  if FAILED hr then fail_releaseCom (set_audioClient false s) log else
  let s := set_audioClient true s in
  let log := log ++ [Acquire AudioClient] in
  (* Get mix format *)
  let hr := hrGetMixFormat os in
  if FAILED hr then fail_releaseCom (set_waveFormat None s) log else
  let wf := mixFormat os in
  let s := set_waveFormat (Some wf) s in
  let log := log ++ [Acquire MixFormat] in
  (* Validate format (must be PCM or float) *)
  if negb (wFormatTag wf =? WAVE_FORMAT_PCM)
     && negb (wFormatTag wf =? WAVE_FORMAT_IEEE_FLOAT)
  then fail_freeFormat s log else
  (* Store format *)
  let s := set_format {| sampleRate := nSamplesPerSec wf;
                         channelCount := nChannels wf |} s in
  (* Validate channel count *)
  if (channelCount (m_format s) <? 1) || (channelCount (m_format s) >? 2)
  then fail_freeFormat s log else
  (* Initialize audio client for loopback *)
  let hr := hrInitialize os in
  if FAILED hr then fail_freeFormat s log else
  (* Get capture client *)
  let hr := hrGetService os in
  if FAILED hr then fail_releaseCom (set_captureClient false s) log else
  let s := set_captureClient true s in
  let log := log ++ [Acquire CaptureClient] in
  (* Create stop event *)
  if negb (createEvent os) then fail_releaseCom (set_stopEvent false s) log else
  let s := set_stopEvent true s in
  let log := log ++ [Acquire StopEvent] in
  (true, s, log).

Record StartOracle := {
  hrStart : Z;
  createThread : bool
}.

(** [start] *)
Definition start (os : StartOracle) (s : t) : bool * t * list Event :=
  if m_capturing s then (true, s, []) else
  if negb (m_audioClient s) || negb (m_captureClient s) then (false, s, []) else
  let log := [EventReset] in
  if FAILED (hrStart os) then (false, s, log) else
  let log := log ++ [StreamStart] in
  let s := set_capturing true s in
  if negb (createThread os) then
    (false, set_capturing false (set_captureThread false s), log ++ [StreamStop])
  else
    (true, set_captureThread true s, log ++ [Acquire CaptureThread; ThreadPriority]).

(** [stop] *)
Definition stop (s : t) : t * list Event :=
  if negb (m_capturing s) then (s, []) else
  let s := set_capturing false s in
  let l1 := if m_stopEvent s then [EventSet] else [] in
  let l2 := if m_audioClient s then [StreamStop] else [] in
  if m_captureThread s
  then (set_captureThread false s, l1 ++ l2 ++ [ThreadJoin; Release CaptureThread])
  else (s, l1 ++ l2).

(** [shutdown] *)
Definition shutdown (s : t) : t * list Event :=
  let '(s, l1) := stop s in
  let '(s, l2) := releaseAudioClient s in
  let '(s, l3) := releaseCom s in
  if m_stopEvent s
  then (set_stopEvent false s, l1 ++ l2 ++ l3 ++ [Release StopEvent])
  else (s, l1 ++ l2 ++ l3).

Definition getFormat (s : t) : AudioFormat := m_format s.
Definition isCapturing (s : t) : bool := m_capturing s.

Definition registerCallback (callback : IAudioDataCallbackPtr) (s : t) : t :=
  set_callbacks (vector_register callback (m_callbacks s)) s.

Definition unregisterCallback (callback : IAudioDataCallbackPtr) (s : t) : t :=
  set_callbacks (vector_unregister callback (m_callbacks s)) s.

(** What a call of [callback->onAudioData(buffer, frameCount, format)] does:
    the callee is chosen by the object the pointer refers to. *)
Definition Delivery : Type :=
  IAudioDataCallbackPtr -> list spec_float -> Z -> AudioFormat -> list Event.

(** The loop over [m_callbacks] in [processAudioData]. *)
Definition fan_out (deliver : Delivery) (s : t) (frameCount : Z) : list Event :=
  flat_map (fun callback =>
              if is_null callback then []
              else deliver callback (m_floatBuffer s) frameCount (m_format s))
           (m_callbacks s).

(** [processAudioData].  [None]: the conversion touched memory outside a
    buffer.  The converter is given [m_floatBuffer.data()] and returns at
    once on a null pointer, leaving the resized buffer as it is. *)
Definition processAudioData (deliver : Delivery) (s : t)
  (pData : option (list byte)) (numFramesAvailable : Z) (flags : Z)
  : option (t * list Event) :=
  match pData with
  | None => Some (s, [])
  | Some data =>
      if numFramesAvailable =? 0 then Some (s, []) else
      let totalSamples := numFramesAvailable * samplesPerFrame (m_format s) in
      let resized := resize (Z.to_nat totalSamples) F32.zero (m_floatBuffer s) in
      let converted :=
        if negb (Z.land flags AUDCLNT_BUFFERFLAGS_SILENT =? 0)
        then Some (replicate (length resized) F32.zero)
        else
          match convertToFloat32 (m_waveFormat s) (Some data) (vector_data resized)
                                 numFramesAvailable with
          | Some (Some buffer) => Some buffer
          | Some None => Some resized   (* null [pDest]: nothing is written *)
          | None => None
          end in
      match converted with
      | Some buffer =>
          let s := set_floatBuffer buffer s in
          Some (s, fan_out deliver s numFramesAvailable)
      | None => None
      end
  end.

(** What the capture thread observes in one turn of its loop: the shared
    flag, the outcome of the wait, and the answer of [GetBuffer]. *)
Record Iteration := {
  capturing : bool;
  waitResult : Z;
  hrGetBuffer : Z;
  pData : option (list byte);
  numFramesAvailable : Z;
  flags : Z
}.

Inductive LoopStatus :=
| Exited      (* the loop was left *)
| Polling.    (* every observation was consumed; the loop goes on *)

(** [captureThread], run over the observations of its successive turns.
    A turn entered with the flag set begins with the wait on the stop
    event. *)
Fixpoint captureThread (deliver : Delivery) (turns : list Iteration) (s : t)
  : option (t * list Event * LoopStatus) :=
  match turns with
  | [] => Some (s, [], Polling)
  | it :: rest =>
      if negb (capturing it) then Some (s, [], Exited) else
      let wait := EventWait (waitResult it) in
      if waitResult it =? WAIT_OBJECT_0 then Some (s, [wait], Exited) else
      if FAILED (hrGetBuffer it) then
        match captureThread deliver rest s with
        | Some (s', log, status) =>
            Some (s', wait :: BufferGetFailed (hrGetBuffer it) :: log, status)
        | None => None
        end
      else if numFramesAvailable it =? 0 then
        match captureThread deliver rest s with
        | Some (s', log, status) =>
            Some (s', wait :: BufferGet 0 :: BufferRelease 0 :: log, status)
        | None => None
        end
      else
        match (match pData it with
               | Some _ => processAudioData deliver s (pData it)
                                            (numFramesAvailable it) (flags it)
               | None => Some (s, [])
               end) with
        | Some (s1, l1) =>
            match captureThread deliver rest s1 with
            | Some (s', log, status) =>
                Some (s', wait :: BufferGet (numFramesAvailable it) :: l1
                          ++ BufferRelease (numFramesAvailable it) :: log, status)
            | None => None
            end
        | None => None
        end
  end.

End WasapiCapture.

(** ** Metering Adapter and Audio Engine facade *)

Module AudioEngine.

Record t := mk {
  m_capture : WasapiCapture.t;
  m_callbacks : list IAudioDataCallbackPtr
}.

(** The object after construction. *)
Definition constructed (fmt : AudioFormat) : t :=
  mk (WasapiCapture.constructed fmt) [].

(** [callback->onMeterData(snapshot)]: the adapter's own [onMeterData]
    ignores the snapshot, an object of the application receives it. *)
Definition call_onMeterData (callback : IAudioDataCallbackPtr)
  (snapshot : MeterSnapshot) : list Event :=
  match callback with
  | observer _ => [OnMeterData callback snapshot]
  | _ => []
  end.

(** [forwardMeterData] *)
Definition forwardMeterData (callbacks : list IAudioDataCallbackPtr)
  (snapshot : MeterSnapshot) : list Event :=
  flat_map (fun callback =>
              if is_null callback then []
              else call_onMeterData callback snapshot) callbacks.

(** [MeteringCallback::onAudioData]; [callbacks] are the registrations of
    the engine the adapter points back to. *)
Definition MeteringCallback_onAudioData (callbacks : list IAudioDataCallbackPtr)
  (buffer : option (list spec_float)) (frameCount : Z) (format : AudioFormat)
  : list Event :=
  match buffer with
  | None => []
  | Some samples =>
      if frameCount =? 0 then [] else
      let peak := Meters.PeakMeter_process samples frameCount format in
      let rms := Meters.RmsMeter_process samples frameCount format in
      let snapshot := {| peak := peak; rms := rms; timestampMs := 0 |} in
      forwardMeterData callbacks snapshot
  end.

(** The virtual call [callback->onAudioData(m_floatBuffer.data(), ...)]
    made by the capture engine.  The adapter tests the pointer it is
    given, [m_floatBuffer.data()]; an observer is recorded with the
    samples the pointer gives access to. *)
Definition call_onAudioData (callbacks : list IAudioDataCallbackPtr)
  : WasapiCapture.Delivery :=
  fun callback buffer frameCount format =>
    match callback with
    | nullptr => []
    | metering_adapter =>
        MeteringCallback_onAudioData callbacks (vector_data buffer) frameCount format
    | observer _ => [OnAudioData callback buffer frameCount format]
    end.

(** [initialize] *)
Definition initialize (os : WasapiCapture.InitOracle) (e : t) : bool * t * list Event :=
  let '(ok, c, log) := WasapiCapture.initialize os (m_capture e) in
  if negb ok then (false, mk c (m_callbacks e), log)
  else (true, mk (WasapiCapture.registerCallback metering_adapter c) (m_callbacks e), log).

(** [start] *)
Definition start (os : WasapiCapture.StartOracle) (e : t) : bool * t * list Event :=
  let '(ok, c, log) := WasapiCapture.start os (m_capture e) in
  (ok, mk c (m_callbacks e), log).

(** [stop] *)
Definition stop (e : t) : t * list Event :=
  let '(c, log) := WasapiCapture.stop (m_capture e) in
  (mk c (m_callbacks e), log).

(** [shutdown] *)
Definition shutdown (e : t) : t * list Event :=
  let '(e, l1) := stop e in
  let c := WasapiCapture.unregisterCallback metering_adapter (m_capture e) in
  let '(c, l2) := WasapiCapture.shutdown c in
  (mk c [], l1 ++ l2).

Definition registerCallback (callback : IAudioDataCallbackPtr) (e : t) : t :=
  mk (m_capture e) (vector_register callback (m_callbacks e)).

Definition unregisterCallback (callback : IAudioDataCallbackPtr) (e : t) : t :=
  mk (m_capture e) (vector_unregister callback (m_callbacks e)).

Definition getFormat (e : t) : AudioFormat := WasapiCapture.getFormat (m_capture e).
Definition isCapturing (e : t) : bool := WasapiCapture.isCapturing (m_capture e).

(** The capture thread of the engine's capture object. *)
Definition captureThread (e : t) (turns : list WasapiCapture.Iteration)
  : option (WasapiCapture.t * list Event * WasapiCapture.LoopStatus) :=
  WasapiCapture.captureThread (call_onAudioData (m_callbacks e)) turns (m_capture e).

End AudioEngine.

(** * Predicates and instances used in the statements *)

(** ** Loop invariants

    [filled conv buf0 k buf]: the first [k] cells of [buf] hold the values
    [conv] gives for their indices, the rest is as in [buf0]. *)
Definition filled (conv : Z -> option spec_float) (buf0 : list spec_float)
  (k : Z) (buf : list spec_float) : Prop :=
  length buf = length buf0 /\
  forall i : nat,
    (Z.of_nat i < k -> buf !! i = conv (Z.of_nat i)) /\
    (k <= Z.of_nat i -> buf !! i = buf0 !! i).

(** ** Exact values

    [denotes x q]: the float [x] is finite and its value is the rational [q]. *)
Definition denotes (x : spec_float) (q : Q) : Prop :=
  exists r, F32.to_Q x = Some r /\ (r == q)%Q.

Definition denotesb (x : spec_float) (q : Q) : bool :=
  match F32.to_Q x with
  | Some r => Qeq_bool r q
  | None => false
  end.

(** The bits shifted out of a mantissa, as the record of [shr] keeps them:
    [n] is the number shifted [j] places, [rem] what was shifted out, and
    the round and sticky bits place [rem] against half a unit. *)
Definition shifted (n j : Z) (x : shr_record) : Prop :=
  0 <= shr_m x
  /\ exists rem,
       n = shr_m x * 2 ^ j + rem /\ 0 <= rem < 2 ^ j
       /\ match shr_r x, shr_s x with
          | false, false => rem = 0
          | false, true => 0 < 2 * rem < 2 ^ j
          | true, false => 2 * rem = 2 ^ j
          | true, true => 2 ^ j < 2 * rem
          end.

(** [P] holds of the [n] integers from [lo] on. *)
Fixpoint all_from (n : nat) (lo : Z) (P : Z -> bool) : bool :=
  match n with
  | O => true
  | Datatypes.S n' => P lo && all_from n' (lo + 1) P
  end.

(** ** Sample kinds of the native format *)

Definition is_float32 (wf : WAVEFORMATEX) : Prop :=
  wFormatTag wf = WAVE_FORMAT_IEEE_FLOAT /\ wBitsPerSample wf = 32.

Definition is_int16 (wf : WAVEFORMATEX) : Prop :=
  wFormatTag wf = WAVE_FORMAT_PCM /\ wBitsPerSample wf = 16.

Definition is_int32 (wf : WAVEFORMATEX) : Prop :=
  wFormatTag wf = WAVE_FORMAT_PCM /\ wBitsPerSample wf = 32.

(** ** Silence *)

Definition zero_level : PerChannelLevel :=
  {| level_left := F32.zero; level_right := F32.zero |}.

Definition zero_snapshot : MeterSnapshot :=
  {| peak := zero_level; rms := zero_level; timestampMs := 0 |}.

(** ** Formats and device answers *)

(** The sample kinds the converter knows: int16, int32 and float32. *)
Definition supported_kind (wf : WAVEFORMATEX) : bool :=
  ((wFormatTag wf =? WAVE_FORMAT_IEEE_FLOAT) && (wBitsPerSample wf =? 32))
  || ((wFormatTag wf =? WAVE_FORMAT_PCM)
      && ((wBitsPerSample wf =? 16) || (wBitsPerSample wf =? 32))).

(** What [initialize] checks of the negotiated format. *)
Definition format_accepted (wf : WAVEFORMATEX) : bool :=
  ((wFormatTag wf =? WAVE_FORMAT_PCM) || (wFormatTag wf =? WAVE_FORMAT_IEEE_FLOAT))
  && (1 <=? nChannels wf) && (nChannels wf <=? 2).

(** Every call of [initialize] into the operating system succeeds. *)
Definition calls_succeed (os : WasapiCapture.InitOracle) : bool :=
  negb (FAILED (WasapiCapture.hrCoInitializeEx os))
  && negb (FAILED (WasapiCapture.hrCoCreateInstance os))
  && negb (FAILED (WasapiCapture.hrGetDefaultAudioEndpoint os))
  && negb (FAILED (WasapiCapture.hrActivate os))
  && negb (FAILED (WasapiCapture.hrGetMixFormat os))
  && negb (FAILED (WasapiCapture.hrInitialize os))
  && negb (FAILED (WasapiCapture.hrGetService os))
  && WasapiCapture.createEvent os.

(** A device whose every call succeeds and whose mix format is [wf]. *)
Definition device_with (wf : WAVEFORMATEX) : WasapiCapture.InitOracle :=
  {| WasapiCapture.hrCoInitializeEx := S_OK;
     WasapiCapture.hrCoCreateInstance := S_OK;
     WasapiCapture.hrGetDefaultAudioEndpoint := S_OK;
     WasapiCapture.hrActivate := S_OK;
     WasapiCapture.hrGetMixFormat := S_OK;
     WasapiCapture.mixFormat := wf;
     WasapiCapture.hrInitialize := S_OK;
     WasapiCapture.hrGetService := S_OK;
     WasapiCapture.createEvent := true |}.

(** 48 kHz stereo PCM of [bits] bits per sample. *)
Definition pcm_stereo (bits : Z) : WAVEFORMATEX :=
  {| wFormatTag := WAVE_FORMAT_PCM; nChannels := 2; nSamplesPerSec := 48000;
     nBlockAlign := 2 * (bits / 8); wBitsPerSample := bits |}.

Definition E_FAIL : Z := signed 32 0x80004005.

(** The enumerator is created, but there is no default render endpoint. *)
Definition no_endpoint : WasapiCapture.InitOracle :=
  {| WasapiCapture.hrCoInitializeEx := S_OK;
     WasapiCapture.hrCoCreateInstance := S_OK;
     WasapiCapture.hrGetDefaultAudioEndpoint := E_FAIL;
     WasapiCapture.hrActivate := S_OK;
     WasapiCapture.hrGetMixFormat := S_OK;
     WasapiCapture.mixFormat := pcm_stereo 16;
     WasapiCapture.hrInitialize := S_OK;
     WasapiCapture.hrGetService := S_OK;
     WasapiCapture.createEvent := true |}.

(** Everything succeeds up to [GetService], which fails. *)
Definition no_capture_service : WasapiCapture.InitOracle :=
  {| WasapiCapture.hrCoInitializeEx := S_OK;
     WasapiCapture.hrCoCreateInstance := S_OK;
     WasapiCapture.hrGetDefaultAudioEndpoint := S_OK;
     WasapiCapture.hrActivate := S_OK;
     WasapiCapture.hrGetMixFormat := S_OK;
     WasapiCapture.mixFormat := pcm_stereo 16;
     WasapiCapture.hrInitialize := S_OK;
     WasapiCapture.hrGetService := E_FAIL;
     WasapiCapture.createEvent := true |}.

Definition no_format : AudioFormat := {| sampleRate := 0; channelCount := 0 |}.

(** [idle s]: no device or session resource is held and nothing runs. *)
Definition idle (s : WasapiCapture.t) : Prop :=
  WasapiCapture.m_deviceEnumerator s = false
  /\ WasapiCapture.m_device s = false
  /\ WasapiCapture.m_audioClient s = false
  /\ WasapiCapture.m_captureClient s = false
  /\ WasapiCapture.m_waveFormat s = None
  /\ WasapiCapture.m_capturing s = false
  /\ WasapiCapture.m_captureThread s = false
  /\ WasapiCapture.m_stopEvent s = false
  /\ WasapiCapture.m_comInitialized s = false.

(** Whether the object holds resource [r]: its pointer, handle or flag. *)
Definition held (r : Resource) (s : WasapiCapture.t) : bool :=
  match r with
  | ComLibrary => WasapiCapture.m_comInitialized s
  | DeviceEnumerator => WasapiCapture.m_deviceEnumerator s
  | Device => WasapiCapture.m_device s
  | AudioClient => WasapiCapture.m_audioClient s
  | CaptureClient => WasapiCapture.m_captureClient s
  | MixFormat => match WasapiCapture.m_waveFormat s with Some _ => true | None => false end
  | StopEvent => WasapiCapture.m_stopEvent s
  | CaptureThread => WasapiCapture.m_captureThread s
  end.

(** What [shutdown] gives back after [stop], in the order of its calls:
    the interfaces and the format block ([releaseAudioClient]), COM
    ([releaseCom]), then the stop event. *)
Definition release_order : list Resource :=
  [CaptureClient; AudioClient; Device; DeviceEnumerator; MixFormat; ComLibrary;
   StopEvent].

Definition shutdown_releases_of (s : WasapiCapture.t) : list Event :=
  map Release (List.filter (fun r => held r s) release_order).

Definition is_release (e : Event) : bool :=
  match e with
  | Release _ => true
  | _ => false
  end.

(** ** Reachable states

    The states of a capture object that its member functions can produce
    from the constructed object, whatever the operating system answers. *)
Inductive reachable : WasapiCapture.t -> Prop :=
| reach_constructed (fmt : AudioFormat) :
    reachable (WasapiCapture.constructed fmt)
| reach_initialize (os : WasapiCapture.InitOracle) (s : WasapiCapture.t) :
    reachable s -> reachable (snd (fst (WasapiCapture.initialize os s)))
| reach_start (os : WasapiCapture.StartOracle) (s : WasapiCapture.t) :
    reachable s -> reachable (snd (fst (WasapiCapture.start os s)))
| reach_stop (s : WasapiCapture.t) :
    reachable s -> reachable (fst (WasapiCapture.stop s))
| reach_shutdown (s : WasapiCapture.t) :
    reachable s -> reachable (fst (WasapiCapture.shutdown s))
| reach_register (cb : IAudioDataCallbackPtr) (s : WasapiCapture.t) :
    reachable s -> reachable (WasapiCapture.registerCallback cb s)
| reach_unregister (cb : IAudioDataCallbackPtr) (s : WasapiCapture.t) :
    reachable s -> reachable (WasapiCapture.unregisterCallback cb s)
| reach_process (deliver : WasapiCapture.Delivery) (s s' : WasapiCapture.t)
    (data : option (list byte)) (frames flags : Z) (log : list Event) :
    reachable s ->
    WasapiCapture.processAudioData deliver s data frames flags = Some (s', log) ->
    reachable s'.

(** A thread handle is held only while the capturing flag is set. *)
Definition thread_implies_capturing (s : WasapiCapture.t) : Prop :=
  WasapiCapture.m_captureThread s = true -> WasapiCapture.m_capturing s = true.

(** ** The capture loop *)

Definition is_delivery (e : Event) : bool :=
  match e with
  | OnAudioData _ _ _ _ | OnMeterData _ _ => true
  | _ => false
  end.

(** Buffer discipline of a log.  [held] is the frame count of the device
    buffer acquired and not yet released.  A buffer is acquired only when
    none is held; a release gives back the buffer held, with its frame
    count; an empty buffer is released without any delivery; nothing is
    held when an acquisition fails, nor at the end of the log. *)
Fixpoint bracketed (held : option Z) (log : list Event) : bool :=
  match log with
  | [] => match held with None => true | Some _ => false end
  | BufferGet n :: l =>
      match held with None => bracketed (Some n) l | Some _ => false end
  | BufferRelease n :: l =>
      match held with Some m => (m =? n) && bracketed None l | None => false end
  | BufferGetFailed _ :: l =>
      match held with None => bracketed None l | Some _ => false end
  | OnAudioData _ _ _ _ :: l | OnMeterData _ _ :: l =>
      match held with
      | Some m => negb (m =? 0) && bracketed held l
      | None => false
      end
  | _ :: l => bracketed held l
  end.

Definition count_acquired (log : list Event) : nat :=
  length (List.filter (fun e => match e with BufferGet _ => true | _ => false end) log).

Definition count_released (log : list Event) : nat :=
  length (List.filter (fun e => match e with BufferRelease _ => true | _ => false end) log).

(** The format members agree and the format is mono or stereo, as
    [initialize] leaves them. *)
Definition session_ok (s : WasapiCapture.t) : Prop :=
  forall wf, WasapiCapture.m_waveFormat s = Some wf ->
             nChannels wf = channelCount (WasapiCapture.m_format s)
             /\ 1 <= nChannels wf <= 2.

(** The bytes the converter reads of each source sample. *)
Definition sample_bytes (wf : WAVEFORMATEX) : Z :=
  if wFormatTag wf =? WAVE_FORMAT_IEEE_FLOAT then 4
  else if wFormatTag wf =? WAVE_FORMAT_PCM then
    if wBitsPerSample wf =? 16 then 2
    else if wBitsPerSample wf =? 32 then 4
    else 0
  else 0.

(** What the device hands out in one turn: a frame count that fits the
    32-bit sample index, and, unless the buffer is flagged silent, memory
    for the samples of that many frames. *)
Definition turn_ok (s : WasapiCapture.t) (it : WasapiCapture.Iteration) : Prop :=
  0 <= WasapiCapture.numFramesAvailable it
  /\ WasapiCapture.numFramesAvailable it * channelCount (WasapiCapture.m_format s)
     < 2 ^ 32
  /\ forall d wf,
       WasapiCapture.pData it = Some d ->
       Z.land (WasapiCapture.flags it) AUDCLNT_BUFFERFLAGS_SILENT = 0 ->
       WasapiCapture.m_waveFormat s = Some wf ->
       sample_bytes wf * (WasapiCapture.numFramesAvailable it
                          * channelCount (WasapiCapture.m_format s))
       <= Z.of_nat (length d).

(** A turn in which the stop signal is not raised and [GetBuffer] fails. *)
Definition failed_turn (it : WasapiCapture.Iteration) : Prop :=
  WasapiCapture.capturing it = true
  /\ WasapiCapture.waitResult it <> WAIT_OBJECT_0
  /\ FAILED (WasapiCapture.hrGetBuffer it) = true.

(** The calls of a run of such turns: in each, the wait on the stop event
    and the failed [GetBuffer]. *)
Definition failed_turns_log (fails : list WasapiCapture.Iteration) : list Event :=
  flat_map (fun it => [EventWait (WasapiCapture.waitResult it);
                       BufferGetFailed (WasapiCapture.hrGetBuffer it)]) fails.

(** ** Concrete sessions *)

(** One stereo frame of 16-bit PCM: the samples -32768 and 32767. *)
Definition extreme_frame16 : list byte := [x00; x80; xff; x7f].

(** One stereo frame of 32-bit PCM: the samples 2^24 + 1 and 2^31 - 1. *)
Definition rounded_frame32 : list byte :=
  [x01; x00; x00; x01; xff; xff; xff; x7f].

(** One stereo frame of float32: the samples 1.0f and -0.5f. *)
Definition float_frame : list byte :=
  [x00; x00; x80; x3f; x00; x00; x00; xbf].

Definition float_stereo : WAVEFORMATEX :=
  {| wFormatTag := WAVE_FORMAT_IEEE_FLOAT; nChannels := 2; nSamplesPerSec := 48000;
     nBlockAlign := 8; wBitsPerSample := 32 |}.

(** An engine initialized on a 16-bit stereo device, with one observer. *)
Definition engine16 : AudioEngine.t :=
  AudioEngine.registerCallback (observer 1)
    (snd (fst (AudioEngine.initialize (device_with (pcm_stereo 16))
                 (AudioEngine.constructed no_format)))).

Definition turn (hr : Z) (data : option (list byte)) (frames flags : Z)
  : WasapiCapture.Iteration :=
  {| WasapiCapture.capturing := true;
     WasapiCapture.waitResult := WAIT_TIMEOUT;
     WasapiCapture.hrGetBuffer := hr;
     WasapiCapture.pData := data;
     WasapiCapture.numFramesAvailable := frames;
     WasapiCapture.flags := flags |}.

(** A lost buffer, an empty buffer, a frame of audio, a silent frame. *)
Definition four_turns : list WasapiCapture.Iteration :=
  [ turn AUDCLNT_E_BUFFER_ERROR None 0 0;
    turn S_OK (Some []) 0 0;
    turn S_OK (Some extreme_frame16) 1 0;
    turn S_OK (Some extreme_frame16) 1 AUDCLNT_BUFFERFLAGS_SILENT ].

Definition mono : AudioFormat := {| sampleRate := 48000; channelCount := 1 |}.

(** The stream starts, the thread cannot be created. *)
Definition no_thread : WasapiCapture.StartOracle :=
  {| WasapiCapture.hrStart := S_OK; WasapiCapture.createThread := false |}.


(** * Further properties: definitions *)

(** What the converter writes in cell [i], as its branches compute it. *)
Definition converted_sample (wf : WAVEFORMATEX) (src : list byte) (i : Z)
  : option spec_float :=
  if wFormatTag wf =? WAVE_FORMAT_IEEE_FLOAT then load_f32 src i
  else if wFormatTag wf =? WAVE_FORMAT_PCM then
    if wBitsPerSample wf =? 16 then sample16 <$> load_i16 src i
    else if wBitsPerSample wf =? 32 then sample32 <$> load_i32 src i
    else Some F32.zero
  else Some F32.zero.

(** [fabsf(x) <= 1.0f] *)
Definition within_unit (x : spec_float) : bool :=
  SFleb (SFabs x) (F32.of_int 1).

(** One stereo frame of 24-bit PCM. *)
Definition frame24 : list byte := [x01; x02; x03; x04; x05; x06].

(** A turn that hands out one frame of 16-bit stereo audio. *)
Definition audio_turn : WasapiCapture.Iteration :=
  turn S_OK (Some extreme_frame16) 1 0.

(** ** Call sequences *)

(** A call of a public member function of [WasapiCapture], with what the
    operating system answers during it. *)
Inductive Call :=
| CallInitialize (os : WasapiCapture.InitOracle)
| CallStart (os : WasapiCapture.StartOracle)
| CallStop
| CallShutdown
| CallRegister (cb : IAudioDataCallbackPtr)
| CallUnregister (cb : IAudioDataCallbackPtr).

Definition call (c : Call) (s : WasapiCapture.t) : WasapiCapture.t * list Event :=
  match c with
  | CallInitialize os =>
      let '(_, s', log) := WasapiCapture.initialize os s in (s', log)
  | CallStart os =>
      let '(_, s', log) := WasapiCapture.start os s in (s', log)
  | CallStop => WasapiCapture.stop s
  | CallShutdown => WasapiCapture.shutdown s
  | CallRegister cb => (WasapiCapture.registerCallback cb s, [])
  | CallUnregister cb => (WasapiCapture.unregisterCallback cb s, [])
  end.

(** The calls made one after the other, and the log of all of them. *)
Fixpoint run (calls : list Call) (s : WasapiCapture.t) : WasapiCapture.t * list Event :=
  match calls with
  | [] => (s, [])
  | c :: rest =>
      let '(s1, l1) := call c s in
      let '(s2, l2) := run rest s1 in
      (s2, l1 ++ l2)
  end.

(** Scanning a log with [n] units of [r] in hand: no release of [r]
    happens with none in hand. *)
Fixpoint never_over_released (r : Resource) (n : Z) (log : list Event) : bool :=
  match log with
  | [] => true
  | Acquire r' :: l =>
      never_over_released r (if Resource_eqb r r' then n + 1 else n) l
  | Release r' :: l =>
      if Resource_eqb r r'
      then (0 <? n) && never_over_released r (n - 1) l
      else never_over_released r n l
  | _ :: l => never_over_released r n l
  end.

(** [outstanding], started from [n]. *)
Definition tally (r : Resource) (n : Z) (log : list Event) : Z :=
  fold_left (fun n e =>
               match e with
               | Acquire r' => if Resource_eqb r r' then n + 1 else n
               | Release r' => if Resource_eqb r r' then n - 1 else n
               | _ => n
               end) log n.

(** The same for the facade. *)
Inductive EngineCall :=
| EngineInitialize (os : WasapiCapture.InitOracle)
| EngineStart (os : WasapiCapture.StartOracle)
| EngineStop
| EngineShutdown
| EngineRegister (cb : IAudioDataCallbackPtr)
| EngineUnregister (cb : IAudioDataCallbackPtr).

Definition engine_call (c : EngineCall) (e : AudioEngine.t) : AudioEngine.t * list Event :=
  match c with
  | EngineInitialize os =>
      let '(_, e', log) := AudioEngine.initialize os e in (e', log)
  | EngineStart os =>
      let '(_, e', log) := AudioEngine.start os e in (e', log)
  | EngineStop => AudioEngine.stop e
  | EngineShutdown => AudioEngine.shutdown e
  | EngineRegister cb => (AudioEngine.registerCallback cb e, [])
  | EngineUnregister cb => (AudioEngine.unregisterCallback cb e, [])
  end.

Fixpoint engine_run (calls : list EngineCall) (e : AudioEngine.t)
  : AudioEngine.t * list Event :=
  match calls with
  | [] => (e, [])
  | c :: rest =>
      let '(e1, l1) := engine_call c e in
      let '(e2, l2) := engine_run rest e1 in
      (e2, l1 ++ l2)
  end.

(** The capture engine has no registration but the Metering Adapter. *)
Definition adapter_only (e : AudioEngine.t) : Prop :=
  Forall (fun c => c = metering_adapter)
         (WasapiCapture.m_callbacks (AudioEngine.m_capture e)).

Definition is_raw_audio (ev : Event) : bool :=
  match ev with
  | OnAudioData _ _ _ _ => true
  | _ => false
  end.

(** A turn that ends the loop: the flag is clear or the stop event is set. *)
Definition stop_turn (it : WasapiCapture.Iteration) : Prop :=
  WasapiCapture.capturing it = false \/ WasapiCapture.waitResult it = WAIT_OBJECT_0.

(** The call made in a turn that ends the loop: none when the flag is
    clear, the wait when the stop event is found set. *)
Definition stop_turn_log (it : WasapiCapture.Iteration) : list Event :=
  if WasapiCapture.capturing it then [EventWait (WasapiCapture.waitResult it)] else [].

(** A device whose [CoInitializeEx] reports a changed threading mode. *)
Definition changed_mode_device : WasapiCapture.InitOracle :=
  {| WasapiCapture.hrCoInitializeEx := RPC_E_CHANGED_MODE;
     WasapiCapture.hrCoCreateInstance := S_OK;
     WasapiCapture.hrGetDefaultAudioEndpoint := S_OK;
     WasapiCapture.hrActivate := S_OK;
     WasapiCapture.hrGetMixFormat := S_OK;
     WasapiCapture.mixFormat := pcm_stereo 16;
     WasapiCapture.hrInitialize := S_OK;
     WasapiCapture.hrGetService := S_OK;
     WasapiCapture.createEvent := true |}.

Definition thread_ok : WasapiCapture.StartOracle :=
  {| WasapiCapture.hrStart := S_OK; WasapiCapture.createThread := true |}.

(** The condition under which [initialize] goes through: [CoInitializeEx]
    succeeds or reports a changed mode, every later call succeeds, and the
    format passes the two tests. *)
Definition initialize_ok (os : WasapiCapture.InitOracle) : bool :=
  (negb (FAILED (WasapiCapture.hrCoInitializeEx os))
   || (WasapiCapture.hrCoInitializeEx os =? RPC_E_CHANGED_MODE))
  && negb (FAILED (WasapiCapture.hrCoCreateInstance os))
  && negb (FAILED (WasapiCapture.hrGetDefaultAudioEndpoint os))
  && negb (FAILED (WasapiCapture.hrActivate os))
  && negb (FAILED (WasapiCapture.hrGetMixFormat os))
  && format_accepted (WasapiCapture.mixFormat os)
  && negb (FAILED (WasapiCapture.hrInitialize os))
  && negb (FAILED (WasapiCapture.hrGetService os))
  && WasapiCapture.createEvent os.

(** The object a successful [initialize] leaves. *)
Definition initialized (os : WasapiCapture.InitOracle) (s : WasapiCapture.t)
  : WasapiCapture.t :=
  WasapiCapture.mk true true true true (Some (WasapiCapture.mixFormat os))
    {| sampleRate := nSamplesPerSec (WasapiCapture.mixFormat os);
       channelCount := nChannels (WasapiCapture.mixFormat os) |}
    (WasapiCapture.m_capturing s) (WasapiCapture.m_captureThread s) true
    (WasapiCapture.m_callbacks s) (WasapiCapture.m_floatBuffer s) true.

(** [n] units of [r] are in hand, at least one if the object holds [r]. *)
Definition in_hand (r : Resource) (s : WasapiCapture.t) (n : Z) : Prop :=
  0 <= n /\ (held r s = true -> 1 <= n).

(** The calls the capture thread makes: the wait on the stop event, buffer
    calls and deliveries. *)
Definition is_loop_event (ev : Event) : bool :=
  match ev with
  | EventWait _ | BufferGet _ | BufferGetFailed _ | BufferRelease _
  | OnAudioData _ _ _ _ | OnMeterData _ _ => true
  | _ => false
  end.

(** The calls the capture thread makes on an engine: no raw audio. *)
Definition is_engine_loop_event (ev : Event) : bool :=
  is_loop_event ev && negb (is_raw_audio ev).

(** The turn in which the thread finds the stop event set. *)
Definition stop_signalled : WasapiCapture.Iteration :=
  {| WasapiCapture.capturing := true;
     WasapiCapture.waitResult := WAIT_OBJECT_0;
     WasapiCapture.hrGetBuffer := S_OK;
     WasapiCapture.pData := Some extreme_frame16;
     WasapiCapture.numFramesAvailable := 1;
     WasapiCapture.flags := 0 |}.

(** Initialize, register an observer, start. *)
Definition session_calls : list EngineCall :=
  [EngineInitialize (device_with (pcm_stereo 16)); EngineRegister (observer 1);
   EngineStart thread_ok].

(** Every device call of [initialize] goes through but [CreateEvent]. *)
Definition only_event_fails (os : WasapiCapture.InitOracle) : bool :=
  (negb (FAILED (WasapiCapture.hrCoInitializeEx os))
   || (WasapiCapture.hrCoInitializeEx os =? RPC_E_CHANGED_MODE))
  && negb (FAILED (WasapiCapture.hrCoCreateInstance os))
  && negb (FAILED (WasapiCapture.hrGetDefaultAudioEndpoint os))
  && negb (FAILED (WasapiCapture.hrActivate os))
  && negb (FAILED (WasapiCapture.hrGetMixFormat os))
  && format_accepted (WasapiCapture.mixFormat os)
  && negb (FAILED (WasapiCapture.hrInitialize os))
  && negb (FAILED (WasapiCapture.hrGetService os))
  && negb (WasapiCapture.createEvent os).

Definition no_event : WasapiCapture.InitOracle :=
  {| WasapiCapture.hrCoInitializeEx := S_OK;
     WasapiCapture.hrCoCreateInstance := S_OK;
     WasapiCapture.hrGetDefaultAudioEndpoint := S_OK;
     WasapiCapture.hrActivate := S_OK;
     WasapiCapture.hrGetMixFormat := S_OK;
     WasapiCapture.mixFormat := pcm_stereo 16;
     WasapiCapture.hrInitialize := S_OK;
     WasapiCapture.hrGetService := S_OK;
     WasapiCapture.createEvent := false |}.

(** The snapshots [forwardMeterData] hands out: one for each observer
    entry, in the order of registration. *)
Definition snapshots_for (callbacks : list IAudioDataCallbackPtr)
  (snapshot : MeterSnapshot) : list Event :=
  flat_map (fun cb => match cb with
                      | observer _ => [OnMeterData cb snapshot]
                      | _ => []
                      end) callbacks.

(** * Properties *)

(** ** Tactics for the capture object *)

Ltac destruct_state s :=
  let a1 := fresh "enumerator" in
  let a2 := fresh "device" in
  let a3 := fresh "client" in
  let a4 := fresh "capture" in
  let a5 := fresh "wave" in
  let a6 := fresh "fmt" in
  let a7 := fresh "capturing" in
  let a8 := fresh "thread" in
  let a9 := fresh "event" in
  let a10 := fresh "cbs" in
  let a11 := fresh "buf" in
  let a12 := fresh "com" in
  destruct s as [a1 a2 a3 a4 a5 a6 a7 a8 a9 a10 a11 a12].

(** Unfolds [initialize] down to its tests of the device answers. *)
Ltac unfold_initialize :=
  unfold WasapiCapture.initialize, WasapiCapture.fail_freeFormat,
    WasapiCapture.fail_releaseCom, WasapiCapture.releaseCom;
  cbn [WasapiCapture.m_comInitialized WasapiCapture.set_comInitialized
       WasapiCapture.set_deviceEnumerator WasapiCapture.set_device
       WasapiCapture.set_audioClient WasapiCapture.set_captureClient
       WasapiCapture.set_waveFormat WasapiCapture.set_format
       WasapiCapture.set_stopEvent WasapiCapture.m_format
       WasapiCapture.m_deviceEnumerator WasapiCapture.m_device
       WasapiCapture.m_audioClient WasapiCapture.m_captureClient
       WasapiCapture.m_waveFormat WasapiCapture.m_capturing
       WasapiCapture.m_captureThread WasapiCapture.m_stopEvent
       WasapiCapture.m_callbacks WasapiCapture.m_floatBuffer channelCount].

(** Case analysis on the tests met along one path of the function. *)
Ltac destruct_tests :=
  repeat match goal with
         | |- context [if ?c then _ else _] => destruct c
         end.

(** ** Loops and buffers *)

(** Invariant rule for [for_loop]: the loop returns, and the invariant
    holds of the state it returns. *)
Lemma for_loop_inv {S : Type} (P : Z -> S -> Prop) (body : Z -> S -> option S) :
  forall (n : nat) (i : Z) (s : S),
    P i s ->
    (forall j t, i <= j < i + Z.of_nat n -> P j t ->
                 exists t', body j t = Some t' /\ P (j + 1) t') ->
    exists s', for_loop n i body s = Some s' /\ P (i + Z.of_nat n) s'.
Proof.
  induction n as [|n IH]; intros i s Hs Hstep.
  - exists s. simpl. rewrite Z.add_0_r. auto.
  - destruct (Hstep i s) as (t & Hb & Ht); [lia | assumption |].
    destruct (IH (i + 1) t Ht) as (s' & Hl & Hs').
    + intros j u Hj Hu. apply Hstep; [lia | assumption].
    + exists s'. simpl. rewrite Hb. split; [assumption |].
      replace (i + Z.of_nat (Datatypes.S n)) with (i + 1 + Z.of_nat n) by lia.
      assumption.
Qed.

Section Filling.

(** What the loop writes at each index, and the buffer it started from. *)
Variable conv : Z -> option spec_float.
Variable buf0 : list spec_float.

Lemma filled_start : filled conv buf0 0 buf0.
Proof. split; [reflexivity |]. intros i. split; [lia | reflexivity]. Qed.

Lemma filled_store k v buf :
  filled conv buf0 k buf -> 0 <= k < Z.of_nat (length buf0) -> conv k = Some v ->
  exists buf', store buf k v = Some buf' /\ filled conv buf0 (k + 1) buf'.
Proof.
  intros [Hlen Hf] Hk Hv. unfold store.
  destruct (decide (Z.to_nat k < length buf)%nat) as [Hlt | Hge]; [| lia].
  eexists. split; [reflexivity |]. split.
  - rewrite length_insert. assumption.
  - intros i. destruct (decide (i = Z.to_nat k)) as [-> | Hne].
    + split; intros Hi; [| lia].
      rewrite list_lookup_insert_eq by assumption.
      rewrite Z2Nat.id by lia. symmetry. assumption.
    + rewrite list_lookup_insert_ne by congruence.
      split; intros Hi; apply Hf; lia.
Qed.

(** A loop that writes cell [base + j] at step [j]. *)
Lemma for_loop_filled (ix : Z -> Z) (base : Z) (n : nat) (j0 : Z) (buf : list spec_float) :
  (forall j, j0 <= j < j0 + Z.of_nat n -> ix j = base + j) ->
  (forall k, base + j0 <= k < base + j0 + Z.of_nat n -> is_Some (conv k)) ->
  0 <= base + j0 -> base + j0 + Z.of_nat n <= Z.of_nat (length buf0) ->
  filled conv buf0 (base + j0) buf ->
  exists buf',
    for_loop n j0
      (fun j b => match conv (ix j) with
                  | Some v => store b (ix j) v
                  | None => None
                  end) buf = Some buf'
    /\ filled conv buf0 (base + j0 + Z.of_nat n) buf'.
Proof.
  intros Hix Hconv Hlo Hhi Hf.
  destruct (for_loop_inv (fun j b => filled conv buf0 (base + j) b)
              (fun j b => match conv (ix j) with
                          | Some v => store b (ix j) v
                          | None => None
                          end) n j0 buf Hf) as (buf' & Hl & Hb).
  - intros j t Hj Ht. rewrite (Hix j Hj).
    destruct (Hconv (base + j)) as [v Hv]; [lia |]. rewrite Hv.
    replace (base + (j + 1)) with (base + j + 1) by lia.
    apply filled_store; [assumption | lia | assumption].
  - exists buf'. split; [assumption |].
    replace (base + j0 + Z.of_nat n) with (base + (j0 + Z.of_nat n)) by lia.
    assumption.
Qed.

End Filling.

Lemma wrap32_small z : 0 <= z < 2 ^ 32 -> wrap32 z = z.
Proof. intros H. unfold wrap32. apply Z.mod_small. assumption. Qed.

Lemma load_is_Some (width : nat) (mem : list byte) (i : Z) :
  0 <= i -> ((Z.to_nat i + 1) * width <= length mem)%nat ->
  is_Some (load width mem i).
Proof.
  intros Hi Hlen. unfold load.
  destruct (decide _) as [_ | Hne]; [eexists; reflexivity |].
  exfalso. apply Hne. rewrite length_take, length_drop. lia.
Qed.

(** The nested frame/channel loops write every cell in index order. *)
Lemma pcm_loop_filled (conv : Z -> option spec_float) (numFrames channels : Z)
  (dst : list spec_float) :
  0 <= numFrames -> 0 <= channels -> numFrames * channels < 2 ^ 32 ->
  Z.of_nat (length dst) = numFrames * channels ->
  (forall k, 0 <= k < numFrames * channels -> is_Some (conv k)) ->
  exists out, pcm_loop conv numFrames channels dst = Some out
              /\ filled conv dst (numFrames * channels) out.
Proof.
  intros HF HC Hbound Hlen Hconv. unfold pcm_loop.
  destruct (for_loop_inv (fun frame b => filled conv dst (frame * channels) b)
              (fun frame buf =>
                 for_loop (Z.to_nat channels) 0
                   (fun ch buf =>
                      let srcIdx := wrap32 (wrap32 (frame * channels) + ch) in
                      let destIdx := wrap32 (wrap32 (frame * channels) + ch) in
                      match conv srcIdx with
                      | Some v => store buf destIdx v
                      | None => None
                      end) buf)
              (Z.to_nat numFrames) 0 dst) as (out & Hl & Hout).
  - apply filled_start.
  - intros frame b Hframe Hb. cbv zeta.
    assert (Hrow : (frame + 1) * channels <= numFrames * channels) by nia.
    destruct (for_loop_filled conv dst
                (fun ch => wrap32 (wrap32 (frame * channels) + ch))
                (frame * channels) (Z.to_nat channels) 0 b) as (b' & Hb1 & Hb2).
    + intros j Hj. rewrite (wrap32_small (frame * channels)) by nia.
      apply wrap32_small. nia.
    + intros k Hk. apply Hconv. nia.
    + nia.
    + nia.
    + rewrite Z.add_0_r. assumption.
    + exists b'. split; [exact Hb1 |].
      replace ((frame + 1) * channels)
        with (frame * channels + 0 + Z.of_nat (Z.to_nat channels)) by lia.
      assumption.
  - exists out. split; [exact Hl |].
    replace (numFrames * channels)
      with ((0 + Z.of_nat (Z.to_nat numFrames)) * channels) by lia.
    assumption.
Qed.

(** A loop over [0 .. count) that writes cell [i] at step [i]. *)
Lemma linear_loop_filled (conv : Z -> option spec_float) (count : Z)
  (dst : list spec_float) :
  0 <= count -> count <= Z.of_nat (length dst) ->
  (forall k, 0 <= k < count -> is_Some (conv k)) ->
  exists out,
    for_loop (Z.to_nat count) 0
      (fun i b => match conv i with
                  | Some v => store b i v
                  | None => None
                  end) dst = Some out
    /\ filled conv dst count out.
Proof.
  intros Hc Hlen Hconv.
  destruct (for_loop_filled conv dst (fun i => i) 0 (Z.to_nat count) 0 dst)
    as (out & Hl & Hout).
  - intros j _. reflexivity.
  - intros k Hk. apply Hconv. lia.
  - lia.
  - lia.
  - apply filled_start.
  - exists out. split; [exact Hl |].
    replace (0 + 0 + Z.of_nat (Z.to_nat count)) with count in Hout by lia.
    assumption.
Qed.

Lemma filled_all (conv : Z -> option spec_float) (dst out : list spec_float) (n : Z) :
  filled conv dst n out ->
  length out = length dst /\
  forall i : Z, 0 <= i < n -> out !! Z.to_nat i = conv i.
Proof.
  intros [Hlen Hf]. split; [assumption |].
  intros i Hi. destruct (Hf (Z.to_nat i)) as [H _].
  rewrite Z2Nat.id in H by lia. apply H. lia.
Qed.

(** ** Values of the converted samples *)

Lemma denotesb_denotes x q : denotesb x q = true -> denotes x q.
Proof.
  unfold denotesb, denotes. destruct (F32.to_Q x) as [r |]; [| discriminate].
  intros H. exists r. split; [reflexivity |]. apply Qeq_bool_eq. assumption.
Qed.

Lemma all_from_spec (P : Z -> bool) :
  forall (n : nat) (lo : Z),
    all_from n lo P = true -> forall z, lo <= z < lo + Z.of_nat n -> P z = true.
Proof.
  induction n as [|n IH]; intros lo H z Hz; [lia |].
  simpl in H. apply andb_prop in H as [H1 H2].
  destruct (Z.eq_dec z lo) as [-> | Hne]; [assumption |].
  apply (IH (lo + 1)); [assumption | lia].
Qed.

(** Every 16-bit sample is converted without rounding: the int-to-float
    conversion is exact below 2^24 and the scale is a power of two. *)
Lemma sample16_exact (s : Z) :
  -32768 <= s < 32768 -> denotes (sample16 s) (s # 32768).
Proof.
  intros Hs. apply denotesb_denotes.
  apply (all_from_spec (fun z => denotesb (sample16 z) (z # 32768))
           (Z.to_nat 65536) (-32768));
    [vm_compute; reflexivity | rewrite Z2Nat.id; lia].
Qed.

(** ** Rounding an integer to binary32

    [static_cast<float>] of a 32-bit integer is the only rounding step of
    the 32-bit conversion; the facts below locate its result among the
    normal floats, so that the scaling that follows is exact. *)

Lemma digits2_bounds (p : positive) :
  2 ^ (Zpos (digits2_pos p) - 1) <= Zpos p < 2 ^ Zpos (digits2_pos p).
Proof.
  induction p as [p IH | p IH |]; simpl digits2_pos.
  - rewrite Pos2Z.inj_succ, (Pos2Z.inj_xI p).
    replace (Z.succ (Zpos (digits2_pos p)) - 1) with (Z.succ (Zpos (digits2_pos p) - 1)) by lia.
    rewrite Z.pow_succ_r by lia. rewrite Z.pow_succ_r by lia. lia.
  - rewrite Pos2Z.inj_succ, (Pos2Z.inj_xO p).
    replace (Z.succ (Zpos (digits2_pos p)) - 1) with (Z.succ (Zpos (digits2_pos p) - 1)) by lia.
    rewrite Z.pow_succ_r by lia. rewrite Z.pow_succ_r by lia. lia.
  - simpl. lia.
Qed.

Lemma digits2_unique (p : positive) (d : Z) :
  2 ^ (d - 1) <= Zpos p < 2 ^ d -> Zpos (digits2_pos p) = d.
Proof.
  intros [Hlo Hhi]. pose proof (digits2_bounds p) as [Hlo' Hhi'].
  assert (Hd : 0 < d).
  { destruct (Z_lt_le_dec 0 d) as [H | H]; [assumption |].
    exfalso. destruct (Z.eq_dec d 0) as [-> | Hne].
    - simpl in Hhi. lia.
    - rewrite (Z.pow_neg_r 2 d) in Hhi by lia. lia. }
  destruct (Z.lt_trichotomy (Zpos (digits2_pos p)) d) as [Hlt | [Heq | Hgt]];
    [exfalso | assumption | exfalso].
  - assert (2 ^ Zpos (digits2_pos p) <= 2 ^ (d - 1))
      by (apply Z.pow_le_mono_r; lia). lia.
  - assert (2 ^ d <= 2 ^ (Zpos (digits2_pos p) - 1))
      by (apply Z.pow_le_mono_r; lia). lia.
Qed.

Lemma shr_1_m (x : shr_record) :
  0 <= shr_m x -> shr_m (shr_1 x) = shr_m x / 2.
Proof.
  destruct x as [m r s]. simpl. intros Hm.
  destruct m as [| p | p]; [reflexivity | | lia].
  destruct p as [p | p |]; simpl.
  - rewrite (Pos2Z.inj_xI p). apply (Z.div_unique _ _ _ 1); lia.
  - rewrite (Pos2Z.inj_xO p). apply (Z.div_unique _ _ _ 0); lia.
  - reflexivity.
Qed.

Lemma iter_pos_shr_1_m (k : positive) :
  forall x, 0 <= shr_m x -> shr_m (SpecFloat.iter_pos shr_1 k x) = shr_m x / 2 ^ Zpos k.
Proof.
  induction k as [k IH | k IH |]; intros x Hx; simpl SpecFloat.iter_pos.
  - assert (H1 : 0 <= shr_m (shr_1 x))
      by (rewrite shr_1_m by assumption; apply Z.div_pos; lia).
    assert (H2 : 0 <= shr_m (SpecFloat.iter_pos shr_1 k (shr_1 x)))
      by (rewrite IH by assumption; apply Z.div_pos; lia).
    rewrite IH, IH, shr_1_m by assumption.
    rewrite !Z.div_div by lia.
    f_equal. rewrite (Pos2Z.inj_xI k).
    rewrite Z.pow_add_r, Z.pow_mul_r by lia. change (2 ^ 2) with 4.
    change (2 ^ 1) with 2.
    replace (4 ^ Zpos k) with (2 ^ Zpos k * 2 ^ Zpos k); [lia |].
    rewrite <- Z.pow_mul_l. reflexivity.
  - assert (H2 : 0 <= shr_m (SpecFloat.iter_pos shr_1 k x))
      by (rewrite IH by assumption; apply Z.div_pos; lia).
    rewrite IH, IH by assumption.
    rewrite !Z.div_div by lia.
    f_equal. rewrite (Pos2Z.inj_xO k).
    rewrite Z.pow_mul_r by lia. change (2 ^ 2) with 4.
    rewrite <- Z.pow_mul_l. reflexivity.
  - rewrite shr_1_m by assumption. reflexivity.
Qed.

Lemma fexp_normal (prec emax d e : Z) :
  3 - emax - prec <= d + e - prec -> fexp prec emax (d + e) = d + e - prec.
Proof. intros H. unfold fexp, emin. lia. Qed.

(** A mantissa of full width in the exponent range is kept as it is. *)
Lemma round_aux_normal (prec emax : Z) (sg : bool) (m : positive) (e : Z) :
  Zpos (digits2_pos m) = prec -> 3 - emax - prec <= e <= emax - prec ->
  binary_round_aux prec emax sg (Zpos m) e loc_Exact = S754_finite sg m e.
Proof.
  intros Hd He. unfold binary_round_aux, shr_fexp. simpl Zdigits2.
  rewrite Hd, fexp_normal by lia.
  replace (prec + e - prec - e) with 0 by lia. simpl.
  rewrite Hd, fexp_normal by lia.
  replace (prec + e - prec - e) with 0 by lia. simpl.
  destruct (Z.leb_spec e (emax - prec)); [reflexivity | lia].
Qed.

Lemma iter_xO_digits (k : positive) :
  forall m, Zpos (digits2_pos (Pos.iter xO m k)) = Zpos (digits2_pos m) + Zpos k.
Proof.
  induction k as [| k IH] using Pos.peano_ind; intros m.
  - simpl. lia.
  - rewrite Pos.iter_succ. simpl digits2_pos. rewrite Pos2Z.inj_succ, IH. lia.
Qed.

Lemma round_nearest_even_cases (q : Z) (l : location) :
  round_nearest_even q l = q \/ round_nearest_even q l = q + 1.
Proof.
  destruct l as [| [| |]]; simpl; auto. destruct (Z.even q); auto.
Qed.

Lemma round_aux_shift (sg : bool) (p k : positive) (e : Z) :
  Zpos (digits2_pos p) = 24 + Zpos k -> -149 <= e + Zpos k -> e + Zpos k + 1 <= 104 ->
  exists m e',
    binary_round_aux 24 128 sg (Zpos p) e loc_Exact = S754_finite sg m e'
    /\ Zpos (digits2_pos m) = 24 /\ e + Zpos k <= e' <= e + Zpos k + 1.
Proof.
  intros Hd Hlo Hhi. unfold binary_round_aux, shr_fexp. simpl Zdigits2.
  rewrite Hd, fexp_normal by lia.
  replace (24 + Zpos k + e - 24 - e) with (Zpos k) by lia.
  simpl shr_record_of_loc. unfold shr at 1.
  set (mrs := SpecFloat.iter_pos shr_1 k _).
  assert (Hq : shr_m mrs = Zpos p / 2 ^ Zpos k)
    by (unfold mrs; rewrite iter_pos_shr_1_m; simpl; [reflexivity | lia]).
  pose proof (digits2_bounds p) as [Hplo Hphi]. rewrite Hd in Hplo, Hphi.
  assert (Hpow : 0 < 2 ^ Zpos k) by (apply Z.pow_pos_nonneg; lia).
  assert (Hqlo : 2 ^ 23 <= shr_m mrs).
  { rewrite Hq. apply Z.div_le_lower_bound; [assumption |].
    rewrite <- Z.pow_add_r by lia.
    replace (Zpos k + 23) with (24 + Zpos k - 1) by lia. assumption. }
  assert (Hqhi : shr_m mrs < 2 ^ 24).
  { rewrite Hq. apply Z.div_lt_upper_bound; [assumption |].
    rewrite <- Z.pow_add_r by lia.
    replace (Zpos k + 24) with (24 + Zpos k) by lia. assumption. }
  set (q' := round_nearest_even (shr_m mrs) (loc_of_shr_record mrs)).
  assert (Hq' : 2 ^ 23 <= q' <= 2 ^ 24).
  { unfold q'. destruct (round_nearest_even_cases (shr_m mrs) (loc_of_shr_record mrs))
      as [-> | ->]; lia. }
  destruct q' as [| m' | m'] eqn:Em'; [simpl in Hq'; lia | | lia].
  destruct (Z.eq_dec (Zpos m') (2 ^ 24)) as [Heq | Hne].
  - assert (Hm' : m' = 16777216%positive) by lia. rewrite Hm'.
    change (Zdigits2 (Z.pos 16777216)) with 25.
    rewrite fexp_normal by lia.
    replace (25 + (e + Zpos k) - 24 - (e + Zpos k)) with 1 by lia.
    simpl. change (128 - 24) with 104.
    destruct (Z.leb_spec (e + Zpos k + 1) 104); [| lia].
    exists 8388608%positive, (e + Zpos k + 1). split; [reflexivity |]. split; [reflexivity | lia].
  - assert (Hd' : Zpos (digits2_pos m') = 24) by (apply digits2_unique; lia).
    simpl Zdigits2. rewrite Hd', fexp_normal by lia.
    replace (24 + (e + Zpos k) - 24 - (e + Zpos k)) with 0 by lia.
    simpl. change (128 - 24) with 104.
    destruct (Z.leb_spec (e + Zpos k) 104); [| lia].
    exists m', (e + Zpos k). split; [reflexivity |]. split; [assumption | lia].
Qed.

Lemma binary_round_int (sg : bool) (p : positive) :
  Zpos p < 2 ^ 32 ->
  exists m e,
    binary_round 24 128 sg p 0 = S754_finite sg m e
    /\ Zpos (digits2_pos m) = 24 /\ -23 <= e <= 9.
Proof.
  intros Hp. pose proof (digits2_bounds p) as [Hlo Hhi].
  assert (Hd : 1 <= Zpos (digits2_pos p) <= 32).
  { split; [lia |].
    destruct (Z_le_gt_dec (Zpos (digits2_pos p)) 32) as [H | H]; [assumption |].
    assert (2 ^ 32 <= 2 ^ (Zpos (digits2_pos p) - 1))
      by (apply Z.pow_le_mono_r; lia). lia. }
  unfold binary_round. rewrite fexp_normal by lia. unfold shl_align.
  destruct (Zpos (digits2_pos p) + 0 - 24 - 0) as [| k | k] eqn:Ek.
  - exists p, 0. rewrite round_aux_normal by lia. repeat split; lia.
  - destruct (round_aux_shift sg p k 0) as (m & e' & Hr & Hm & He'); [lia | lia | lia |].
    exists m, e'. repeat split; [assumption | assumption | lia | lia].
  - exists (Pos.iter xO p k), (Zpos (digits2_pos p) + 0 - 24).
    assert (Hk : Zpos (digits2_pos (Pos.iter xO p k)) = 24)
      by (rewrite iter_xO_digits; lia).
    rewrite round_aux_normal by lia. repeat split; [assumption | lia | lia].
Qed.

Lemma scale32_value : scale32 = S754_finite false 8388608 (-54).
Proof. vm_compute. reflexivity. Qed.

Lemma mul_scale32 (sg : bool) (m : positive) (e : Z) :
  Zpos (digits2_pos m) = 24 -> -118 <= e <= 135 ->
  F32.mul (S754_finite sg m e) scale32 = S754_finite sg m (e - 31).
Proof.
  intros Hd He. rewrite scale32_value. unfold F32.mul, SFmul.
  rewrite xorb_false_r. rewrite Pos.mul_comm.
  change (8388608 * m)%positive with (Pos.iter xO m 23).
  unfold binary_round_aux, shr_fexp. unfold F32.prec, F32.emax.
  change (Zdigits2 (Z.pos (Pos.iter xO m 23)))
    with (Zpos (digits2_pos (Pos.iter xO m 23))).
  rewrite iter_xO_digits, Hd.
  change (24 + 23) with 47.
  rewrite fexp_normal by lia.
  replace (47 + (e + -54) - 24 - (e + -54)) with 23 by lia.
  cbn -[Z.add Z.sub fexp Z.leb].
  rewrite Hd, fexp_normal by lia.
  replace (24 + (e + -54 + 23) - 24 - (e + -54 + 23)) with 0 by lia.
  cbn -[Z.add Z.sub Z.leb]. change (128 - 24) with 104.
  destruct (Z.leb_spec (e + -54 + 23) 104); [| lia].
  f_equal. lia.
Qed.

(** [static_cast<float>] of a 32-bit integer other than zero is a normal
    float of the integer's sign. *)
Lemma of_int_normal (s : Z) :
  - 2 ^ 31 <= s < 2 ^ 31 -> s <> 0 ->
  exists m e,
    F32.of_int s = S754_finite (s <? 0) m e
    /\ Zpos (digits2_pos m) = 24 /\ -23 <= e <= 9.
Proof.
  intros Hs Hne. unfold F32.of_int, binary_normalize, F32.prec, F32.emax.
  destruct s as [| p | p]; [congruence | |].
  - apply binary_round_int. lia.
  - apply binary_round_int. lia.
Qed.

(** Scaling by [1.0f / 2147483648.0f] only lowers the exponent by 31: the
    product is exact. *)
Lemma sample32_scaled (s : Z) :
  - 2 ^ 31 <= s < 2 ^ 31 ->
  match F32.of_int s with
  | S754_zero sg => sample32 s = S754_zero sg
  | S754_finite sg m e => sample32 s = S754_finite sg m (e - 31)
  | _ => False
  end.
Proof.
  intros Hs. destruct (Z.eq_dec s 0) as [-> | Hne]; [reflexivity |].
  destruct (of_int_normal s Hs Hne) as (m & e & Hof & Hd & He).
  unfold sample32. rewrite Hof. apply mul_scale32; [assumption | lia].
Qed.

Lemma sample32_exact_scaling (s : Z) :
  - 2 ^ 31 <= s < 2 ^ 31 ->
  exists r, F32.to_Q (F32.of_int s) = Some r
            /\ denotes (sample32 s) (r * (1 # 2147483648)).
Proof.
  intros Hs. pose proof (sample32_scaled s Hs) as H.
  destruct (F32.of_int s) as [sg | sg | | sg m e]; try contradiction.
  - exists 0%Q. split; [reflexivity |]. rewrite H.
    exists 0%Q. split; [reflexivity |]. reflexivity.
  - eexists. split; [reflexivity |]. rewrite H.
    eexists. split; [reflexivity |].
    rewrite !Qred_correct.
    replace (e - 31) with (e + -31) by lia.
    rewrite Qpower_plus by discriminate.
    change (Qpower 2 (-31)) with (1 # 2147483648)%Q. ring.
Qed.

(** ** The value of an integer rounded to binary32

    The 32-bit branch converts each sample with [static_cast<float>], which
    rounds to nearest, ties to even, once the sample has more than 24
    significant bits. *)

Lemma shr_1_shifted (n j : Z) (x : shr_record) :
  0 <= j -> shifted n j x -> shifted n (j + 1) (shr_1 x).
Proof.
  intros Hj (Hm & rem & Hn & Hrem & Hloc).
  assert (Hp : 0 < 2 ^ j) by (apply Z.pow_pos_nonneg; lia).
  assert (H2 : 2 ^ (j + 1) = 2 * 2 ^ j) by (rewrite Z.pow_add_r; lia).
  destruct x as [m r s]. cbn [shr_m shr_r shr_s] in *.
  assert (Hpos : r || s = true -> 0 < rem).
  { destruct r, s; cbv iota beta in Hloc; cbn [orb]; intros H; try discriminate H; lia. }
  assert (Hzero : r || s = false -> rem = 0)
    by (destruct r, s; cbv iota beta in Hloc; cbn [orb]; intros H; try discriminate H; lia).
  destruct m as [| p | p]; [| | lia].
  - unfold shifted, shr_1; cbn [shr_m shr_r shr_s]. split; [lia |]. exists rem.
    rewrite H2. split; [lia |]. split; [lia |].
    destruct (r || s); [specialize (Hpos eq_refl); lia | apply Hzero; reflexivity].
  - destruct p as [p | p |]; unfold shifted, shr_1; cbn [shr_m shr_r shr_s].
    + split; [lia |]. exists (2 ^ j + rem). rewrite H2, (Pos2Z.inj_xI p) in *.
      split; [lia |]. split; [lia |].
      destruct (r || s); [specialize (Hpos eq_refl); lia | specialize (Hzero eq_refl); lia].
    + split; [lia |]. exists rem. rewrite H2, (Pos2Z.inj_xO p) in *.
      split; [lia |]. split; [lia |].
      destruct (r || s); [specialize (Hpos eq_refl); lia | apply Hzero; reflexivity].
    + split; [lia |]. exists (2 ^ j + rem). rewrite H2.
      split; [lia |]. split; [lia |].
      destruct (r || s); [specialize (Hpos eq_refl); lia | specialize (Hzero eq_refl); lia].
Qed.

Lemma iter_pos_shr_1_shifted (n : Z) (k : positive) :
  forall j x, 0 <= j -> shifted n j x ->
              shifted n (j + Zpos k) (SpecFloat.iter_pos shr_1 k x).
Proof.
  induction k as [k IH | k IH |]; intros j x Hj Hx; simpl SpecFloat.iter_pos.
  - rewrite (Pos2Z.inj_xI k).
    replace (j + (2 * Zpos k + 1)) with (j + 1 + Zpos k + Zpos k) by lia.
    apply IH; [lia |]. apply IH; [lia |]. apply shr_1_shifted; assumption.
  - rewrite (Pos2Z.inj_xO k).
    replace (j + 2 * Zpos k) with (j + Zpos k + Zpos k) by lia.
    apply IH; [lia |]. apply IH; assumption.
  - apply shr_1_shifted; assumption.
Qed.

(** Rounding to nearest, ties to even, moves by at most half a unit. *)
Lemma round_nearest_even_shifted (n j : Z) (x : shr_record) :
  0 <= j -> shifted n j x ->
  2 * Z.abs (round_nearest_even (shr_m x) (loc_of_shr_record x) * 2 ^ j - n) <= 2 ^ j.
Proof.
  intros Hj (Hm & rem & Hn & Hrem & Hloc).
  destruct x as [m r s]. cbn [shr_m shr_r shr_s] in *.
  unfold loc_of_shr_record, round_nearest_even.
  destruct r, s; cbv iota beta in Hloc; try destruct (Z.even m); lia.
Qed.

(** Rounding a mantissa of [24 + k] digits: the result is within half a
    unit of the last place kept. *)
Lemma round_aux_shift_value (sg : bool) (p k : positive) (e : Z) :
  Zpos (digits2_pos p) = 24 + Zpos k -> -149 <= e + Zpos k -> e + Zpos k + 1 <= 104 ->
  exists m e',
    binary_round_aux 24 128 sg (Zpos p) e loc_Exact = S754_finite sg m e'
    /\ Zpos (digits2_pos m) = 24 /\ e + Zpos k <= e' <= e + Zpos k + 1
    /\ 2 * Z.abs (Zpos m * 2 ^ (e' - e) - Zpos p) <= 2 ^ Zpos k.
Proof.
  intros Hd Hlo Hhi. unfold binary_round_aux, shr_fexp. simpl Zdigits2.
  rewrite Hd, fexp_normal by lia.
  replace (24 + Zpos k + e - 24 - e) with (Zpos k) by lia.
  simpl shr_record_of_loc. unfold shr at 1.
  set (mrs := SpecFloat.iter_pos shr_1 k _).
  assert (Hq : shr_m mrs = Zpos p / 2 ^ Zpos k)
    by (unfold mrs; rewrite iter_pos_shr_1_m; simpl; [reflexivity | lia]).
  assert (Hsh : shifted (Zpos p) (Zpos k) mrs).
  { change (Zpos k) with (0 + Zpos k). apply iter_pos_shr_1_shifted; [lia |].
    split; [cbn; lia |]. exists 0. cbn. lia. }
  pose proof (round_nearest_even_shifted (Zpos p) (Zpos k) mrs ltac:(lia) Hsh) as Hnear.
  pose proof (digits2_bounds p) as [Hplo Hphi]. rewrite Hd in Hplo, Hphi.
  assert (Hpow : 0 < 2 ^ Zpos k) by (apply Z.pow_pos_nonneg; lia).
  assert (Hqlo : 2 ^ 23 <= shr_m mrs).
  { rewrite Hq. apply Z.div_le_lower_bound; [assumption |].
    rewrite <- Z.pow_add_r by lia.
    replace (Zpos k + 23) with (24 + Zpos k - 1) by lia. assumption. }
  assert (Hqhi : shr_m mrs < 2 ^ 24).
  { rewrite Hq. apply Z.div_lt_upper_bound; [assumption |].
    rewrite <- Z.pow_add_r by lia.
    replace (Zpos k + 24) with (24 + Zpos k) by lia. assumption. }
  set (q' := round_nearest_even (shr_m mrs) (loc_of_shr_record mrs)) in *.
  assert (Hq' : 2 ^ 23 <= q' <= 2 ^ 24).
  { unfold q'. destruct (round_nearest_even_cases (shr_m mrs) (loc_of_shr_record mrs))
      as [-> | ->]; lia. }
  destruct q' as [| m' | m'] eqn:Em'; [simpl in Hq'; lia | | lia].
  destruct (Z.eq_dec (Zpos m') (2 ^ 24)) as [Heq | Hne].
  - assert (Hm' : m' = 16777216%positive) by lia. rewrite Hm' in *.
    change (Zdigits2 (Z.pos 16777216)) with 25.
    rewrite fexp_normal by lia.
    replace (25 + (e + Zpos k) - 24 - (e + Zpos k)) with 1 by lia.
    simpl. change (128 - 24) with 104.
    destruct (Z.leb_spec (e + Zpos k + 1) 104); [| lia].
    exists 8388608%positive, (e + Zpos k + 1). split; [reflexivity |].
    split; [reflexivity |]. split; [lia |].
    replace (e + Zpos k + 1 - e) with (Zpos k + 1) by lia.
    rewrite Z.pow_add_r by lia. change (2 ^ 1) with 2. lia.
  - assert (Hd' : Zpos (digits2_pos m') = 24) by (apply digits2_unique; lia).
    simpl Zdigits2. rewrite Hd', fexp_normal by lia.
    replace (24 + (e + Zpos k) - 24 - (e + Zpos k)) with 0 by lia.
    simpl. change (128 - 24) with 104.
    destruct (Z.leb_spec (e + Zpos k) 104); [| lia].
    exists m', (e + Zpos k). split; [reflexivity |]. split; [assumption |].
    split; [lia |]. replace (e + Zpos k - e) with (Zpos k) by lia. exact Hnear.
Qed.

Lemma Qpower_2_nonneg (e : Z) : 0 <= e -> (Qpower 2 e == inject_Z (2 ^ e))%Q.
Proof. intros He. symmetry. apply (Zpower_Qpower 2 e He). Qed.

(** The value of an integer mantissa with a non-negative exponent. *)
Lemma mantissa_value_up (z : Z) (e : Z) :
  0 <= e -> (inject_Z z * Qpower 2 e == inject_Z (z * 2 ^ e))%Q.
Proof. intros He. rewrite Qpower_2_nonneg by assumption. rewrite inject_Z_mult. reflexivity. Qed.

(** A mantissa shifted up by [k] with exponent [-k]. *)
Lemma mantissa_value_down (z : Z) (k : Z) :
  0 <= k -> (inject_Z (z * 2 ^ k) * Qpower 2 (- k) == inject_Z z)%Q.
Proof.
  intros Hk. rewrite Qpower_opp, Qpower_2_nonneg by assumption.
  rewrite inject_Z_mult. apply Qdiv_mult_l.
  intros H. assert (Hp : 0 < 2 ^ k) by (apply Z.pow_pos_nonneg; lia).
  unfold Qeq in H. cbn in H. lia.
Qed.

Lemma iter_xO_value (k : positive) :
  forall m, Zpos (Pos.iter xO m k) = Zpos m * 2 ^ Zpos k.
Proof.
  induction k as [| k IH] using Pos.peano_ind; intros m.
  - cbn. lia.
  - rewrite Pos.iter_succ, (Pos2Z.inj_xO (Pos.iter xO m k)), IH, Pos2Z.inj_succ, Z.pow_succ_r by lia.
    lia.
Qed.

(** [static_cast<float>] of a positive integer below 2^32: the result
    denotes an integer [z] within a relative distance 2^-24 of it, and the
    integer itself up to 2^24. *)
Lemma binary_round_value (sg : bool) (p : positive) :
  Zpos p < 2 ^ 32 ->
  exists m e z,
    binary_round 24 128 sg p 0 = S754_finite sg m e
    /\ (inject_Z (Zpos m) * Qpower 2 e == inject_Z z)%Q
    /\ 2 ^ 24 * Z.abs (z - Zpos p) <= Zpos p
    /\ (Zpos p <= 2 ^ 24 -> z = Zpos p).
Proof.
  intros Hp.
  destruct (Pos.eq_dec p 16777216%positive) as [-> | Hne].
  { exists 8388608%positive, 1, 16777216. split; [vm_compute; reflexivity |].
    split; [reflexivity |]. split; [cbn; lia | reflexivity]. }
  pose proof (digits2_bounds p) as [Hlo Hhi].
  assert (Hd : 1 <= Zpos (digits2_pos p) <= 32).
  { split; [lia |].
    destruct (Z_le_gt_dec (Zpos (digits2_pos p)) 32) as [H | H]; [assumption |].
    assert (2 ^ 32 <= 2 ^ (Zpos (digits2_pos p) - 1))
      by (apply Z.pow_le_mono_r; lia). lia. }
  unfold binary_round. rewrite fexp_normal by lia. unfold shl_align.
  destruct (Zpos (digits2_pos p) + 0 - 24 - 0) as [| k | k] eqn:Ek.
  - exists p, 0, (Zpos p). rewrite round_aux_normal by lia.
    split; [reflexivity |]. split; [| split; [| reflexivity]].
    + change (Qpower 2 0) with 1%Q. apply Qmult_1_r.
    + replace (Zpos p - Zpos p) with 0 by lia. cbn. lia.
  - destruct (round_aux_shift_value sg p k 0) as (m & e' & Hr & Hm & He' & Hnear);
      [lia | lia | lia |].
    exists m, e', (Zpos m * 2 ^ e'). split; [exact Hr |].
    split; [apply mantissa_value_up; lia |].
    replace (e' - 0) with e' in Hnear by lia.
    assert (Hplo : 2 ^ (23 + Zpos k) <= Zpos p)
      by (replace (23 + Zpos k) with (Zpos (digits2_pos p) - 1) by lia; exact Hlo).
    rewrite Z.pow_add_r in Hplo by lia.
    assert (Hpow : 0 < 2 ^ Zpos k) by (apply Z.pow_pos_nonneg; lia).
    split; [change (2 ^ 24) with (2 * 2 ^ 23); lia |].
    intros Hsmall. exfalso.
    assert (2 ^ 1 <= 2 ^ Zpos k) by (apply Z.pow_le_mono_r; lia).
    change (2 ^ 1) with 2 in *. change (2 ^ 23) with 8388608 in *.
    change (2 ^ 24) with 16777216 in *. lia.
  - exists (Pos.iter xO p k), (Zpos (digits2_pos p) + 0 - 24), (Zpos p).
    assert (Hk : Zpos (digits2_pos (Pos.iter xO p k)) = 24)
      by (rewrite iter_xO_digits; lia).
    rewrite round_aux_normal by lia. split; [reflexivity |].
    split; [| split; [| reflexivity]].
    + rewrite iter_xO_value. replace (Zpos (digits2_pos p) + 0 - 24) with (- Zpos k) by lia.
      apply mantissa_value_down. lia.
    + replace (Zpos p - Zpos p) with 0 by lia. cbn. lia.
Qed.

(** [static_cast<float>] of a 32-bit integer [s] denotes an integer within
    [|s| * 2^-24] of [s], and [s] itself when [|s| <= 2^24]. *)
Lemma of_int_value (s : Z) :
  - 2 ^ 31 <= s < 2 ^ 31 ->
  exists r z,
    F32.to_Q (F32.of_int s) = Some r /\ (r == inject_Z z)%Q
    /\ 2 ^ 24 * Z.abs (z - s) <= Z.abs s
    /\ (Z.abs s <= 2 ^ 24 -> z = s).
Proof.
  intros Hs. unfold F32.of_int, binary_normalize, F32.prec, F32.emax.
  destruct s as [| p | p].
  - exists 0%Q, 0. split; [reflexivity |]. split; [reflexivity |]. cbn. lia.
  - destruct (binary_round_value false p) as (m & e & z & -> & Hv & Hb & Hx); [lia |].
    eexists. exists z. split; [reflexivity |]. rewrite Qred_correct.
    split; [exact Hv |]. split; [lia | ]. intros H. apply Hx. lia.
  - destruct (binary_round_value true p) as (m & e & z & -> & Hv & Hb & Hx); [lia |].
    eexists. exists (- z). split; [reflexivity |]. rewrite Qred_correct.
    cbn [cond_Zopp]. split.
    + change (Z.neg m) with (- Zpos m). rewrite !inject_Z_opp.
      rewrite <- Hv. ring.
    + split; [lia |]. intros H. rewrite Hx by lia. reflexivity.
Qed.

(** The 32-bit conversion: the sample rounded to [float], times 2^-31
    exactly. *)
Lemma sample32_value (s : Z) :
  - 2 ^ 31 <= s < 2 ^ 31 ->
  exists z,
    denotes (F32.of_int s) (inject_Z z)
    /\ denotes (sample32 s) (z # 2147483648)
    /\ 2 ^ 24 * Z.abs (z - s) <= Z.abs s
    /\ (Z.abs s <= 2 ^ 24 -> z = s).
Proof.
  intros Hs. destruct (sample32_exact_scaling s Hs) as (r & Hr & (q & Hq & Hden)).
  destruct (of_int_value s Hs) as (r' & z & Hr' & Hz & Hb & Hx).
  rewrite Hr in Hr'. injection Hr' as <-.
  exists z. split; [exists r; split; assumption |].
  split; [| split; assumption].
  exists q. split; [exact Hq |]. rewrite Hden, Hz.
  unfold Qeq, Qmult, inject_Z. cbn. lia.
Qed.

(** ** Reading the device buffer *)

Lemma byteZ_range (b : byte) : 0 <= byteZ b < 256.
Proof.
  unfold byteZ. pose proof (Byte.to_N_bounded b) as H. lia.
Qed.

Lemma le_decode_range (bs : list byte) :
  0 <= le_decode bs < 256 ^ Z.of_nat (length bs).
Proof.
  induction bs as [| b bs IH]; [simpl; lia |].
  cbn [le_decode length]. rewrite Nat2Z.inj_succ, Z.pow_succ_r by lia.
  pose proof (byteZ_range b). lia.
Qed.

Lemma load_range (width : nat) (mem : list byte) (i u : Z) :
  load width mem i = Some u -> 0 <= u < 256 ^ Z.of_nat width.
Proof.
  unfold load. destruct (decide _) as [Hlen | _]; [| discriminate].
  intros [= <-]. pose proof (le_decode_range (take width (drop (Z.to_nat i * width) mem))) as H.
  rewrite Hlen in H. assumption.
Qed.

Lemma signed_range (w u : Z) :
  0 < w -> 0 <= u < 2 ^ w -> - 2 ^ (w - 1) <= signed w u < 2 ^ (w - 1).
Proof.
  intros Hw Hu. unfold signed.
  assert (H2 : 2 ^ w = 2 * 2 ^ (w - 1)).
  { replace w with (Z.succ (w - 1)) at 1 by lia. apply Z.pow_succ_r. lia. }
  destruct (Z.ltb_spec u (2 ^ (w - 1))); lia.
Qed.

Lemma load_i16_range (mem : list byte) (i s : Z) :
  load_i16 mem i = Some s -> -32768 <= s < 32768.
Proof.
  unfold load_i16. destruct (load 2 mem i) as [u |] eqn:E; [| discriminate].
  intros [= <-]. apply load_range in E.
  apply (signed_range 16 u); [lia | exact E].
Qed.

Lemma load_i32_range (mem : list byte) (i s : Z) :
  load_i32 mem i = Some s -> - 2 ^ 31 <= s < 2 ^ 31.
Proof.
  unfold load_i32. destruct (load 4 mem i) as [u |] eqn:E; [| discriminate].
  intros [= <-]. apply load_range in E.
  apply (signed_range 32 u); [lia | exact E].
Qed.

(** ** C1: the Sample Converter *)

(** The 32-bit sample 2^24 + 1 does not come out as (2^24 + 1) / 2^31: it
    has 25 significant bits, [static_cast<float>] rounds it to 2^24, and
    the output is 2^24 / 2^31, the same as for the sample 2^24. *)
Lemma C1_counterexample :
  is_int32 (pcm_stereo 32)
  /\ load_i32 rounded_frame32 0 = Some 16777217
  /\ exists x y,
       convertToFloat32 (Some (pcm_stereo 32)) (Some rounded_frame32)
                        (Some [F32.zero; F32.zero]) 1 = Some (Some [x; y])
       /\ ~ denotes x (16777217 # 2147483648)
       /\ x = sample32 16777216
       /\ denotes x (16777216 # 2147483648).
Proof.
  split; [split; reflexivity |]. split; [reflexivity |].
  eexists. eexists. split; [vm_compute; reflexivity |].
  split; [| split; [reflexivity | apply denotesb_denotes; vm_compute; reflexivity]].
  intros (r & Hr & Heq). vm_compute in Hr. injection Hr as <-.
  vm_compute in Heq. discriminate Heq.
Qed.

(** C1.  For a raw buffer of [numFrames > 0] frames of one or two channels,
    [convertToFloat32] returns with every cell of the destination written,
    in frame-major, channel-minor order: cell [frame * channels + ch] holds
    - for IEEE float32, the float whose object representation are the four
      source bytes of that cell (no scaling);
    - for 16-bit PCM, the source sample times [1.0f / 32768.0f], which is
      exactly [s / 32768];
    - for 32-bit PCM, the source sample [s] converted to [float] times
      [1.0f / 2147483648.0f]: the conversion rounds [s] to an integer [z]
      with [|z - s| <= |s| * 2^-24], which is [s] itself when
      [|s| <= 2^24]; the product is exact, so that the output is
      [z / 2147483648].
    In particular 32767 maps to 32767/32768 and -32768 to -1.0f. *)
Theorem C1_sample_converter (wf : WAVEFORMATEX) (src : list byte)
  (dst : list spec_float) (numFrames : Z) :
  0 < numFrames ->
  nChannels wf = 1 \/ nChannels wf = 2 ->
  numFrames * nChannels wf < 2 ^ 32 ->
  nBlockAlign wf = nChannels wf * (wBitsPerSample wf / 8) ->
  Z.of_nat (length src) = numFrames * nBlockAlign wf ->
  Z.of_nat (length dst) = numFrames * nChannels wf ->
  is_float32 wf \/ is_int16 wf \/ is_int32 wf ->
  (exists out,
     convertToFloat32 (Some wf) (Some src) (Some dst) numFrames = Some (Some out)
     /\ Z.of_nat (length out) = numFrames * nChannels wf
     /\ forall frame ch,
          0 <= frame < numFrames -> 0 <= ch < nChannels wf ->
          forall i, i = frame * nChannels wf + ch ->
          (is_float32 wf ->
             exists w, load 4 src i = Some w
                       /\ out !! Z.to_nat i = Some (F32.of_bits w))
          /\ (is_int16 wf ->
                exists s, load_i16 src i = Some s
                          /\ out !! Z.to_nat i = Some (sample16 s)
                          /\ denotes (sample16 s) (s # 32768))
          /\ (is_int32 wf ->
                exists s z, load_i32 src i = Some s
                            /\ out !! Z.to_nat i = Some (sample32 s)
                            /\ denotes (F32.of_int s) (inject_Z z)
                            /\ denotes (sample32 s) (z # 2147483648)
                            /\ 2 ^ 24 * Z.abs (z - s) <= Z.abs s
                            /\ (Z.abs s <= 2 ^ 24 -> z = s)))
  /\ denotes scale16 (1 # 32768)
  /\ denotes scale32 (1 # 2147483648)
  /\ denotes (sample16 32767) (32767 # 32768)
  /\ sample16 (-32768) = F32.of_int (-1).
Proof.
  intros HF HC Hbound Halign Hsrc Hdst Hkind.
  split; [| repeat split; try (apply denotesb_denotes; vm_compute; reflexivity)].
  assert (HC0 : 0 <= nChannels wf) by lia.
  assert (Hnz : (numFrames =? 0) = false) by (apply Z.eqb_neq; lia).
  assert (Hw : wrap32 (numFrames * nChannels wf) = numFrames * nChannels wf)
    by (apply wrap32_small; nia).
  assert (Hidx : forall frame ch, 0 <= frame < numFrames -> 0 <= ch < nChannels wf ->
                                  0 <= frame * nChannels wf + ch < numFrames * nChannels wf)
    by (intros; nia).
  unfold convertToFloat32. rewrite Hnz.
  destruct Hkind as [[Htag Hbits] | [[Htag Hbits] | [Htag Hbits]]];
    rewrite Hbits in Halign; rewrite Halign in Hsrc; rewrite Htag; simpl Z.eqb; cbv iota.
  - (* float32 *)
    change (32 / 8) with 4 in Hsrc. rewrite Hw. unfold copy_floats.
    destruct (linear_loop_filled (load_f32 src) (numFrames * nChannels wf) dst)
      as (out & Hl & Hout); [lia | lia | |].
    { intros k Hk. unfold load_f32.
      destruct (load_is_Some 4 src k) as [w Hw']; [lia | lia |].
      rewrite Hw'. eexists; reflexivity. }
    rewrite Hl. exists out. split; [reflexivity |].
    apply filled_all in Hout as [Hlen Hget]. split; [lia |].
    intros frame ch Hframe Hch i ->. pose proof (Hidx frame ch Hframe Hch) as Hi.
    set (i := frame * nChannels wf + ch) in *. specialize (Hget i Hi).
    split; [| split]; [intros _ | intros [E _] | intros [E _]];
      [| rewrite Htag in E; discriminate E | rewrite Htag in E; discriminate E].
    unfold load_f32 in Hget.
    destruct (load_is_Some 4 src i) as [w Hw']; [lia | lia |].
    exists w. split; [assumption |]. rewrite Hget, Hw'. reflexivity.
  - (* int16 *)
    rewrite Hbits. simpl Z.eqb. cbv iota. change (16 / 8) with 2 in Hsrc.
    destruct (pcm_loop_filled (fun i => sample16 <$> load_i16 src i)
                numFrames (nChannels wf) dst) as (out & Hl & Hout);
      [lia | lia | lia | lia | |].
    { intros k Hk. unfold load_i16.
      destruct (load_is_Some 2 src k) as [w Hw']; [lia | lia |].
      rewrite Hw'. eexists; reflexivity. }
    rewrite Hl. exists out. split; [reflexivity |].
    apply filled_all in Hout as [Hlen Hget]. split; [lia |].
    intros frame ch Hframe Hch i ->. pose proof (Hidx frame ch Hframe Hch) as Hi.
    set (i := frame * nChannels wf + ch) in *. specialize (Hget i Hi).
    split; [| split]; [intros [E _] | intros _ | intros [_ E]];
      [rewrite Htag in E; discriminate E | | rewrite Hbits in E; discriminate E].
    destruct (load_i16 src i) as [s |] eqn:Es.
    + exists s. split; [reflexivity |]. split; [exact Hget |].
      apply sample16_exact. apply (load_i16_range src i). assumption.
    + exfalso. unfold load_i16 in Es.
      destruct (load_is_Some 2 src i) as [w Hw']; [lia | lia |].
      rewrite Hw' in Es. discriminate Es.
  - (* int32 *)
    rewrite Hbits. simpl Z.eqb. cbv iota. change (32 / 8) with 4 in Hsrc.
    destruct (pcm_loop_filled (fun i => sample32 <$> load_i32 src i)
                numFrames (nChannels wf) dst) as (out & Hl & Hout);
      [lia | lia | lia | lia | |].
    { intros k Hk. unfold load_i32.
      destruct (load_is_Some 4 src k) as [w Hw']; [lia | lia |].
      rewrite Hw'. eexists; reflexivity. }
    rewrite Hl. exists out. split; [reflexivity |].
    apply filled_all in Hout as [Hlen Hget]. split; [lia |].
    intros frame ch Hframe Hch i ->. pose proof (Hidx frame ch Hframe Hch) as Hi.
    set (i := frame * nChannels wf + ch) in *. specialize (Hget i Hi).
    split; [| split]; [intros [E _] | intros [_ E] | intros _];
      [rewrite Htag in E; discriminate E | rewrite Hbits in E; discriminate E |].
    destruct (load_i32 src i) as [s |] eqn:Es.
    + destruct (sample32_value s) as (z & Hof & Hden & Hnear & Hexact);
        [apply (load_i32_range src i); assumption |].
      exists s, z. split; [reflexivity |]. split; [exact Hget |].
      repeat split; assumption.
    + exfalso. unfold load_i32 in Es.
      destruct (load_is_Some 4 src i) as [w Hw']; [lia | lia |].
      rewrite Hw' in Es. discriminate Es.
Qed.

(** ** Integers in double precision *)

(** An integer of at most [prec] binary digits is converted exactly. *)
Lemma binary_round_small (prec emax : Z) (sg : bool) (p : positive) :
  Zpos (digits2_pos p) <= prec -> 3 - emax <= Zpos (digits2_pos p) <= emax ->
  exists m, binary_round prec emax sg p 0
            = S754_finite sg m (Zpos (digits2_pos p) - prec).
Proof.
  intros Hd He. unfold binary_round. rewrite fexp_normal by lia. unfold shl_align.
  destruct (Zpos (digits2_pos p) + 0 - prec - 0) as [| k | k] eqn:Ek.
  - exists p. rewrite round_aux_normal by lia. f_equal; lia.
  - lia.
  - exists (Pos.iter xO p k).
    assert (Hk : Zpos (digits2_pos (Pos.iter xO p k)) = prec)
      by (rewrite iter_xO_digits; lia).
    rewrite round_aux_normal by lia. f_equal; lia.
Qed.


(** ** The meters on a buffer of zeros *)






(** ** C2: buffers flagged as silence *)

Lemma forwardMeterData_snapshots (callbacks : list IAudioDataCallbackPtr)
  (snapshot : MeterSnapshot) (cb : IAudioDataCallbackPtr) (snap : MeterSnapshot) :
  In (OnMeterData cb snap) (AudioEngine.forwardMeterData callbacks snapshot) ->
  snap = snapshot.
Proof.
  unfold AudioEngine.forwardMeterData. intros H.
  apply in_flat_map in H as (c & _ & Hc).
  destruct c as [| | id]; simpl in Hc; try contradiction.
  destruct Hc as [[= _ <-] | []]. reflexivity.
Qed.

Lemma forwardMeterData_observers (callbacks : list IAudioDataCallbackPtr)
  (snapshot : MeterSnapshot) :
  AudioEngine.forwardMeterData callbacks snapshot
  = flat_map (fun cb => match cb with
                        | observer _ => [OnMeterData cb snapshot]
                        | _ => []
                        end) callbacks.
Proof.
  unfold AudioEngine.forwardMeterData. induction callbacks as [| c l IH]; [reflexivity |].
  simpl. rewrite IH. destruct c; reflexivity.
Qed.


(** [data()] of a vector that holds a sample is the vector. *)
Lemma vector_data_Some (v : list spec_float) :
  (0 < length v)%nat -> vector_data v = Some v.
Proof. destruct v; [cbn; lia | reflexivity]. Qed.

Lemma vector_data_cases (v : list spec_float) :
  vector_data v = None \/ vector_data v = Some v.
Proof. destruct v; [left | right]; reflexivity. Qed.


(** ** C3: failure exits of [initialize] *)

(** C3.  The specification asks that every resource acquired by a failing
    [initialize] be released before it returns.  The code does not do so:
    its failure exits call [releaseCom] only, which uninitializes COM and
    releases no interface.  With an enumerator but no default endpoint,
    [initialize] returns [false] while the enumerator is still held and no
    release of it was issued; when [GetService] fails, the enumerator, the
    device, the audio client and the mix format all stay acquired.  A later
    successful [initialize] overwrites the stale pointer, so that even
    [shutdown] leaves one enumerator unreleased. *)
Theorem C3_initialize_failure_leaves_resources :
  (let '(ok, s, log) := WasapiCapture.initialize no_endpoint
                          (WasapiCapture.constructed no_format) in
   ok = false
   /\ WasapiCapture.m_deviceEnumerator s = true
   /\ outstanding DeviceEnumerator log = 1
   /\ outstanding ComLibrary log = 0
   /\ WasapiCapture.m_comInitialized s = false)
  /\ (let '(ok, s, log) := WasapiCapture.initialize no_capture_service
                             (WasapiCapture.constructed no_format) in
      ok = false
      /\ WasapiCapture.m_waveFormat s = Some (pcm_stereo 16)
      /\ outstanding DeviceEnumerator log = 1
      /\ outstanding Device log = 1
      /\ outstanding AudioClient log = 1
      /\ outstanding MixFormat log = 1)
  /\ (let '(_, s1, l1) := WasapiCapture.initialize no_endpoint
                            (WasapiCapture.constructed no_format) in
      let '(ok, s2, l2) := WasapiCapture.initialize (device_with (pcm_stereo 16)) s1 in
      let '(s3, l3) := WasapiCapture.shutdown s2 in
      ok = true /\ idle s3
      /\ outstanding DeviceEnumerator (l1 ++ l2 ++ l3) = 1).
Proof.
  vm_compute. repeat split; reflexivity.
Qed.

(** ** C4: what [initialize] checks of the format *)

Lemma fail_releaseCom_false (s : WasapiCapture.t) (log : list Event) :
  fst (fst (WasapiCapture.fail_releaseCom s log)) = false.
Proof.
  unfold WasapiCapture.fail_releaseCom, WasapiCapture.releaseCom.
  destruct (WasapiCapture.m_comInitialized s); reflexivity.
Qed.

Lemma fail_freeFormat_false (s : WasapiCapture.t) (log : list Event) :
  fst (fst (WasapiCapture.fail_freeFormat s log)) = false.
Proof. unfold WasapiCapture.fail_freeFormat. apply fail_releaseCom_false. Qed.

(** A 24-bit PCM mix format is none of int16, int32 and float32, and
    [initialize] succeeds on it. *)
Lemma C4_counterexample :
  supported_kind (pcm_stereo 24) = false
  /\ fst (fst (WasapiCapture.initialize (device_with (pcm_stereo 24))
                 (WasapiCapture.constructed no_format))) = true.
Proof. vm_compute. split; reflexivity. Qed.

(** With an unsupported PCM bit depth, or a format tag that is neither
    PCM nor IEEE float, the converter writes zeros. *)
Lemma convert_unsupported_zero (wf : WAVEFORMATEX) (src : list byte)
  (dst : list spec_float) (numFrames : Z) :
  0 < numFrames -> 0 <= nChannels wf -> numFrames * nChannels wf < 2 ^ 32 ->
  Z.of_nat (length dst) = numFrames * nChannels wf ->
  wFormatTag wf <> WAVE_FORMAT_IEEE_FLOAT ->
  (wFormatTag wf = WAVE_FORMAT_PCM -> wBitsPerSample wf <> 16 /\ wBitsPerSample wf <> 32) ->
  convertToFloat32 (Some wf) (Some src) (Some dst) numFrames
  = Some (Some (replicate (length dst) F32.zero)).
Proof.
  intros HF HC Hbound Hdst Htag Hbits. unfold convertToFloat32.
  destruct (Z.eqb_spec numFrames 0) as [-> | _]; [lia |].
  destruct (Z.eqb_spec (wFormatTag wf) WAVE_FORMAT_IEEE_FLOAT) as [E | _];
    [contradiction |].
  assert (Hfill : fill_zero (wrap32 (numFrames * nChannels wf)) dst
                  = Some (replicate (length dst) F32.zero)).
  { rewrite wrap32_small by nia. unfold fill_zero.
    destruct (linear_loop_filled (fun _ => Some F32.zero)
                (numFrames * nChannels wf) dst) as (out & Hl & Hout);
      [nia | lia | intros; eexists; reflexivity |].
    cbv beta iota in Hl. rewrite Hl. f_equal.
    apply filled_all in Hout as [Hlen Hget].
    apply list_eq. intros i. destruct (decide (i < length dst)%nat) as [Hi | Hi].
    - rewrite lookup_replicate_2 by assumption.
      rewrite <- (Nat2Z.id i). apply Hget. lia.
    - rewrite !lookup_ge_None_2; [reflexivity | rewrite length_replicate; lia | lia]. }
  destruct (Z.eqb_spec (wFormatTag wf) WAVE_FORMAT_PCM) as [E | _].
  - destruct (Hbits E) as [H16 H32].
    destruct (Z.eqb_spec (wBitsPerSample wf) 16) as [E16 | _]; [contradiction |].
    destruct (Z.eqb_spec (wBitsPerSample wf) 32) as [E32 | _]; [contradiction |].
    rewrite Hfill. reflexivity.
  - rewrite Hfill. reflexivity.
Qed.

(** [format_accepted] is the negation of the two tests of [initialize]. *)
Lemma format_tests (wf : WAVEFORMATEX) :
  format_accepted wf
  = negb (negb (wFormatTag wf =? WAVE_FORMAT_PCM)
          && negb (wFormatTag wf =? WAVE_FORMAT_IEEE_FLOAT))
    && negb ((nChannels wf <? 1) || (nChannels wf >? 2)).
Proof.
  unfold format_accepted. rewrite Z.gtb_ltb.
  destruct (wFormatTag wf =? WAVE_FORMAT_PCM), (wFormatTag wf =? WAVE_FORMAT_IEEE_FLOAT);
    cbn [negb andb orb]; try reflexivity;
    destruct (Z.leb_spec 1 (nChannels wf)), (Z.leb_spec (nChannels wf) 2),
      (Z.ltb_spec (nChannels wf) 1), (Z.ltb_spec 2 (nChannels wf));
    try reflexivity; lia.
Qed.

(** [initialize] examines the format tag and the channel count, and
    nothing else of the format. *)
Lemma initialize_checks_format (os : WasapiCapture.InitOracle)
  (s : WasapiCapture.t) :
  WasapiCapture.m_comInitialized s = false ->
  (format_accepted (WasapiCapture.mixFormat os) = false ->
   fst (fst (WasapiCapture.initialize os s)) = false)
  /\ (calls_succeed os = true ->
      format_accepted (WasapiCapture.mixFormat os) = true ->
      fst (fst (WasapiCapture.initialize os s)) = true
      /\ WasapiCapture.m_waveFormat (snd (fst (WasapiCapture.initialize os s)))
         = Some (WasapiCapture.mixFormat os)).
Proof.
  destruct_state s. cbn [WasapiCapture.m_comInitialized]. intros ->.
  rewrite format_tests. unfold calls_succeed. unfold_initialize.
  destruct (negb (wFormatTag (WasapiCapture.mixFormat os) =? WAVE_FORMAT_PCM)
            && negb (wFormatTag (WasapiCapture.mixFormat os) =? WAVE_FORMAT_IEEE_FLOAT));
    destruct ((nChannels (WasapiCapture.mixFormat os) <? 1)
              || (nChannels (WasapiCapture.mixFormat os) >? 2));
    cbn [negb andb]; (split; [intros Hf | intros Hc Ha]);
    try discriminate Hf; try discriminate Ha;
    destruct (FAILED (WasapiCapture.hrCoInitializeEx os));
    destruct (FAILED (WasapiCapture.hrCoCreateInstance os));
    destruct (FAILED (WasapiCapture.hrGetDefaultAudioEndpoint os));
    destruct (FAILED (WasapiCapture.hrActivate os));
    destruct (FAILED (WasapiCapture.hrGetMixFormat os));
    destruct (FAILED (WasapiCapture.hrInitialize os));
    destruct (FAILED (WasapiCapture.hrGetService os));
    destruct (WasapiCapture.createEvent os);
    try discriminate Hc; cbn [andb negb orb];
    destruct_tests; try reflexivity; split; reflexivity.
Qed.

(** C4, as the code has it.  On an object that is not yet initialized,
    [initialize] returns [false] whenever the negotiated format is neither
    PCM nor IEEE float or its channel count is outside {1, 2}; the bit depth
    is not examined: when every device call succeeds, such a format of one
    or two channels is accepted whatever its bit depth. *)
Theorem C4_initialize_format_check (os : WasapiCapture.InitOracle)
  (s : WasapiCapture.t) :
  WasapiCapture.m_comInitialized s = false ->
  (format_accepted (WasapiCapture.mixFormat os) = false ->
   fst (fst (WasapiCapture.initialize os s)) = false)
  /\ (calls_succeed os = true ->
      format_accepted (WasapiCapture.mixFormat os) = true ->
      fst (fst (WasapiCapture.initialize os s)) = true
      /\ WasapiCapture.m_waveFormat (snd (fst (WasapiCapture.initialize os s)))
         = Some (WasapiCapture.mixFormat os)).
Proof. apply initialize_checks_format. Qed.

(** ** C5: the Callback Registration Set *)

Lemma ptr_eqb_eq (a b : IAudioDataCallbackPtr) : ptr_eqb a b = true <-> a = b.
Proof.
  destruct a as [| | i], b as [| | j]; simpl; split; intros H;
    try reflexivity; try discriminate H.
  - apply Nat.eqb_eq in H. congruence.
  - injection H as ->. apply Nat.eqb_refl.
Qed.

Lemma ptr_eqb_refl (a : IAudioDataCallbackPtr) : ptr_eqb a a = true.
Proof. apply ptr_eqb_eq. reflexivity. Qed.

Lemma vector_unregister_absent (callback : IAudioDataCallbackPtr)
  (callbacks : list IAudioDataCallbackPtr) :
  ~ In callback callbacks -> vector_unregister callback callbacks = callbacks.
Proof.
  intros Hnot. unfold vector_unregister. destruct (is_null callback); [reflexivity |].
  induction callbacks as [| c l IH]; [reflexivity |].
  simpl. destruct (ptr_eqb c callback) eqn:E.
  - exfalso. apply Hnot. left. apply ptr_eqb_eq. assumption.
  - simpl. f_equal. apply IH. intros H. apply Hnot. right. assumption.
Qed.

Lemma vector_unregister_removes (callback : IAudioDataCallbackPtr)
  (callbacks : list IAudioDataCallbackPtr) :
  callback <> nullptr -> ~ In callback (vector_unregister callback callbacks).
Proof.
  intros Hnn. unfold vector_unregister.
  destruct (is_null callback) eqn:E.
  - exfalso. apply Hnn. apply ptr_eqb_eq. exact E.
  - intros H. apply filter_In in H as [_ H]. rewrite ptr_eqb_refl in H. discriminate H.
Qed.


Lemma vector_unregister_idem (callback : IAudioDataCallbackPtr)
  (callbacks : list IAudioDataCallbackPtr) :
  vector_unregister callback (vector_unregister callback callbacks)
  = vector_unregister callback callbacks.
Proof.
  destruct callback as [| | id] eqn:E; [reflexivity | |];
    apply vector_unregister_absent, vector_unregister_removes; discriminate.
Qed.

Lemma unregister_twice (cb : IAudioDataCallbackPtr) (s : WasapiCapture.t) :
  WasapiCapture.unregisterCallback cb (WasapiCapture.unregisterCallback cb s)
  = WasapiCapture.unregisterCallback cb s.
Proof.
  destruct s. unfold WasapiCapture.unregisterCallback, WasapiCapture.set_callbacks.
  cbn. rewrite vector_unregister_idem. reflexivity.
Qed.




(** ** C6: [stop] and [shutdown] *)

Lemma stop_not_capturing (s : WasapiCapture.t) :
  WasapiCapture.m_capturing s = false -> WasapiCapture.stop s = (s, []).
Proof. intros H. unfold WasapiCapture.stop. rewrite H. reflexivity. Qed.

Lemma stop_clears_capturing (s : WasapiCapture.t) :
  WasapiCapture.m_capturing (fst (WasapiCapture.stop s)) = false
  /\ (WasapiCapture.m_capturing s = true ->
      WasapiCapture.m_captureThread (fst (WasapiCapture.stop s)) = false).
Proof.
  destruct_state s. unfold WasapiCapture.stop.
  destruct capturing, thread; cbn; split; intros; reflexivity || discriminate.
Qed.

Lemma stop_twice (s : WasapiCapture.t) :
  WasapiCapture.stop (fst (WasapiCapture.stop s)) = (fst (WasapiCapture.stop s), []).
Proof. apply stop_not_capturing. apply stop_clears_capturing. Qed.

Lemma shutdown_releases (s : WasapiCapture.t) :
  exists rel,
    snd (WasapiCapture.shutdown s) = snd (WasapiCapture.stop s) ++ rel
    /\ forallb is_release rel = true
    /\ WasapiCapture.m_deviceEnumerator (fst (WasapiCapture.shutdown s)) = false
    /\ WasapiCapture.m_device (fst (WasapiCapture.shutdown s)) = false
    /\ WasapiCapture.m_audioClient (fst (WasapiCapture.shutdown s)) = false
    /\ WasapiCapture.m_captureClient (fst (WasapiCapture.shutdown s)) = false
    /\ WasapiCapture.m_waveFormat (fst (WasapiCapture.shutdown s)) = None
    /\ WasapiCapture.m_capturing (fst (WasapiCapture.shutdown s)) = false
    /\ WasapiCapture.m_stopEvent (fst (WasapiCapture.shutdown s)) = false
    /\ WasapiCapture.m_comInitialized (fst (WasapiCapture.shutdown s)) = false
    /\ WasapiCapture.m_captureThread (fst (WasapiCapture.shutdown s))
       = (negb (WasapiCapture.m_capturing s) && WasapiCapture.m_captureThread s).
Proof.
  destruct_state s. unfold WasapiCapture.shutdown, WasapiCapture.stop.
  destruct enumerator, device, client, capture, wave, capturing, thread, event, com;
    (eexists; split; [cbn [snd app]; rewrite <- ?app_assoc; cbn [app]; reflexivity |]);
    repeat split; reflexivity.
Qed.

(** The calls of [shutdown] after those of [stop]: one release for each
    resource held, the interfaces and the format block before COM, the
    stop event last. *)
Lemma shutdown_log (s : WasapiCapture.t) :
  snd (WasapiCapture.shutdown s) = snd (WasapiCapture.stop s) ++ shutdown_releases_of s.
Proof.
  destruct_state s.
  destruct enumerator, device, client, capture, wave, capturing, thread, event, com;
    reflexivity.
Qed.

(** [stop] joins and closes the thread of a capturing object. *)
Lemma stop_releases_thread (s : WasapiCapture.t) :
  thread_implies_capturing s -> WasapiCapture.m_captureThread s = true ->
  In (Release CaptureThread) (snd (WasapiCapture.stop s)).
Proof.
  unfold thread_implies_capturing, WasapiCapture.stop. intros Ht Hth.
  rewrite (Ht Hth). cbn [negb]. destruct s. cbn in Hth |- *. rewrite Hth.
  apply in_or_app. right. apply in_or_app. right. right. left. reflexivity.
Qed.

(** Every resource held is given back by [shutdown], once. *)
Lemma shutdown_gives_back (s : WasapiCapture.t) (r : Resource) :
  thread_implies_capturing s ->
  (held r s = true -> In (Release r) (snd (WasapiCapture.shutdown s)))
  /\ outstanding r (snd (WasapiCapture.shutdown s)) = (if held r s then -1 else 0).
Proof.
  intros Ht. split.
  - intros Hh. rewrite shutdown_log. apply in_or_app.
    destruct (Resource_eqb r CaptureThread) eqn:E.
    + left. destruct r; try discriminate E. apply stop_releases_thread; assumption.
    + right. unfold shutdown_releases_of. apply in_map. apply filter_In.
      split; [| exact Hh]. destruct r; cbn; try discriminate E; auto 10.
  - unfold thread_implies_capturing in Ht. destruct_state s. cbn in Ht.
    destruct capturing, thread; try discriminate (Ht eq_refl);
      destruct enumerator, device, client, capture, wave, event, com, r; reflexivity.
Qed.

Lemma shutdown_idle_noop (s : WasapiCapture.t) :
  idle s -> WasapiCapture.shutdown s = (s, []).
Proof.
  destruct_state s. unfold idle. cbn.
  intros (-> & -> & -> & -> & -> & -> & -> & -> & ->). reflexivity.
Qed.

(** [initialize] leaves the capture state, the thread and the registrations
    as they are. *)
Lemma initialize_frame (os : WasapiCapture.InitOracle) (s : WasapiCapture.t) :
  WasapiCapture.m_capturing (snd (fst (WasapiCapture.initialize os s)))
  = WasapiCapture.m_capturing s
  /\ WasapiCapture.m_captureThread (snd (fst (WasapiCapture.initialize os s)))
     = WasapiCapture.m_captureThread s
  /\ WasapiCapture.m_callbacks (snd (fst (WasapiCapture.initialize os s)))
     = WasapiCapture.m_callbacks s.
Proof.
  destruct_state s. unfold_initialize.
  destruct_tests; cbn; repeat split; reflexivity.
Qed.

Lemma process_frame (deliver : WasapiCapture.Delivery) (s s' : WasapiCapture.t)
  (data : option (list byte)) (frames flags : Z) (log : list Event) :
  WasapiCapture.processAudioData deliver s data frames flags = Some (s', log) ->
  exists buffer, s' = WasapiCapture.set_floatBuffer buffer s.
Proof.
  unfold WasapiCapture.processAudioData. intros H.
  destruct data as [d |]; [| injection H as <- _; exists (WasapiCapture.m_floatBuffer s);
                             destruct s; reflexivity].
  destruct (frames =? 0);
    [injection H as <- _; exists (WasapiCapture.m_floatBuffer s); destruct s; reflexivity |].
  match type of H with
  | match ?c with _ => _ end = _ => destruct c as [buffer |]; [| discriminate H]
  end.
  injection H as <- _. exists buffer. reflexivity.
Qed.

Lemma reachable_thread (s : WasapiCapture.t) :
  reachable s -> thread_implies_capturing s.
Proof.
  unfold thread_implies_capturing.
  induction 1 as [fmt | os s _ IH | os s _ IH | s _ IH | s _ IH
                  | cb s _ IH | cb s _ IH | deliver s s' data frames flags log _ IH Hp].
  - cbn. discriminate.
  - destruct (initialize_frame os s) as (-> & -> & _). exact IH.
  - destruct_state s. unfold WasapiCapture.start. cbn in IH |- *.
    destruct capturing; [exact IH |].
    destruct (negb client || negb capture); [exact IH |].
    destruct (FAILED (WasapiCapture.hrStart os)); [exact IH |].
    destruct (WasapiCapture.createThread os); cbn; intros; reflexivity || discriminate.
  - destruct_state s. unfold WasapiCapture.stop. cbn in IH |- *.
    destruct capturing, thread; cbn in *; intros H; try discriminate H; auto.
  - destruct (shutdown_releases s) as (rel & _ & _ & _ & _ & _ & _ & _ & _ & _ & _ & Ht).
    rewrite Ht. intros Hth. apply andb_prop in Hth as [Hc Hth].
    rewrite (IH Hth) in Hc. discriminate Hc.
  - destruct_state s. exact IH.
  - destruct_state s. exact IH.
  - apply process_frame in Hp as [buffer ->]. destruct_state s. exact IH.
Qed.

(** [initialize] keeps the format members in agreement. *)
Lemma initialize_session (os : WasapiCapture.InitOracle) (s : WasapiCapture.t) :
  session_ok s -> session_ok (snd (fst (WasapiCapture.initialize os s))).
Proof.
  destruct_state s. unfold session_ok. unfold_initialize. intros Hs.
  destruct ((nChannels (WasapiCapture.mixFormat os) <? 1)
            || (nChannels (WasapiCapture.mixFormat os) >? 2)) eqn:Ech.
  all: destruct_tests; cbn; try exact Hs; try (intros wf H; discriminate H).
  all: intros wf H; injection H as <-; split; [reflexivity |].
  all: apply orb_false_elim in Ech as [E1 E2]; rewrite Z.gtb_ltb in E2;
       apply Z.ltb_ge in E1, E2; lia.
Qed.

Lemma reachable_session (s : WasapiCapture.t) : reachable s -> session_ok s.
Proof.
  induction 1 as [fmt | os s _ IH | os s _ IH | s _ IH | s _ IH
                  | cb s _ IH | cb s _ IH | deliver s s' data frames flags log _ IH Hp].
  - intros wf H. discriminate H.
  - apply initialize_session. exact IH.
  - destruct_state s. unfold WasapiCapture.start.
    cbn [WasapiCapture.m_capturing WasapiCapture.m_audioClient
         WasapiCapture.m_captureClient].
    destruct_tests; exact IH.
  - destruct_state s. unfold WasapiCapture.stop. cbn [WasapiCapture.m_capturing].
    destruct capturing; [| exact IH]. cbn. destruct thread; exact IH.
  - destruct (shutdown_releases s) as (rel & _ & _ & _ & _ & _ & _ & Hw & _).
    intros wf H. rewrite Hw in H. discriminate H.
  - destruct_state s. exact IH.
  - destruct_state s. exact IH.
  - apply process_frame in Hp as [buffer ->]. destruct_state s. exact IH.
Qed.

(** After [shutdown] nothing is held, and a second [shutdown] does nothing. *)
Lemma shutdown_idle (s : WasapiCapture.t) :
  reachable s -> idle (fst (WasapiCapture.shutdown s)).
Proof.
  intros Hr. apply reachable_thread in Hr. unfold thread_implies_capturing in Hr.
  destruct (shutdown_releases s)
    as (rel & _ & _ & H1 & H2 & H3 & H4 & H5 & H6 & H7 & H8 & H9).
  unfold idle. repeat split; try assumption.
  rewrite H9. destruct (WasapiCapture.m_captureThread s); [| apply andb_false_r].
  rewrite Hr by reflexivity. reflexivity.
Qed.

Lemma initialize_idle_succeeds (os : WasapiCapture.InitOracle) (s : WasapiCapture.t) :
  idle s -> calls_succeed os = true ->
  format_accepted (WasapiCapture.mixFormat os) = true ->
  fst (fst (WasapiCapture.initialize os s)) = true.
Proof.
  intros Hidle Hc Ha.
  destruct (initialize_checks_format os s) as [_ H].
  - apply Hidle.
  - apply H; assumption.
Qed.

Lemma engine_stop_twice (e : AudioEngine.t) :
  AudioEngine.stop (fst (AudioEngine.stop e)) = (fst (AudioEngine.stop e), []).
Proof.
  destruct e as [c cbs]. unfold AudioEngine.stop. cbn [AudioEngine.m_capture AudioEngine.m_callbacks].
  destruct (WasapiCapture.stop c) as [c1 l1] eqn:E1.
  cbn [fst AudioEngine.m_capture AudioEngine.m_callbacks].
  pose proof (stop_twice c) as H. rewrite E1 in H. cbn [fst] in H. rewrite H. reflexivity.
Qed.

(** [shutdown] is [stop] followed by the shutdown of the stopped object. *)
Lemma shutdown_after_stop (s : WasapiCapture.t) :
  WasapiCapture.shutdown s
  = (fst (WasapiCapture.shutdown (fst (WasapiCapture.stop s))),
     snd (WasapiCapture.stop s) ++ snd (WasapiCapture.shutdown (fst (WasapiCapture.stop s)))).
Proof.
  unfold WasapiCapture.shutdown at 2 3. rewrite stop_twice.
  unfold WasapiCapture.shutdown.
  destruct (WasapiCapture.stop s) as [s1 l1]. cbn [fst snd].
  destruct (WasapiCapture.releaseAudioClient s1) as [s2 l2].
  destruct (WasapiCapture.releaseCom s2) as [s3 l3].
  destruct (WasapiCapture.m_stopEvent s3); reflexivity.
Qed.

(** The registrations play no part in [shutdown]. *)
Lemma shutdown_unregister_commute (cb : IAudioDataCallbackPtr) (s : WasapiCapture.t) :
  WasapiCapture.shutdown (WasapiCapture.unregisterCallback cb s)
  = (WasapiCapture.unregisterCallback cb (fst (WasapiCapture.shutdown s)),
     snd (WasapiCapture.shutdown s)).
Proof.
  destruct_state s.
  destruct enumerator, device, client, capture, wave, capturing, thread, event, com;
    reflexivity.
Qed.

(** [AudioEngine::shutdown] in terms of the capture object: the adapter
    is unregistered and the capture object is shut down. *)
Lemma engine_shutdown_eq (e : AudioEngine.t) :
  AudioEngine.shutdown e
  = (AudioEngine.mk
       (WasapiCapture.unregisterCallback metering_adapter
          (fst (WasapiCapture.shutdown (AudioEngine.m_capture e)))) [],
     snd (WasapiCapture.shutdown (AudioEngine.m_capture e))).
Proof.
  destruct e as [c cbs]. unfold AudioEngine.shutdown, AudioEngine.stop.
  cbn [AudioEngine.m_capture AudioEngine.m_callbacks].
  rewrite (shutdown_after_stop c).
  destruct (WasapiCapture.stop c) as [c1 l1]. cbn [fst snd AudioEngine.m_capture].
  rewrite shutdown_unregister_commute. reflexivity.
Qed.

Lemma unregister_idle (cb : IAudioDataCallbackPtr) (s : WasapiCapture.t) :
  idle s -> idle (WasapiCapture.unregisterCallback cb s).
Proof. destruct_state s. unfold idle. cbn. tauto. Qed.

(** C6.  For every state a capture object can reach and every engine built
    on it: a second [stop] changes nothing and calls nothing; [shutdown]
    performs the calls of [stop] and then only releases, after which no
    resource is held, nothing runs, and the engine has no registration left;
    a further [shutdown] changes nothing and calls nothing; [shutdown] of a
    freshly constructed object changes nothing; and [initialize] succeeds
    again after [shutdown] whenever the device calls succeed on an accepted
    format.  The releases are exactly those of the resources held, each
    once: the capture thread in [stop], then the capture client, the audio
    client, the device, the enumerator and the format block, then COM
    (after every interface), then the stop event. *)
Theorem C6_stop_shutdown_idempotent (e : AudioEngine.t) :
  reachable (AudioEngine.m_capture e) ->
  let s := AudioEngine.m_capture e in
  let e' := fst (AudioEngine.shutdown e) in
  WasapiCapture.stop (fst (WasapiCapture.stop s)) = (fst (WasapiCapture.stop s), [])
  /\ AudioEngine.stop (fst (AudioEngine.stop e)) = (fst (AudioEngine.stop e), [])
  /\ (exists rel, snd (WasapiCapture.shutdown s) = snd (WasapiCapture.stop s) ++ rel
                  /\ forallb is_release rel = true)
  /\ (exists rel, snd (AudioEngine.shutdown e) = snd (AudioEngine.stop e) ++ rel
                  /\ forallb is_release rel = true)
  /\ idle (fst (WasapiCapture.shutdown s))
  /\ WasapiCapture.shutdown (fst (WasapiCapture.shutdown s))
     = (fst (WasapiCapture.shutdown s), [])
  /\ idle (AudioEngine.m_capture e')
  /\ AudioEngine.m_callbacks e' = []
  /\ AudioEngine.shutdown e' = (e', [])
  /\ (forall fmt, WasapiCapture.shutdown (WasapiCapture.constructed fmt)
                  = (WasapiCapture.constructed fmt, []))
  /\ (forall fmt, AudioEngine.shutdown (AudioEngine.constructed fmt)
                  = (AudioEngine.constructed fmt, []))
  /\ (forall os, calls_succeed os = true ->
                 format_accepted (WasapiCapture.mixFormat os) = true ->
                 fst (fst (WasapiCapture.initialize os (fst (WasapiCapture.shutdown s))))
                 = true
                 /\ fst (fst (AudioEngine.initialize os e')) = true)
  /\ snd (WasapiCapture.shutdown s)
     = snd (WasapiCapture.stop s) ++ shutdown_releases_of s
  /\ snd (AudioEngine.shutdown e) = snd (WasapiCapture.shutdown s)
  /\ (forall r, held r s = true -> In (Release r) (snd (AudioEngine.shutdown e)))
  /\ (forall r, outstanding r (snd (AudioEngine.shutdown e))
                = if held r s then -1 else 0).
Proof.
  intros Hr s e'.
  pose proof (shutdown_idle s Hr) as Hidle.
  assert (He' : e' = AudioEngine.mk
                       (WasapiCapture.unregisterCallback metering_adapter
                          (fst (WasapiCapture.shutdown s))) [])
    by (unfold e'; rewrite engine_shutdown_eq; reflexivity).
  assert (Hidle' : idle (AudioEngine.m_capture e'))
    by (rewrite He'; apply unregister_idle; exact Hidle).
  split; [apply stop_twice |].
  split; [apply engine_stop_twice |].
  split.
  { destruct (shutdown_releases s) as (rel & H1 & H2 & _). exists rel. auto. }
  split.
  { destruct (shutdown_releases s) as (rel & H1 & H2 & _). exists rel.
    split; [| exact H2]. rewrite engine_shutdown_eq. cbn [snd]. fold s. rewrite H1.
    destruct e as [c cbs]. unfold AudioEngine.stop. cbn [AudioEngine.m_capture] in *.
    subst s. destruct (WasapiCapture.stop c); reflexivity. }
  split; [exact Hidle |].
  split; [apply shutdown_idle_noop; exact Hidle |].
  split; [exact Hidle' |].
  split; [rewrite He'; reflexivity |].
  split.
  { rewrite engine_shutdown_eq, (shutdown_idle_noop _ Hidle'). cbn [fst snd].
    rewrite He'. cbn [AudioEngine.m_capture]. rewrite unregister_twice. reflexivity. }
  split; [intros fmt; reflexivity |].
  split; [intros fmt; reflexivity |].
  split.
  { intros os Hc Ha.
    split; [apply initialize_idle_succeeds; assumption |].
    unfold AudioEngine.initialize.
    pose proof (initialize_idle_succeeds os (AudioEngine.m_capture e') Hidle' Hc Ha) as H.
    destruct (WasapiCapture.initialize os (AudioEngine.m_capture e')) as [[ok c] log].
    cbn [fst] in H. rewrite H. reflexivity. }
  assert (Hlog : snd (AudioEngine.shutdown e) = snd (WasapiCapture.shutdown s))
    by (rewrite engine_shutdown_eq; reflexivity).
  split; [apply shutdown_log |]. split; [exact Hlog |].
  rewrite Hlog.
  split; intros r; apply shutdown_gives_back, reachable_thread, Hr.
Qed.

(** ** C7: [start] *)

(** C7.  [start] on a capturing object returns [true] and changes and
    calls nothing.  When the stream was started and the thread cannot be
    created, [start] stops the stream again, leaves the capturing flag and
    the thread handle clear, and returns [false].  On every failing exit of
    [start] from an object that is not capturing, the object is not
    capturing afterwards and a stream that did not run does not run. *)
Theorem C7_start_idempotent_rollback (os : WasapiCapture.StartOracle)
  (s : WasapiCapture.t) :
  (WasapiCapture.m_capturing s = true -> WasapiCapture.start os s = (true, s, []))
  /\ (WasapiCapture.m_capturing s = false ->
      WasapiCapture.m_audioClient s = true ->
      WasapiCapture.m_captureClient s = true ->
      FAILED (WasapiCapture.hrStart os) = false ->
      WasapiCapture.createThread os = false ->
      exists s',
        WasapiCapture.start os s = (false, s', [EventReset; StreamStart; StreamStop])
        /\ WasapiCapture.m_capturing s' = false
        /\ WasapiCapture.m_captureThread s' = false
        /\ stream_running false [EventReset; StreamStart; StreamStop] = false)
  /\ (WasapiCapture.m_capturing s = false ->
      fst (fst (WasapiCapture.start os s)) = false ->
      WasapiCapture.m_capturing (snd (fst (WasapiCapture.start os s))) = false
      /\ stream_running false (snd (WasapiCapture.start os s)) = false).
Proof.
  destruct_state s. unfold WasapiCapture.start. cbn.
  split; [intros ->; reflexivity |]. split.
  - intros -> -> -> -> ->. cbn. eexists. repeat split.
  - intros ->. destruct (negb client || negb capture); [auto |].
    destruct (FAILED (WasapiCapture.hrStart os)); [auto |].
    destruct (WasapiCapture.createThread os); cbn; [discriminate | auto].
Qed.

(** ** The capture loop *)

(** The converter returns whenever the buffers are large enough. *)
Lemma convert_total (wf : WAVEFORMATEX) (src : list byte) (dst : list spec_float)
  (numFrames : Z) :
  0 <= numFrames -> 0 <= nChannels wf -> numFrames * nChannels wf < 2 ^ 32 ->
  Z.of_nat (length dst) = numFrames * nChannels wf ->
  sample_bytes wf * (numFrames * nChannels wf) <= Z.of_nat (length src) ->
  exists out, convertToFloat32 (Some wf) (Some src) (Some dst) numFrames
              = Some (Some out).
Proof.
  intros HF HC Hbound Hdst Hsrc. unfold convertToFloat32. unfold sample_bytes in Hsrc.
  destruct (numFrames =? 0); [eexists; reflexivity |].
  assert (Hn : 0 <= numFrames * nChannels wf) by nia.
  rewrite wrap32_small by lia.
  assert (Hfill : exists out, fill_zero (numFrames * nChannels wf) dst = Some out).
  { destruct (linear_loop_filled (fun _ => Some F32.zero)
                (numFrames * nChannels wf) dst) as (out & Hl & _);
      [lia | lia | intros; eexists; reflexivity |].
    exists out. exact Hl. }
  destruct (wFormatTag wf =? WAVE_FORMAT_IEEE_FLOAT).
  - destruct (linear_loop_filled (load_f32 src) (numFrames * nChannels wf) dst)
      as (out & Hl & _); [lia | lia | |].
    { intros k Hk. unfold load_f32.
      destruct (load_is_Some 4 src k) as [w Hw]; [lia | lia |].
      rewrite Hw. eexists; reflexivity. }
    exists out. unfold copy_floats. rewrite Hl. reflexivity.
  - destruct (wFormatTag wf =? WAVE_FORMAT_PCM).
    + destruct (wBitsPerSample wf =? 16); [| destruct (wBitsPerSample wf =? 32)].
      * destruct (pcm_loop_filled (fun i => sample16 <$> load_i16 src i)
                    numFrames (nChannels wf) dst) as (out & Hl & _);
          [lia | lia | lia | lia | |].
        { intros k Hk. unfold load_i16.
          destruct (load_is_Some 2 src k) as [w Hw]; [lia | lia |].
          rewrite Hw. eexists; reflexivity. }
        exists out. rewrite Hl. reflexivity.
      * destruct (pcm_loop_filled (fun i => sample32 <$> load_i32 src i)
                    numFrames (nChannels wf) dst) as (out & Hl & _);
          [lia | lia | lia | lia | |].
        { intros k Hk. unfold load_i32.
          destruct (load_is_Some 4 src k) as [w Hw]; [lia | lia |].
          rewrite Hw. eexists; reflexivity. }
        exists out. rewrite Hl. reflexivity.
      * destruct Hfill as [out ->]. eexists; reflexivity.
    + destruct Hfill as [out ->]. eexists; reflexivity.
Qed.

(** [processAudioData] returns on every buffer the device may hand out; it
    changes the normalized buffer only, and its calls are the fan-out. *)
Lemma process_total (deliver : WasapiCapture.Delivery) (s : WasapiCapture.t)
  (it : WasapiCapture.Iteration) :
  session_ok s -> turn_ok s it ->
  exists buffer,
    WasapiCapture.processAudioData deliver s (WasapiCapture.pData it)
      (WasapiCapture.numFramesAvailable it) (WasapiCapture.flags it)
    = Some (WasapiCapture.set_floatBuffer buffer s,
            if match WasapiCapture.pData it with
               | Some _ => negb (WasapiCapture.numFramesAvailable it =? 0)
               | None => false
               end
            then WasapiCapture.fan_out deliver (WasapiCapture.set_floatBuffer buffer s)
                   (WasapiCapture.numFramesAvailable it)
            else []).
Proof.
  intros Hs (HF & Hbound & Hmem). unfold WasapiCapture.processAudioData.
  destruct (WasapiCapture.pData it) as [d |] eqn:Ed;
    [| exists (WasapiCapture.m_floatBuffer s); destruct s; reflexivity].
  destruct (WasapiCapture.numFramesAvailable it =? 0) eqn:E0;
    [exists (WasapiCapture.m_floatBuffer s); destruct s; reflexivity |].
  cbn [negb]. unfold samplesPerFrame.
  destruct (Z.eqb_spec (Z.land (WasapiCapture.flags it) AUDCLNT_BUFFERFLAGS_SILENT) 0)
    as [Hns | _]; cbn [negb]; [| eexists; reflexivity].
  destruct (WasapiCapture.m_waveFormat s) as [wf |] eqn:Ewf.
  - destruct (Hs wf Ewf) as [Hch Hch0].
    destruct (convert_total wf d
                (resize (Z.to_nat (WasapiCapture.numFramesAvailable it
                                   * channelCount (WasapiCapture.m_format s)))
                        F32.zero (WasapiCapture.m_floatBuffer s))
                (WasapiCapture.numFramesAvailable it)) as [out Hout].
    + assumption.
    + lia.
    + rewrite Hch. assumption.
    + rewrite length_resize, Hch. lia.
    + rewrite Hch. apply Hmem; [reflexivity | assumption | reflexivity].
    + apply Z.eqb_neq in E0.
      rewrite vector_data_Some by (rewrite length_resize; nia).
      rewrite Hout. exists out. reflexivity.
  - cbn [convertToFloat32].
    destruct (vector_data_cases
                (resize (Z.to_nat (WasapiCapture.numFramesAvailable it
                                   * channelCount (WasapiCapture.m_format s)))
                        F32.zero (WasapiCapture.m_floatBuffer s))) as [-> | ->];
      eexists; reflexivity.
Qed.

Lemma set_floatBuffer_session (buffer : list spec_float) (s : WasapiCapture.t) :
  session_ok s -> session_ok (WasapiCapture.set_floatBuffer buffer s).
Proof. destruct s. unfold session_ok. cbn. auto. Qed.

Lemma forwardMeterData_deliveries (callbacks : list IAudioDataCallbackPtr)
  (snapshot : MeterSnapshot) :
  forallb is_delivery (AudioEngine.forwardMeterData callbacks snapshot) = true.
Proof.
  rewrite forwardMeterData_observers.
  induction callbacks as [| c l IH]; [reflexivity |].
  cbn [flat_map]. rewrite forallb_app, IH, andb_true_r. destruct c; reflexivity.
Qed.

Lemma call_onAudioData_deliveries (callbacks : list IAudioDataCallbackPtr)
  (c : IAudioDataCallbackPtr) (buffer : list spec_float) (frameCount : Z)
  (format : AudioFormat) :
  forallb is_delivery (AudioEngine.call_onAudioData callbacks c buffer frameCount format)
  = true.
Proof.
  destruct c as [| | id]; [reflexivity | | reflexivity].
  cbn [AudioEngine.call_onAudioData]. unfold AudioEngine.MeteringCallback_onAudioData.
  destruct (vector_data buffer); [| reflexivity].
  destruct (frameCount =? 0); [reflexivity |].
  apply forwardMeterData_deliveries.
Qed.

Lemma fan_out_deliveries (callbacks : list IAudioDataCallbackPtr)
  (s : WasapiCapture.t) (frameCount : Z) :
  forallb is_delivery
    (WasapiCapture.fan_out (AudioEngine.call_onAudioData callbacks) s frameCount) = true.
Proof.
  unfold WasapiCapture.fan_out.
  induction (WasapiCapture.m_callbacks s) as [| c l IH]; [reflexivity |].
  cbn [flat_map]. rewrite forallb_app, IH, andb_true_r.
  destruct (is_null c); [reflexivity |]. apply call_onAudioData_deliveries.
Qed.

Lemma bracketed_deliveries (n : Z) (dl rest : list Event) :
  n <> 0 -> forallb is_delivery dl = true ->
  bracketed (Some n) (dl ++ rest) = bracketed (Some n) rest.
Proof.
  intros Hn. induction dl as [| e l IH]; intros H; [reflexivity |].
  cbn [forallb] in H. apply andb_prop in H as [He Hl].
  destruct e; try discriminate He; cbn [app bracketed];
    (destruct (Z.eqb_spec n 0) as [E | _]; [contradiction | cbn [negb andb]; apply IH; assumption]).
Qed.

Lemma count_deliveries (dl : list Event) :
  forallb is_delivery dl = true -> count_acquired dl = 0%nat /\ count_released dl = 0%nat.
Proof.
  unfold count_acquired, count_released.
  induction dl as [| e l IH]; intros H; [split; reflexivity |].
  cbn [forallb] in H. apply andb_prop in H as [He Hl].
  destruct e; try discriminate He; cbn [List.filter]; apply IH; assumption.
Qed.

(** The loop returns on every run of well-formed turns, and its log keeps
    the buffer discipline. *)
Lemma captureThread_bracketed (callbacks : list IAudioDataCallbackPtr)
  (turns : list WasapiCapture.Iteration) :
  forall s : WasapiCapture.t,
    session_ok s ->
    Forall (turn_ok s) turns ->
    exists s' log status,
      WasapiCapture.captureThread (AudioEngine.call_onAudioData callbacks) turns s
      = Some (s', log, status)
      /\ bracketed None log = true
      /\ count_released log = count_acquired log.
Proof.
  induction turns as [| it rest IH]; intros s Hs Hturns.
  - exists s, [], WasapiCapture.Polling. repeat split; reflexivity.
  - apply Forall_cons in Hturns as [Hit Hrest]. cbn [WasapiCapture.captureThread].
    destruct (WasapiCapture.capturing it); cbn [negb];
      [| exists s, [], WasapiCapture.Exited; repeat split; reflexivity].
    destruct (WasapiCapture.waitResult it =? WAIT_OBJECT_0);
      [eexists; eexists; exists WasapiCapture.Exited; repeat split; reflexivity |].
    destruct (FAILED (WasapiCapture.hrGetBuffer it)).
    { destruct (IH s Hs Hrest) as (s' & log & status & -> & Hb & Hc).
      eexists. eexists. exists status. split; [reflexivity |].
      split; assumption. }
    destruct (Z.eqb_spec (WasapiCapture.numFramesAvailable it) 0) as [E0 | Hne].
    { destruct (IH s Hs Hrest) as (s' & log & status & -> & Hb & Hc).
      eexists. eexists. exists status.
      split; [reflexivity |]. split; [exact Hb |].
      unfold count_released, count_acquired in *. cbn [List.filter length]. lia. }
    destruct (process_total (AudioEngine.call_onAudioData callbacks) s it Hs Hit)
      as [buffer Hp].
    set (s1 := WasapiCapture.set_floatBuffer buffer s) in *.
    assert (Hstep : exists dl,
               (match WasapiCapture.pData it with
                | Some _ => WasapiCapture.processAudioData
                              (AudioEngine.call_onAudioData callbacks) s
                              (WasapiCapture.pData it)
                              (WasapiCapture.numFramesAvailable it)
                              (WasapiCapture.flags it)
                | None => Some (s, [])
                end) = Some (match WasapiCapture.pData it with
                             | Some _ => s1
                             | None => s
                             end, dl)
               /\ forallb is_delivery dl = true).
    { destruct (WasapiCapture.pData it) as [d |].
      - rewrite Hp. eexists. split; [reflexivity |].
        destruct (negb _); [apply fan_out_deliveries | reflexivity].
      - exists []. split; reflexivity. }
    destruct Hstep as (dl & -> & Hdl).
    assert (Hnext : session_ok (match WasapiCapture.pData it with
                                | Some _ => s1
                                | None => s
                                end)
                    /\ Forall (turn_ok (match WasapiCapture.pData it with
                                        | Some _ => s1
                                        | None => s
                                        end)) rest).
    { destruct (WasapiCapture.pData it); [| split; assumption].
      split; [apply set_floatBuffer_session; assumption |].
      unfold s1. destruct s. exact Hrest. }
    destruct Hnext as [Hs1 Hrest1].
    destruct (IH _ Hs1 Hrest1) as (s' & log & status & -> & Hb & Hc).
    eexists. eexists. eexists. split; [reflexivity |]. split.
    + cbn [bracketed]. rewrite bracketed_deliveries by assumption.
      cbn [bracketed]. rewrite Z.eqb_refl. exact Hb.
    + destruct (count_deliveries dl Hdl) as [Ha Hr].
      unfold count_released, count_acquired in *.
      cbn [List.filter length]. rewrite !List.filter_app, !length_app.
      cbn [List.filter length]. lia.
Qed.

(** C8.  From every state the capture object can reach, over every run of
    turns in which the device hands out well-formed buffers, the capture
    loop returns and its log keeps the buffer
    discipline: each successful [GetBuffer] is followed by exactly one
    [ReleaseBuffer], of the same frame count, before the next [GetBuffer];
    an empty buffer is released with nothing delivered in between; no
    release happens without a buffer, and none is left unreleased. *)
Theorem C8_buffer_released_once (e : AudioEngine.t)
  (turns : list WasapiCapture.Iteration) :
  reachable (AudioEngine.m_capture e) ->
  Forall (turn_ok (AudioEngine.m_capture e)) turns ->
  exists s' log status,
    AudioEngine.captureThread e turns = Some (s', log, status)
    /\ bracketed None log = true
    /\ count_released log = count_acquired log.
Proof.
  intros Hr Hturns. unfold AudioEngine.captureThread.
  apply captureThread_bracketed; [apply reachable_session |]; assumption.
Qed.

(** ** C9: transient acquisition errors *)

(** C9.  Turns in which the stop signal is not raised and [GetBuffer] fails
    change nothing and deliver nothing: each consists of the wait and the
    failed [GetBuffer] alone, the loop goes on with the next turn from the
    same state, and after such turns alone it is still polling. *)
Theorem C9_transient_error_retried (deliver : WasapiCapture.Delivery)
  (fails rest : list WasapiCapture.Iteration) (s : WasapiCapture.t) :
  Forall failed_turn fails ->
  WasapiCapture.captureThread deliver (fails ++ rest) s
  = match WasapiCapture.captureThread deliver rest s with
    | Some (s', log, status) =>
        Some (s', failed_turns_log fails
                  ++ log, status)
    | None => None
    end
  /\ WasapiCapture.captureThread deliver fails s
     = Some (s, failed_turns_log fails,
             WasapiCapture.Polling).
Proof.
  intros Hf.
  assert (Hgen : forall rest,
             WasapiCapture.captureThread deliver (fails ++ rest) s
             = match WasapiCapture.captureThread deliver rest s with
               | Some (s', log, status) =>
                   Some (s', failed_turns_log
                                 fails ++ log, status)
               | None => None
               end).
  { clear rest. intros rest. induction Hf as [| it l (Hc & Hw & Hg) _ IH].
    - cbn [app failed_turns_log flat_map].
      destruct (WasapiCapture.captureThread deliver rest s)
        as [[[s' log] status] |]; reflexivity.
    - unfold failed_turns_log in *.
      cbn [app flat_map WasapiCapture.captureThread]. rewrite Hc, Hg. cbn [negb].
      destruct (Z.eqb_spec (WasapiCapture.waitResult it) WAIT_OBJECT_0) as [E | _];
        [contradiction |].
      rewrite IH.
      destruct (WasapiCapture.captureThread deliver rest s)
        as [[[s' log] status] |]; reflexivity. }
  split; [apply Hgen |].
  specialize (Hgen []). rewrite !app_nil_r in Hgen. rewrite Hgen.
  cbn [WasapiCapture.captureThread]. rewrite app_nil_r. reflexivity.
Qed.

(** ** C10: the timestamp of a snapshot *)

Lemma adapter_snapshot (callbacks : list IAudioDataCallbackPtr)
  (buffer : option (list spec_float)) (frameCount : Z) (format : AudioFormat)
  (cb : IAudioDataCallbackPtr) (snap : MeterSnapshot) :
  In (OnMeterData cb snap)
     (AudioEngine.MeteringCallback_onAudioData callbacks buffer frameCount format) ->
  exists samples,
    buffer = Some samples
    /\ snap = {| peak := Meters.PeakMeter_process samples frameCount format;
                 rms := Meters.RmsMeter_process samples frameCount format;
                 timestampMs := 0 |}.
Proof.
  unfold AudioEngine.MeteringCallback_onAudioData.
  destruct buffer as [samples |]; [| intros []].
  destruct (frameCount =? 0); [intros [] |].
  intros H. apply forwardMeterData_snapshots in H. exists samples. auto.
Qed.

(** C10.  Every snapshot the Metering Adapter forwards to an observer is
    the one built from the two meters over the delivered buffer, and its
    [timestampMs] is 0. *)
Theorem C10_timestamp_is_zero (callbacks : list IAudioDataCallbackPtr)
  (buffer : option (list spec_float)) (frameCount : Z) (format : AudioFormat)
  (cb : IAudioDataCallbackPtr) (snap : MeterSnapshot) :
  In (OnMeterData cb snap)
     (AudioEngine.MeteringCallback_onAudioData callbacks buffer frameCount format) ->
  timestampMs snap = 0
  /\ exists samples,
       buffer = Some samples
       /\ peak snap = Meters.PeakMeter_process samples frameCount format
       /\ rms snap = Meters.RmsMeter_process samples frameCount format.
Proof.
  intros H. apply adapter_snapshot in H as (samples & -> & ->).
  split; [reflexivity |]. exists samples. repeat split.
Qed.

(** Over the capture loop: whatever the device hands out, every snapshot
    in the log has a zero timestamp. *)
Lemma captureThread_timestamps (callbacks : list IAudioDataCallbackPtr)
  (turns : list WasapiCapture.Iteration) :
  forall (s s' : WasapiCapture.t) (log : list Event) (status : WasapiCapture.LoopStatus),
    WasapiCapture.captureThread (AudioEngine.call_onAudioData callbacks) turns s
    = Some (s', log, status) ->
    forall cb snap, In (OnMeterData cb snap) log -> timestampMs snap = 0.
Proof.
  induction turns as [| it rest IH]; intros s s' log status H cb snap Hin.
  - injection H as _ <- _. destruct Hin.
  - cbn [WasapiCapture.captureThread] in H.
    destruct (negb (WasapiCapture.capturing it)); [injection H as _ <- _; destruct Hin |].
    destruct (WasapiCapture.waitResult it =? WAIT_OBJECT_0);
      [injection H as _ <- _; destruct Hin as [Hin | []]; discriminate Hin |].
    destruct (FAILED (WasapiCapture.hrGetBuffer it)).
    { destruct (WasapiCapture.captureThread _ rest s) as [[[s1 l1] st1] |] eqn:E;
        [| discriminate H].
      injection H as _ <- _.
      destruct Hin as [Hin | [Hin | Hin]]; [discriminate Hin | discriminate Hin |].
      exact (IH _ _ _ _ E cb snap Hin). }
    destruct (WasapiCapture.numFramesAvailable it =? 0).
    { destruct (WasapiCapture.captureThread _ rest s) as [[[s1 l1] st1] |] eqn:E;
        [| discriminate H].
      injection H as _ <- _.
      destruct Hin as [Hin | [Hin | [Hin | Hin]]];
        [discriminate Hin | discriminate Hin | discriminate Hin |].
      exact (IH _ _ _ _ E cb snap Hin). }
    match type of H with
    | match ?p with _ => _ end = _ => destruct p as [[s1 l1] |] eqn:Ep; [| discriminate H]
    end.
    destruct (WasapiCapture.captureThread _ rest s1) as [[[s2 l2] st2] |] eqn:E;
      [| discriminate H].
    injection H as _ <- _.
    destruct Hin as [Hin | [Hin | Hin]]; [discriminate Hin | discriminate Hin |].
    apply in_app_or in Hin as [Hin | [Hin | Hin]];
      [| discriminate Hin | exact (IH _ _ _ _ E cb snap Hin)].
    destruct (WasapiCapture.pData it) as [d |];
      [| injection Ep as _ <-; destruct Hin].
    unfold WasapiCapture.processAudioData in Ep.
    destruct (WasapiCapture.numFramesAvailable it =? 0);
      [injection Ep as _ <-; destruct Hin |].
    match type of Ep with
    | match ?c with _ => _ end = _ => destruct c as [buffer |]; [| discriminate Ep]
    end.
    injection Ep as _ <-. unfold WasapiCapture.fan_out in Hin.
    apply in_flat_map in Hin as (c & _ & Hc).
    destruct c as [| | id]; cbn [is_null ptr_eqb AudioEngine.call_onAudioData] in Hc.
    + destruct Hc.
    + apply adapter_snapshot in Hc as (samples & _ & ->). reflexivity.
    + destruct Hc as [Hc | []]. discriminate Hc.
Qed.

(** * Instances

    The theorems above at concrete sessions, and the model run on small
    inputs. *)

Example convert_extreme_frame16 :
  convertToFloat32 (Some (pcm_stereo 16)) (Some extreme_frame16)
                   (Some [F32.zero; F32.zero]) 1
  = Some (Some [F32.of_int (-1); S754_finite false 16776704 (-24)]).
Proof. vm_compute. reflexivity. Qed.

Example convert_float_frame :
  convertToFloat32 (Some float_stereo) (Some float_frame)
                   (Some [F32.zero; F32.zero]) 1
  = Some (Some [F32.of_int 1; S754_finite true 8388608 (-24)]).
Proof. vm_compute. reflexivity. Qed.

(** 2^24 + 1 is rounded to 2^24 by the conversion to [float], and
    2^31 - 1 to 2^31: the outputs are 2^-7 and 1.0f. *)
Example convert_rounded_frame32 :
  convertToFloat32 (Some (pcm_stereo 32)) (Some rounded_frame32)
                   (Some [F32.zero; F32.zero]) 1
  = Some (Some [S754_finite false 8388608 (-30); F32.of_int 1]).
Proof. vm_compute. reflexivity. Qed.

Example convert_short_source :
  convertToFloat32 (Some (pcm_stereo 16)) (Some [x00; x80])
                   (Some [F32.zero; F32.zero]) 1 = None.
Proof. vm_compute. reflexivity. Qed.

(** The peak of [0.5, -0.8, 0.3] (mono) is 0.8f. *)
Example peak_of_three :
  Meters.PeakMeter_process
    [F32.of_bits 0x3F000000; F32.of_bits 0xBF4CCCCD; F32.of_bits 0x3E99999A] 3 mono
  = {| level_left := F32.of_bits 0x3F4CCCCD; level_right := F32.of_bits 0x3F4CCCCD |}.
Proof. vm_compute. reflexivity. Qed.

(** The RMS of a constant buffer of 0.5 is 0.5f. *)
Example rms_of_constant :
  Meters.RmsMeter_process
    [F32.of_bits 0x3F000000; F32.of_bits 0xBF000000; F32.of_bits 0x3F000000;
     F32.of_bits 0x3F000000] 4 mono
  = {| level_left := F32.of_bits 0x3F000000; level_right := F32.of_bits 0x3F000000 |}.
Proof. vm_compute. reflexivity. Qed.

Example engine16_loop :
  exists s,
    AudioEngine.captureThread engine16 four_turns
    = Some (s,
            [ EventWait WAIT_TIMEOUT; BufferGetFailed AUDCLNT_E_BUFFER_ERROR;
              EventWait WAIT_TIMEOUT; BufferGet 0; BufferRelease 0;
              EventWait WAIT_TIMEOUT; BufferGet 1;
              OnMeterData (observer 1)
                {| peak := {| level_left := F32.of_int 1;
                              level_right := S754_finite false 16776704 (-24) |};
                   rms := {| level_left := F32.of_int 1;
                             level_right := S754_finite false 16776704 (-24) |};
                   timestampMs := 0 |};
              BufferRelease 1;
              EventWait WAIT_TIMEOUT; BufferGet 1;
              OnMeterData (observer 1) zero_snapshot; BufferRelease 1 ],
            WasapiCapture.Polling).
Proof. eexists. vm_compute. reflexivity. Qed.

Lemma C1_sample_converter_witness :
  (0 < 1
   /\ Z.of_nat (length extreme_frame16) = 1 * nBlockAlign (pcm_stereo 16)
   /\ is_int16 (pcm_stereo 16))
  /\ exists out,
       convertToFloat32 (Some (pcm_stereo 16)) (Some extreme_frame16)
                        (Some [F32.zero; F32.zero]) 1 = Some (Some out)
       /\ Z.of_nat (length out) = 1 * nChannels (pcm_stereo 16).
Proof.
  split; [split; [lia | split; [reflexivity | split; reflexivity]] |].
  destruct (C1_sample_converter (pcm_stereo 16) extreme_frame16 [F32.zero; F32.zero] 1)
    as [(out & Hc & Hlen & _) _].
  - lia.
  - right. reflexivity.
  - cbn. lia.
  - reflexivity.
  - reflexivity.
  - reflexivity.
  - right. left. split; reflexivity.
  - exists out. split; [exact Hc | exact Hlen].
Defined.


Lemma C4_initialize_format_check_witness :
  WasapiCapture.m_comInitialized (WasapiCapture.constructed no_format) = false
  /\ fst (fst (WasapiCapture.initialize (device_with (pcm_stereo 24))
                 (WasapiCapture.constructed no_format))) = true.
Proof.
  split; [reflexivity |].
  destruct (C4_initialize_format_check (device_with (pcm_stereo 24))
              (WasapiCapture.constructed no_format)) as [_ H].
  - reflexivity.
  - apply H; reflexivity.
Defined.


Lemma C7_start_idempotent_rollback_witness :
  WasapiCapture.m_capturing (AudioEngine.m_capture engine16) = false
  /\ exists s',
       WasapiCapture.start no_thread (AudioEngine.m_capture engine16)
       = (false, s', [EventReset; StreamStart; StreamStop])
       /\ WasapiCapture.m_capturing s' = false
       /\ WasapiCapture.m_captureThread s' = false.
Proof.
  split; [reflexivity |].
  destruct (C7_start_idempotent_rollback no_thread (AudioEngine.m_capture engine16))
    as (_ & Hroll & _).
  destruct (Hroll eq_refl eq_refl eq_refl eq_refl eq_refl) as (s' & Hs & Hc & Ht & _).
  exists s'. split; [exact Hs |]. split; [exact Hc | exact Ht].
Defined.

Lemma engine16_reachable : reachable (AudioEngine.m_capture engine16).
Proof.
  apply (reach_register metering_adapter
           (snd (fst (WasapiCapture.initialize (device_with (pcm_stereo 16))
                        (WasapiCapture.constructed no_format))))).
  apply reach_initialize. apply reach_constructed.
Defined.

Lemma C6_stop_shutdown_idempotent_witness :
  reachable (AudioEngine.m_capture engine16)
  /\ idle (AudioEngine.m_capture (fst (AudioEngine.shutdown engine16)))
  /\ AudioEngine.shutdown (fst (AudioEngine.shutdown engine16))
     = (fst (AudioEngine.shutdown engine16), []).
Proof.
  split; [exact engine16_reachable |].
  destruct (C6_stop_shutdown_idempotent engine16 engine16_reachable)
    as (_ & _ & _ & _ & _ & _ & Hidle & _ & Htwice & _).
  split; [exact Hidle | exact Htwice].
Defined.

Lemma C8_buffer_released_once_witness :
  (reachable (AudioEngine.m_capture engine16)
   /\ Forall (turn_ok (AudioEngine.m_capture engine16)) four_turns)
  /\ exists s' log status,
       AudioEngine.captureThread engine16 four_turns = Some (s', log, status)
       /\ bracketed None log = true
       /\ count_released log = count_acquired log.
Proof.
  assert (Ht : Forall (turn_ok (AudioEngine.m_capture engine16)) four_turns).
  { repeat apply Forall_cons_2; [| | | | apply Forall_nil_2];
      (split; [intros H; discriminate H |]); (split; [reflexivity |]);
      intros d wf Hd Hf Hwf;
      try discriminate Hd; try discriminate Hf;
      injection Hd as <-; injection Hwf as <-; vm_compute; intros H; discriminate H. }
  split; [split; [exact engine16_reachable | exact Ht] |].
  exact (C8_buffer_released_once engine16 four_turns engine16_reachable Ht).
Defined.

Lemma C9_transient_error_retried_witness :
  Forall failed_turn [turn AUDCLNT_E_BUFFER_ERROR None 0 0; turn E_FAIL None 0 0]
  /\ WasapiCapture.captureThread
       (AudioEngine.call_onAudioData (AudioEngine.m_callbacks engine16))
       [turn AUDCLNT_E_BUFFER_ERROR None 0 0; turn E_FAIL None 0 0]
       (AudioEngine.m_capture engine16)
     = Some (AudioEngine.m_capture engine16,
             [EventWait WAIT_TIMEOUT; BufferGetFailed AUDCLNT_E_BUFFER_ERROR;
              EventWait WAIT_TIMEOUT; BufferGetFailed E_FAIL],
             WasapiCapture.Polling).
Proof.
  assert (Hf : Forall failed_turn
                 [turn AUDCLNT_E_BUFFER_ERROR None 0 0; turn E_FAIL None 0 0]).
  { repeat apply Forall_cons_2; [| | apply Forall_nil_2];
      (split; [reflexivity | split; [discriminate | reflexivity]]). }
  split; [exact Hf |].
  exact (proj2 (C9_transient_error_retried
                  (AudioEngine.call_onAudioData (AudioEngine.m_callbacks engine16))
                  _ [] (AudioEngine.m_capture engine16) Hf)).
Defined.

Lemma C10_timestamp_is_zero_witness :
  In (OnMeterData (observer 1) zero_snapshot)
     (AudioEngine.MeteringCallback_onAudioData [observer 1] (Some [F32.zero]) 1 mono)
  /\ timestampMs zero_snapshot = 0.
Proof.
  assert (Hin : In (OnMeterData (observer 1) zero_snapshot)
                   (AudioEngine.MeteringCallback_onAudioData [observer 1]
                      (Some [F32.zero]) 1 mono))
    by (left; reflexivity).
  split; [exact Hin |].
  exact (proj1 (C10_timestamp_is_zero [observer 1] (Some [F32.zero]) 1 mono
                  (observer 1) zero_snapshot Hin)).
Defined.


(** * Further properties of the capture pipeline *)

(** ** The converter, cell by cell *)

(** Every branch of [convertToFloat32] writes each of the
    [numFrames * channels] cells once, with [converted_sample]. *)
Lemma convert_cells (wf : WAVEFORMATEX) (src : list byte) (dst : list spec_float)
  (numFrames : Z) :
  0 < numFrames -> 0 <= nChannels wf -> numFrames * nChannels wf < 2 ^ 32 ->
  Z.of_nat (length dst) = numFrames * nChannels wf ->
  sample_bytes wf * (numFrames * nChannels wf) <= Z.of_nat (length src) ->
  exists out,
    convertToFloat32 (Some wf) (Some src) (Some dst) numFrames = Some (Some out)
    /\ filled (converted_sample wf src) dst (numFrames * nChannels wf) out.
Proof.
  intros HF HC Hbound Hdst Hsrc.
  unfold convertToFloat32, converted_sample. unfold sample_bytes in Hsrc.
  destruct (Z.eqb_spec numFrames 0) as [-> | _]; [lia |].
  assert (Hn : 0 <= numFrames * nChannels wf) by nia.
  rewrite wrap32_small by lia. unfold copy_floats, fill_zero.
  destruct (wFormatTag wf =? WAVE_FORMAT_IEEE_FLOAT).
  - destruct (linear_loop_filled (load_f32 src) (numFrames * nChannels wf) dst)
      as (out & Hl & Hout); [lia | lia | |].
    { intros k Hk. unfold load_f32.
      destruct (load_is_Some 4 src k) as [w Hw]; [lia | lia |].
      rewrite Hw. eexists; reflexivity. }
    exists out. rewrite Hl. split; [reflexivity | exact Hout].
  - destruct (wFormatTag wf =? WAVE_FORMAT_PCM).
    + destruct (wBitsPerSample wf =? 16); [| destruct (wBitsPerSample wf =? 32)].
      * destruct (pcm_loop_filled (fun i => sample16 <$> load_i16 src i)
                    numFrames (nChannels wf) dst) as (out & Hl & Hout);
          [lia | lia | lia | lia | |].
        { intros k Hk. unfold load_i16.
          destruct (load_is_Some 2 src k) as [w Hw]; [lia | lia |].
          rewrite Hw. eexists; reflexivity. }
        exists out. rewrite Hl. split; [reflexivity | exact Hout].
      * destruct (pcm_loop_filled (fun i => sample32 <$> load_i32 src i)
                    numFrames (nChannels wf) dst) as (out & Hl & Hout);
          [lia | lia | lia | lia | |].
        { intros k Hk. unfold load_i32.
          destruct (load_is_Some 4 src k) as [w Hw]; [lia | lia |].
          rewrite Hw. eexists; reflexivity. }
        exists out. rewrite Hl. split; [reflexivity | exact Hout].
      * destruct (linear_loop_filled (fun _ => Some F32.zero)
                    (numFrames * nChannels wf) dst) as (out & Hl & Hout);
          [lia | lia | intros; eexists; reflexivity |].
        exists out. cbv beta iota in Hl. rewrite Hl. split; [reflexivity | exact Hout].
    + destruct (linear_loop_filled (fun _ => Some F32.zero)
                  (numFrames * nChannels wf) dst) as (out & Hl & Hout);
        [lia | lia | intros; eexists; reflexivity |].
      exists out. cbv beta iota in Hl. rewrite Hl. split; [reflexivity | exact Hout].
Qed.

(** A buffer all of whose cells were written does not depend on what it
    held before. *)
Lemma filled_unique (conv : Z -> option spec_float) (dst1 dst2 out1 out2 : list spec_float)
  (n : Z) :
  Z.of_nat (length dst1) = n -> Z.of_nat (length dst2) = n ->
  filled conv dst1 n out1 -> filled conv dst2 n out2 -> out1 = out2.
Proof.
  intros H1 H2 [Hl1 Hf1] [Hl2 Hf2]. apply list_eq. intros i.
  destruct (decide (Z.of_nat i < n)) as [Hi | Hi].
  - rewrite (proj1 (Hf1 i) Hi), (proj1 (Hf2 i) Hi). reflexivity.
  - rewrite !lookup_ge_None_2 by lia. reflexivity.
Qed.

(** ** Magnitude of the converted samples *)

(** Rounding a mantissa of [24 + k] digits either keeps 24 digits, [k]
    places up, or carries into the next binade. *)
Lemma round_aux_shift_cases (sg : bool) (p k : positive) (e : Z) :
  Zpos (digits2_pos p) = 24 + Zpos k -> -149 <= e + Zpos k -> e + Zpos k + 1 <= 104 ->
  exists m e',
    binary_round_aux 24 128 sg (Zpos p) e loc_Exact = S754_finite sg m e'
    /\ (e' = e + Zpos k \/ (m = 8388608%positive /\ e' = e + Zpos k + 1)).
Proof.
  intros Hd Hlo Hhi. unfold binary_round_aux, shr_fexp. simpl Zdigits2.
  rewrite Hd, fexp_normal by lia.
  replace (24 + Zpos k + e - 24 - e) with (Zpos k) by lia.
  simpl shr_record_of_loc. unfold shr at 1.
  set (mrs := SpecFloat.iter_pos shr_1 k _).
  assert (Hq : shr_m mrs = Zpos p / 2 ^ Zpos k)
    by (unfold mrs; rewrite iter_pos_shr_1_m; simpl; [reflexivity | lia]).
  pose proof (digits2_bounds p) as [Hplo Hphi]. rewrite Hd in Hplo, Hphi.
  assert (Hpow : 0 < 2 ^ Zpos k) by (apply Z.pow_pos_nonneg; lia).
  assert (Hqlo : 2 ^ 23 <= shr_m mrs).
  { rewrite Hq. apply Z.div_le_lower_bound; [assumption |].
    rewrite <- Z.pow_add_r by lia.
    replace (Zpos k + 23) with (24 + Zpos k - 1) by lia. assumption. }
  assert (Hqhi : shr_m mrs < 2 ^ 24).
  { rewrite Hq. apply Z.div_lt_upper_bound; [assumption |].
    rewrite <- Z.pow_add_r by lia.
    replace (Zpos k + 24) with (24 + Zpos k) by lia. assumption. }
  set (q' := round_nearest_even (shr_m mrs) (loc_of_shr_record mrs)).
  assert (Hq' : 2 ^ 23 <= q' <= 2 ^ 24).
  { unfold q'. destruct (round_nearest_even_cases (shr_m mrs) (loc_of_shr_record mrs))
      as [-> | ->]; lia. }
  destruct q' as [| m' | m'] eqn:Em'; [simpl in Hq'; lia | | lia].
  destruct (Z.eq_dec (Zpos m') (2 ^ 24)) as [Heq | Hne].
  - assert (Hm' : m' = 16777216%positive) by lia. rewrite Hm'.
    change (Zdigits2 (Z.pos 16777216)) with 25.
    rewrite fexp_normal by lia.
    replace (25 + (e + Zpos k) - 24 - (e + Zpos k)) with 1 by lia.
    simpl. change (128 - 24) with 104.
    destruct (Z.leb_spec (e + Zpos k + 1) 104); [| lia].
    exists 8388608%positive, (e + Zpos k + 1). split; [reflexivity |]. right. auto.
  - assert (Hd' : Zpos (digits2_pos m') = 24) by (apply digits2_unique; lia).
    simpl Zdigits2. rewrite Hd', fexp_normal by lia.
    replace (24 + (e + Zpos k) - 24 - (e + Zpos k)) with 0 by lia.
    simpl. change (128 - 24) with 104.
    destruct (Z.leb_spec (e + Zpos k) 104); [| lia].
    exists m', (e + Zpos k). split; [reflexivity |]. left. reflexivity.
Qed.

(** An integer below 2^31 in magnitude rounds to a float below 2^31, or
    to 2^31 itself. *)
Lemma binary_round_below (sg : bool) (p : positive) :
  Zpos p < 2 ^ 31 ->
  (exists m e, binary_round 24 128 sg p 0 = S754_finite sg m e /\ e <= 7)
  \/ binary_round 24 128 sg p 0 = S754_finite sg 8388608 8.
Proof.
  intros Hp. pose proof (digits2_bounds p) as [Hlo Hhi].
  assert (Hd : 1 <= Zpos (digits2_pos p) <= 31).
  { split; [lia |].
    destruct (Z_le_gt_dec (Zpos (digits2_pos p)) 31) as [H | H]; [assumption |].
    assert (2 ^ 31 <= 2 ^ (Zpos (digits2_pos p) - 1))
      by (apply Z.pow_le_mono_r; lia). lia. }
  destruct (Z_le_gt_dec (Zpos (digits2_pos p)) 24) as [Hsmall | Hbig].
  - left. destruct (binary_round_small 24 128 sg p) as [m Hm]; [lia | lia |].
    exists m, (Zpos (digits2_pos p) - 24). split; [exact Hm | lia].
  - unfold binary_round. rewrite fexp_normal by lia. unfold shl_align.
    destruct (Zpos (digits2_pos p) + 0 - 24 - 0) as [| k | k] eqn:Ek; [lia | | lia].
    destruct (round_aux_shift_cases sg p k 0) as (m & e' & Hm & [He | [-> He]]);
      [lia | lia | lia | |].
    + left. exists m, e'. split; [exact Hm | lia].
    + destruct (Z.eq_dec (Zpos k) 7) as [E7 | N7].
      * right. rewrite Hm. f_equal. lia.
      * left. exists 8388608%positive, e'. split; [exact Hm | lia].
Qed.

Lemma within_unit_finite (sg : bool) (m : positive) (e : Z) :
  e < -23 \/ (e = -23 /\ m = 8388608%positive) ->
  within_unit (S754_finite sg m e) = true.
Proof.
  intros H. unfold within_unit, SFleb, SFabs.
  change (F32.of_int 1) with (S754_finite false 8388608 (-23)).
  cbn [SFcompare]. destruct H as [H | [-> ->]].
  - apply Z.compare_lt_iff in H. rewrite H. reflexivity.
  - reflexivity.
Qed.

Lemma sample32_within_unit (s : Z) :
  - 2 ^ 31 <= s < 2 ^ 31 -> within_unit (sample32 s) = true.
Proof.
  intros Hs. destruct (Z.eq_dec s 0) as [-> | Hne]; [reflexivity |].
  destruct (Z.eq_dec s (- 2 ^ 31)) as [-> | Hmin]; [vm_compute; reflexivity |].
  pose proof (sample32_scaled s Hs) as Hsc.
  assert (Hof : (exists sg m e, F32.of_int s = S754_finite sg m e /\ e <= 7)
                \/ exists sg, F32.of_int s = S754_finite sg 8388608 8).
  { unfold F32.of_int, binary_normalize, F32.prec, F32.emax.
    destruct s as [| p | p]; [congruence | |].
    - destruct (binary_round_below false p) as [(m & e & H & He) | H]; [lia | |].
      + left. exists false, m, e. auto.
      + right. exists false. exact H.
    - destruct (binary_round_below true p) as [(m & e & H & He) | H]; [lia | |].
      + left. exists true, m, e. auto.
      + right. exists true. exact H. }
  destruct Hof as [(sg & m & e & Hof & He) | (sg & Hof)]; rewrite Hof in Hsc;
    rewrite Hsc; apply within_unit_finite; [left; lia | right; split; [lia | reflexivity]].
Qed.

Lemma sample16_within_unit (s : Z) :
  -32768 <= s < 32768 ->
  within_unit (sample16 s) = true /\ SFltb (sample16 s) (F32.of_int 1) = true.
Proof.
  intros Hs. apply andb_prop.
  apply (all_from_spec
           (fun z => within_unit (sample16 z) && SFltb (sample16 z) (F32.of_int 1))
           (Z.to_nat 65536) (-32768));
    [vm_compute; reflexivity | rewrite Z2Nat.id; lia].
Qed.

Lemma converted_sample_within_unit (wf : WAVEFORMATEX) (src : list byte) (i : Z)
  (x : spec_float) :
  wFormatTag wf <> WAVE_FORMAT_IEEE_FLOAT ->
  converted_sample wf src i = Some x ->
  within_unit x = true
  /\ (wBitsPerSample wf = 16 -> SFltb x (F32.of_int 1) = true).
Proof.
  intros Htag. unfold converted_sample.
  destruct (Z.eqb_spec (wFormatTag wf) WAVE_FORMAT_IEEE_FLOAT) as [E | _];
    [contradiction |].
  assert (Hzero : within_unit F32.zero = true
                  /\ (wBitsPerSample wf = 16 -> SFltb F32.zero (F32.of_int 1) = true))
    by (split; reflexivity).
  destruct (wFormatTag wf =? WAVE_FORMAT_PCM); [| intros [= <-]; exact Hzero].
  destruct (Z.eqb_spec (wBitsPerSample wf) 16) as [E16 | N16].
  - destruct (load_i16 src i) as [s |] eqn:Es; [| discriminate].
    intros [= <-]. apply load_i16_range in Es.
    destruct (sample16_within_unit s Es) as [H1 H2]. auto.
  - destruct (wBitsPerSample wf =? 32); [| intros [= <-]; exact Hzero].
    destruct (load_i32 src i) as [s |] eqn:Es; [| discriminate].
    intros [= <-]. apply load_i32_range in Es.
    split; [apply sample32_within_unit; exact Es | intros; contradiction].
Qed.

(** X1.  For a wave format that is not IEEE float and is not PCM of 16 or
    32 bits, [convertToFloat32] reads nothing of the source: whatever the
    source holds, even when it is too short, it returns with every cell of
    the destination set to 0.0f. *)
Theorem X1_unsupported_format_zero_filled (wf : WAVEFORMATEX) (src : list byte)
  (dst : list spec_float) (numFrames : Z) :
  0 < numFrames -> 0 <= nChannels wf -> numFrames * nChannels wf < 2 ^ 32 ->
  Z.of_nat (length dst) = numFrames * nChannels wf ->
  wFormatTag wf <> WAVE_FORMAT_IEEE_FLOAT ->
  (wFormatTag wf = WAVE_FORMAT_PCM -> wBitsPerSample wf <> 16 /\ wBitsPerSample wf <> 32) ->
  convertToFloat32 (Some wf) (Some src) (Some dst) numFrames
  = Some (Some (replicate (length dst) F32.zero)).
Proof. apply convert_unsupported_zero. Qed.

(** X2.  For every integer or unsupported format, every sample the
    converter writes satisfies [fabsf(x) <= 1.0f], and for 16-bit PCM
    [x < 1.0f]: the normalized buffer never leaves [-1, 1]. *)
Theorem X2_integer_samples_within_unit (wf : WAVEFORMATEX) (src : list byte)
  (dst : list spec_float) (numFrames : Z) :
  0 < numFrames -> 0 <= nChannels wf -> numFrames * nChannels wf < 2 ^ 32 ->
  Z.of_nat (length dst) = numFrames * nChannels wf ->
  sample_bytes wf * (numFrames * nChannels wf) <= Z.of_nat (length src) ->
  wFormatTag wf <> WAVE_FORMAT_IEEE_FLOAT ->
  exists out,
    convertToFloat32 (Some wf) (Some src) (Some dst) numFrames = Some (Some out)
    /\ Forall (fun x => within_unit x = true) out
    /\ (wBitsPerSample wf = 16 ->
        Forall (fun x => SFltb x (F32.of_int 1) = true) out).
Proof.
  intros HF HC Hbound Hdst Hsrc Htag.
  destruct (convert_cells wf src dst numFrames) as (out & Hc & Hout); try assumption.
  exists out. split; [exact Hc |].
  apply filled_all in Hout as [Hlen Hget].
  assert (Hcell : forall (i : nat) x, out !! i = Some x ->
                    converted_sample wf src (Z.of_nat i) = Some x).
  { intros i x Hx. pose proof (lookup_lt_Some _ _ _ Hx) as Hi.
    rewrite <- (Hget (Z.of_nat i)) by lia. rewrite Nat2Z.id. exact Hx. }
  split.
  - apply Forall_lookup. intros i x Hx.
    apply (converted_sample_within_unit wf src (Z.of_nat i) x Htag (Hcell i x Hx)).
  - intros H16. apply Forall_lookup. intros i x Hx.
    apply (converted_sample_within_unit wf src (Z.of_nat i) x Htag (Hcell i x Hx)).
    exact H16.
Qed.

(** ** The normalized buffer *)

Lemma set_floatBuffer_twice (b1 b2 : list spec_float) (s : WasapiCapture.t) :
  WasapiCapture.set_floatBuffer b2 (WasapiCapture.set_floatBuffer b1 s)
  = WasapiCapture.set_floatBuffer b2 s.
Proof. destruct s. reflexivity. Qed.

(** The buffer delivered for a non-empty device buffer is determined by
    the device buffer and the format alone. *)
Lemma processAudioData_fresh (deliver : WasapiCapture.Delivery)
  (s : WasapiCapture.t) (it : WasapiCapture.Iteration) (d : list byte) :
  session_ok s -> is_Some (WasapiCapture.m_waveFormat s) -> turn_ok s it ->
  WasapiCapture.pData it = Some d -> 0 < WasapiCapture.numFramesAvailable it ->
  exists buffer,
    Z.of_nat (length buffer)
    = WasapiCapture.numFramesAvailable it * channelCount (WasapiCapture.m_format s)
    /\ forall old,
         WasapiCapture.processAudioData deliver (WasapiCapture.set_floatBuffer old s)
           (Some d) (WasapiCapture.numFramesAvailable it) (WasapiCapture.flags it)
         = Some (WasapiCapture.set_floatBuffer buffer s,
                 WasapiCapture.fan_out deliver (WasapiCapture.set_floatBuffer buffer s)
                   (WasapiCapture.numFramesAvailable it)).
Proof.
  intros Hs [wf Hwf] (HF & Hbound & Hmem) Hd Hn.
  destruct (Hs wf Hwf) as [Hch Hch12].
  set (n := WasapiCapture.numFramesAvailable it) in *.
  set (c := channelCount (WasapiCapture.m_format s)) in *.
  assert (Hnc : 0 <= n * c) by nia.
  assert (Hstate : forall old,
             WasapiCapture.m_waveFormat (WasapiCapture.set_floatBuffer old s) = Some wf
             /\ WasapiCapture.m_format (WasapiCapture.set_floatBuffer old s)
                = WasapiCapture.m_format s
             /\ WasapiCapture.m_floatBuffer (WasapiCapture.set_floatBuffer old s) = old)
    by (intros old; destruct s; cbn in *; auto).
  destruct (Z.eqb_spec (Z.land (WasapiCapture.flags it) AUDCLNT_BUFFERFLAGS_SILENT) 0)
    as [Hns | Hsil].
  - assert (Hconv : forall old, exists out,
               convertToFloat32 (Some wf) (Some d)
                 (Some (resize (Z.to_nat (n * c)) F32.zero old)) n = Some (Some out)
               /\ filled (converted_sample wf d)
                         (resize (Z.to_nat (n * c)) F32.zero old) (n * nChannels wf) out).
    { intros old. apply convert_cells.
      - assumption.
      - lia.
      - rewrite Hch. assumption.
      - rewrite length_resize, Hch. lia.
      - rewrite Hch. apply (Hmem d wf); assumption. }
    destruct (Hconv []) as (buffer & _ & Hb).
    exists buffer. split.
    { apply filled_all in Hb as [Hlen _]. rewrite Hlen, length_resize. lia. }
    intros old. destruct (Hconv old) as (out & Hc & Hout).
    assert (out = buffer).
    { apply (filled_unique (converted_sample wf d)
               (resize (Z.to_nat (n * c)) F32.zero old)
               (resize (Z.to_nat (n * c)) F32.zero []) out buffer (n * nChannels wf));
        try assumption; rewrite length_resize, Hch; lia. }
    subst out. unfold WasapiCapture.processAudioData.
    destruct (Hstate old) as (-> & -> & ->). fold n. unfold samplesPerFrame. fold c.
    destruct (Z.eqb_spec n 0) as [E | _]; [lia |].
    rewrite Hns. cbn [Z.eqb negb].
    rewrite vector_data_Some by (rewrite length_resize; nia).
    rewrite Hc, set_floatBuffer_twice. reflexivity.
  - exists (replicate (Z.to_nat (n * c)) F32.zero). split.
    { rewrite length_replicate. lia. }
    intros old. unfold WasapiCapture.processAudioData.
    destruct (Hstate old) as (_ & -> & ->). fold n. unfold samplesPerFrame. fold c.
    destruct (Z.eqb_spec n 0) as [E | _]; [lia |].
    destruct (Z.eqb_spec (Z.land (WasapiCapture.flags it) AUDCLNT_BUFFERFLAGS_SILENT) 0)
      as [E | _]; [contradiction |].
    cbn [negb]. rewrite length_resize, set_floatBuffer_twice. reflexivity.
Qed.

(** X3.  While a wave format is held, the buffer [processAudioData]
    delivers for a non-empty device buffer has exactly
    [numFrames * channels] samples and does not depend on what the
    normalized buffer held before: no sample of an earlier buffer is ever
    delivered again. *)
Theorem X3_delivered_buffer_is_fresh (deliver : WasapiCapture.Delivery)
  (s : WasapiCapture.t) (it : WasapiCapture.Iteration) (d : list byte) :
  session_ok s -> is_Some (WasapiCapture.m_waveFormat s) -> turn_ok s it ->
  WasapiCapture.pData it = Some d -> 0 < WasapiCapture.numFramesAvailable it ->
  exists buffer,
    Z.of_nat (length buffer)
    = WasapiCapture.numFramesAvailable it * channelCount (WasapiCapture.m_format s)
    /\ forall old,
         WasapiCapture.processAudioData deliver (WasapiCapture.set_floatBuffer old s)
           (Some d) (WasapiCapture.numFramesAvailable it) (WasapiCapture.flags it)
         = Some (WasapiCapture.set_floatBuffer buffer s,
                 WasapiCapture.fan_out deliver (WasapiCapture.set_floatBuffer buffer s)
                   (WasapiCapture.numFramesAvailable it)).
Proof. apply processAudioData_fresh. Qed.

(** ** [initialize] *)

Lemma initialize_keeps (os : WasapiCapture.InitOracle) (s : WasapiCapture.t) :
  WasapiCapture.m_capturing (snd (fst (WasapiCapture.initialize os s)))
  = WasapiCapture.m_capturing s
  /\ WasapiCapture.m_captureThread (snd (fst (WasapiCapture.initialize os s)))
     = WasapiCapture.m_captureThread s
  /\ WasapiCapture.m_callbacks (snd (fst (WasapiCapture.initialize os s)))
     = WasapiCapture.m_callbacks s
  /\ WasapiCapture.m_floatBuffer (snd (fst (WasapiCapture.initialize os s)))
     = WasapiCapture.m_floatBuffer s.
Proof.
  destruct_state s. unfold_initialize.
  destruct_tests; cbn; repeat split; reflexivity.
Qed.

(** X4.  Whatever the device answers, [initialize] leaves the capturing
    flag, the thread handle, the registered callbacks and the normalized
    buffer as they were. *)
Theorem X4_initialize_keeps_capture_state (os : WasapiCapture.InitOracle)
  (s : WasapiCapture.t) :
  let s' := snd (fst (WasapiCapture.initialize os s)) in
  WasapiCapture.m_capturing s' = WasapiCapture.m_capturing s
  /\ WasapiCapture.m_captureThread s' = WasapiCapture.m_captureThread s
  /\ WasapiCapture.m_callbacks s' = WasapiCapture.m_callbacks s
  /\ WasapiCapture.m_floatBuffer s' = WasapiCapture.m_floatBuffer s.
Proof. apply initialize_keeps. Qed.

(** [initialize] on an object that is not initialized: it returns
    [initialize_ok], in which case it leaves [initialized]; otherwise the
    object is still not initialized. *)
Lemma initialize_outcome (os : WasapiCapture.InitOracle) (s : WasapiCapture.t) :
  WasapiCapture.m_comInitialized s = false ->
  fst (fst (WasapiCapture.initialize os s)) = initialize_ok os
  /\ (initialize_ok os = true ->
      snd (fst (WasapiCapture.initialize os s)) = initialized os s)
  /\ (initialize_ok os = false ->
      WasapiCapture.m_comInitialized (snd (fst (WasapiCapture.initialize os s))) = false).
Proof.
  destruct_state s. cbn [WasapiCapture.m_comInitialized]. intros ->.
  unfold initialize_ok, initialized. rewrite format_tests. unfold_initialize.
  destruct (FAILED (WasapiCapture.hrCoInitializeEx os));
    destruct (WasapiCapture.hrCoInitializeEx os =? RPC_E_CHANGED_MODE);
    cbn [negb andb orb fst snd];
    try (repeat split; [reflexivity | discriminate | reflexivity]);
    destruct (FAILED (WasapiCapture.hrCoCreateInstance os)); cbn [negb andb orb fst snd];
    try (repeat split; [reflexivity | discriminate | reflexivity]);
    destruct (FAILED (WasapiCapture.hrGetDefaultAudioEndpoint os));
    cbn [negb andb orb fst snd];
    try (repeat split; [reflexivity | discriminate | reflexivity]);
    destruct (FAILED (WasapiCapture.hrActivate os)); cbn [negb andb orb fst snd];
    try (repeat split; [reflexivity | discriminate | reflexivity]);
    destruct (FAILED (WasapiCapture.hrGetMixFormat os)); cbn [negb andb orb fst snd];
    try (repeat split; [reflexivity | discriminate | reflexivity]);
    destruct (negb (wFormatTag (WasapiCapture.mixFormat os) =? WAVE_FORMAT_PCM)
              && negb (wFormatTag (WasapiCapture.mixFormat os) =? WAVE_FORMAT_IEEE_FLOAT));
    cbn [negb andb orb fst snd];
    try (repeat split; [reflexivity | discriminate | reflexivity]);
    destruct ((nChannels (WasapiCapture.mixFormat os) <? 1)
              || (nChannels (WasapiCapture.mixFormat os) >? 2));
    cbn [negb andb orb fst snd];
    try (repeat split; [reflexivity | discriminate | reflexivity]);
    destruct (FAILED (WasapiCapture.hrInitialize os)); cbn [negb andb orb fst snd];
    try (repeat split; [reflexivity | discriminate | reflexivity]);
    destruct (FAILED (WasapiCapture.hrGetService os)); cbn [negb andb orb fst snd];
    try (repeat split; [reflexivity | discriminate | reflexivity]);
    destruct (WasapiCapture.createEvent os); cbn [negb andb orb fst snd];
    try (repeat split; [reflexivity | discriminate | reflexivity]);
    repeat split; try reflexivity; discriminate.
Qed.

Lemma format_accepted_channels (wf : WAVEFORMATEX) :
  format_accepted wf = true -> 1 <= nChannels wf <= 2.
Proof.
  unfold format_accepted. intros H.
  apply andb_prop in H as [H H2]. apply andb_prop in H as [_ H1].
  apply Z.leb_le in H1, H2. lia.
Qed.

Lemma initialize_ok_format (os : WasapiCapture.InitOracle) :
  initialize_ok os = true -> format_accepted (WasapiCapture.mixFormat os) = true.
Proof.
  unfold initialize_ok. intros H.
  repeat (apply andb_prop in H as [H ?]). assumption.
Qed.

(** X5.  On an object that is not initialized, [initialize] returns [true]
    exactly when [CoInitializeEx] succeeds or reports
    [RPC_E_CHANGED_MODE], every later device call succeeds, and the mix
    format is PCM or IEEE float with one or two channels.  It then holds
    every interface, the format and the stop event, and [getFormat]
    reports the sample rate and the channel count of the mix format.
    When it returns [false] the object is still not initialized. *)
Theorem X5_initialize_outcome (os : WasapiCapture.InitOracle) (s : WasapiCapture.t) :
  WasapiCapture.m_comInitialized s = false ->
  let s' := snd (fst (WasapiCapture.initialize os s)) in
  fst (fst (WasapiCapture.initialize os s)) = initialize_ok os
  /\ (initialize_ok os = true ->
      s' = initialized os s
      /\ WasapiCapture.getFormat s'
         = {| sampleRate := nSamplesPerSec (WasapiCapture.mixFormat os);
              channelCount := nChannels (WasapiCapture.mixFormat os) |}
      /\ 1 <= channelCount (WasapiCapture.getFormat s') <= 2)
  /\ (initialize_ok os = false -> WasapiCapture.m_comInitialized s' = false).
Proof.
  intros Hcom s'. destruct (initialize_outcome os s Hcom) as (Hr & Hok & Hfail).
  split; [exact Hr |]. split; [| exact Hfail].
  intros H. unfold s'. rewrite (Hok H). split; [reflexivity |].
  split; [reflexivity |]. cbn.
  apply format_accepted_channels, initialize_ok_format. exact H.
Qed.

(** X6.  A failed [initialize] can be retried: after any failure on an
    object that was not initialized, a later [initialize] against a device
    that answers well succeeds and leaves the object in the state a first
    successful [initialize] leaves. *)
Theorem X6_initialize_retry (os1 os2 : WasapiCapture.InitOracle) (s : WasapiCapture.t) :
  WasapiCapture.m_comInitialized s = false ->
  fst (fst (WasapiCapture.initialize os1 s)) = false ->
  initialize_ok os2 = true ->
  let s1 := snd (fst (WasapiCapture.initialize os1 s)) in
  fst (fst (WasapiCapture.initialize os2 s1)) = true
  /\ snd (fst (WasapiCapture.initialize os2 s1)) = initialized os2 s.
Proof.
  intros Hcom Hfail Hok s1.
  destruct (initialize_outcome os1 s Hcom) as (Hr1 & _ & Hf1).
  rewrite Hr1 in Hfail. specialize (Hf1 Hfail). fold s1 in Hf1.
  destruct (initialize_outcome os2 s1 Hf1) as (Hr2 & Hok2 & _).
  split; [rewrite Hr2; exact Hok |].
  rewrite (Hok2 Hok). unfold initialized, s1.
  destruct (initialize_keeps os1 s) as (-> & -> & -> & ->).
  reflexivity.
Qed.

Lemma initialize_again (os : WasapiCapture.InitOracle) (s : WasapiCapture.t) :
  WasapiCapture.m_comInitialized s = true ->
  WasapiCapture.initialize os s = (true, s, []).
Proof. intros H. unfold WasapiCapture.initialize. rewrite H. reflexivity. Qed.

(** X7.  [initialize] on an initialized engine asks nothing of the device
    and returns [true]; the facade nevertheless registers its Metering
    Adapter once more, so that after two calls of
    [AudioEngine::initialize] the capture engine holds the adapter twice
    and every delivered buffer is metered and forwarded twice. *)
Theorem X7_engine_initialized_twice (os os' : WasapiCapture.InitOracle)
  (e : AudioEngine.t) :
  WasapiCapture.m_comInitialized (AudioEngine.m_capture e) = false ->
  initialize_ok os = true ->
  let e1 := snd (fst (AudioEngine.initialize os e)) in
  let e2 := snd (fst (AudioEngine.initialize os' e1)) in
  WasapiCapture.initialize os' (AudioEngine.m_capture e1)
  = (true, AudioEngine.m_capture e1, [])
  /\ fst (fst (AudioEngine.initialize os' e1)) = true
  /\ snd (AudioEngine.initialize os' e1) = []
  /\ WasapiCapture.m_callbacks (AudioEngine.m_capture e2)
     = WasapiCapture.m_callbacks (AudioEngine.m_capture e)
       ++ [metering_adapter; metering_adapter]
  /\ (WasapiCapture.m_callbacks (AudioEngine.m_capture e) = [] ->
      forall frameCount,
        WasapiCapture.fan_out (AudioEngine.call_onAudioData (AudioEngine.m_callbacks e2))
          (AudioEngine.m_capture e2) frameCount
        = AudioEngine.MeteringCallback_onAudioData (AudioEngine.m_callbacks e2)
            (vector_data (WasapiCapture.m_floatBuffer (AudioEngine.m_capture e2)))
            frameCount (WasapiCapture.m_format (AudioEngine.m_capture e2))
          ++ AudioEngine.MeteringCallback_onAudioData (AudioEngine.m_callbacks e2)
               (vector_data (WasapiCapture.m_floatBuffer (AudioEngine.m_capture e2)))
               frameCount (WasapiCapture.m_format (AudioEngine.m_capture e2))).
Proof.
  intros Hcom Hok e1 e2.
  destruct (initialize_outcome os (AudioEngine.m_capture e) Hcom) as (Hr & Hs & _).
  specialize (Hs Hok). rewrite Hok in Hr.
  assert (He1 : e1 = AudioEngine.mk
                       (WasapiCapture.registerCallback metering_adapter
                          (initialized os (AudioEngine.m_capture e)))
                       (AudioEngine.m_callbacks e)).
  { unfold e1, AudioEngine.initialize.
    destruct (WasapiCapture.initialize os (AudioEngine.m_capture e)) as [[ok c] log].
    cbn [fst snd] in Hr, Hs. subst ok c. reflexivity. }
  assert (Hagain : WasapiCapture.initialize os' (AudioEngine.m_capture e1)
                   = (true, AudioEngine.m_capture e1, []))
    by (apply initialize_again; rewrite He1; reflexivity).
  assert (He2 : e2 = AudioEngine.mk
                       (WasapiCapture.registerCallback metering_adapter
                          (AudioEngine.m_capture e1))
                       (AudioEngine.m_callbacks e1)).
  { unfold e2, AudioEngine.initialize. rewrite Hagain. reflexivity. }
  split; [exact Hagain |].
  split; [unfold AudioEngine.initialize; rewrite Hagain; reflexivity |].
  split; [unfold AudioEngine.initialize; rewrite Hagain; reflexivity |].
  assert (Hcbs : WasapiCapture.m_callbacks (AudioEngine.m_capture e2)
                 = WasapiCapture.m_callbacks (AudioEngine.m_capture e)
                   ++ [metering_adapter; metering_adapter]).
  { rewrite He2, He1. cbn. rewrite <- app_assoc. reflexivity. }
  split; [exact Hcbs |].
  intros Hnone frameCount. unfold WasapiCapture.fan_out.
  rewrite Hcbs, Hnone. cbn [app flat_map is_null ptr_eqb AudioEngine.call_onAudioData].
  rewrite app_nil_r. reflexivity.
Qed.

(** ** Acquisitions and releases over call sequences *)

Lemma outstanding_tally (r : Resource) (log : list Event) :
  outstanding r log = tally r 0 log.
Proof. reflexivity. Qed.

Lemma tally_app (r : Resource) (l1 l2 : list Event) (n : Z) :
  tally r n (l1 ++ l2) = tally r (tally r n l1) l2.
Proof. unfold tally. apply fold_left_app. Qed.

Lemma tally_shift (r : Resource) (log : list Event) :
  forall n, tally r n log = n + tally r 0 log.
Proof.
  unfold tally. induction log as [| e l IH]; intros n; [cbn; lia |].
  cbn [fold_left].
  destruct e as [r' | r' | | | | | | | | | | | |]; try apply IH;
    destruct (Resource_eqb r r'); try apply IH.
  - rewrite (IH (n + 1)), (IH (0 + 1)). lia.
  - rewrite (IH (n - 1)), (IH (0 - 1)). lia.
Qed.

Lemma outstanding_app (r : Resource) (l1 l2 : list Event) :
  outstanding r (l1 ++ l2) = outstanding r l1 + outstanding r l2.
Proof.
  rewrite !outstanding_tally, tally_app. apply tally_shift.
Qed.

Lemma never_over_released_app (r : Resource) (l1 l2 : list Event) :
  forall n,
    never_over_released r n (l1 ++ l2)
    = never_over_released r n l1 && never_over_released r (tally r n l1) l2.
Proof.
  unfold tally. induction l1 as [| e l IH]; intros n; [reflexivity |].
  cbn [app never_over_released fold_left].
  destruct e as [r' | r' | | | | | | | | | | | |]; try apply IH;
    destruct (Resource_eqb r r'); rewrite ?IH; try reflexivity.
  rewrite andb_assoc. reflexivity.
Qed.

(** Closes the arithmetic left by scanning a concrete log. *)
Ltac in_hand_solve Hn Hh :=
  repeat match goal with
         | |- _ /\ _ => split
         | |- (_ && _) = true => apply andb_true_intro; split
         | |- true = true => reflexivity
         | |- (0 <? _) = true => apply Z.ltb_lt
         | |- _ -> _ => let H := fresh in intros H; try discriminate H; try apply Hh in H
         end;
  try lia; try (assert (true = true) as Ht by reflexivity; apply Hh in Ht; lia).

Lemma call_in_hand (r : Resource) (c : Call) (s : WasapiCapture.t) (n : Z) :
  r <> ComLibrary -> in_hand r s n ->
  never_over_released r n (snd (call c s)) = true
  /\ in_hand r (fst (call c s)) (tally r n (snd (call c s))).
Proof.
  intros Hr [Hn Hh]. unfold in_hand. destruct_state s.
  destruct c as [os | os | | | cb | cb]; unfold call.
  - unfold_initialize. destruct_tests; destruct r; try contradiction;
      cbn in Hh |- *; in_hand_solve Hn Hh.
  - unfold WasapiCapture.start.
    cbn [WasapiCapture.m_capturing WasapiCapture.m_audioClient
         WasapiCapture.m_captureClient].
    destruct_tests; destruct r; try contradiction;
      cbn in Hh |- *; in_hand_solve Hn Hh.
  - unfold WasapiCapture.stop. destruct capturing, thread, event, client;
      destruct r; try contradiction; cbn in Hh |- *; in_hand_solve Hn Hh.
  - unfold WasapiCapture.shutdown, WasapiCapture.stop.
    destruct enumerator, device, client, capture, wave, capturing, thread, event, com;
      destruct r; try contradiction; cbn in Hh |- *; in_hand_solve Hn Hh.
  - destruct r; try contradiction; cbn in Hh |- *; in_hand_solve Hn Hh.
  - destruct r; try contradiction; cbn in Hh |- *; in_hand_solve Hn Hh.
Qed.

Lemma run_in_hand (r : Resource) (calls : list Call) :
  r <> ComLibrary ->
  forall (s : WasapiCapture.t) (n : Z),
    in_hand r s n ->
    never_over_released r n (snd (run calls s)) = true
    /\ in_hand r (fst (run calls s)) (tally r n (snd (run calls s))).
Proof.
  intros Hr. induction calls as [| c rest IH]; intros s n Hin.
  - split; [reflexivity | exact Hin].
  - cbn [run]. destruct (call_in_hand r c s n Hr Hin) as [Hc Hin1].
    destruct (call c s) as [s1 l1]. cbn [fst snd] in Hc, Hin1.
    destruct (IH s1 (tally r n l1) Hin1) as [Hrest Hin2].
    destruct (run rest s1) as [s2 l2]. cbn [fst snd] in *.
    rewrite never_over_released_app, tally_app, Hc, Hrest. auto.
Qed.

(** X8.  Whatever calls are made on a capture object, in whatever order,
    and whatever the device answers, no interface, format block, event or
    thread handle is ever released without being held: at every point of
    the log, the releases of a resource do not exceed its acquisitions,
    and a resource the object holds at the end is still acquired. *)
Theorem X8_never_released_twice (r : Resource) (calls : list Call) (fmt : AudioFormat) :
  r <> ComLibrary ->
  never_over_released r 0 (snd (run calls (WasapiCapture.constructed fmt))) = true
  /\ 0 <= outstanding r (snd (run calls (WasapiCapture.constructed fmt)))
  /\ (held r (fst (run calls (WasapiCapture.constructed fmt))) = true ->
      1 <= outstanding r (snd (run calls (WasapiCapture.constructed fmt)))).
Proof.
  intros Hr.
  destruct (run_in_hand r calls Hr (WasapiCapture.constructed fmt) 0) as (H1 & H2 & H3).
  - split; [lia |]. destruct r; cbn; discriminate.
  - rewrite outstanding_tally. auto.
Qed.

(** ** The whole life of a session *)

Lemma calls_succeed_ok (os : WasapiCapture.InitOracle) :
  calls_succeed os = true -> format_accepted (WasapiCapture.mixFormat os) = true ->
  initialize_ok os = true /\ FAILED (WasapiCapture.hrCoInitializeEx os) = false.
Proof.
  unfold calls_succeed, initialize_ok. intros Hc Ha.
  repeat (apply andb_prop in Hc as [Hc ?]).
  apply negb_true_iff in Hc. rewrite Hc, Ha.
  repeat match goal with H : _ = true |- _ => rewrite H; clear H end.
  split; reflexivity.
Qed.

Lemma initialize_log (os : WasapiCapture.InitOracle) (s : WasapiCapture.t) :
  WasapiCapture.m_comInitialized s = false -> initialize_ok os = true ->
  snd (WasapiCapture.initialize os s)
  = (if FAILED (WasapiCapture.hrCoInitializeEx os) then [] else [Acquire ComLibrary])
      ++ [Acquire DeviceEnumerator; Acquire Device; Acquire AudioClient;
          Acquire MixFormat; Acquire CaptureClient; Acquire StopEvent].
Proof.
  destruct_state s. cbn [WasapiCapture.m_comInitialized]. intros ->.
  unfold initialize_ok. rewrite format_tests. unfold_initialize.
  destruct (FAILED (WasapiCapture.hrCoInitializeEx os));
    destruct (WasapiCapture.hrCoInitializeEx os =? RPC_E_CHANGED_MODE);
    destruct (FAILED (WasapiCapture.hrCoCreateInstance os));
    destruct (FAILED (WasapiCapture.hrGetDefaultAudioEndpoint os));
    destruct (FAILED (WasapiCapture.hrActivate os));
    destruct (FAILED (WasapiCapture.hrGetMixFormat os));
    destruct (negb (wFormatTag (WasapiCapture.mixFormat os) =? WAVE_FORMAT_PCM)
              && negb (wFormatTag (WasapiCapture.mixFormat os) =? WAVE_FORMAT_IEEE_FLOAT));
    destruct ((nChannels (WasapiCapture.mixFormat os) <? 1)
              || (nChannels (WasapiCapture.mixFormat os) >? 2));
    destruct (FAILED (WasapiCapture.hrInitialize os));
    destruct (FAILED (WasapiCapture.hrGetService os));
    destruct (WasapiCapture.createEvent os);
    cbn [negb andb orb]; intros H; try discriminate H; reflexivity.
Qed.

(** X9.  A session on a device that answers well is balanced: from an
    object that holds nothing, [initialize], [start] (whether the stream
    and the thread start or not) and [shutdown] leave the object holding
    nothing, with every acquired resource released exactly once and the
    device stream stopped. *)
Theorem X9_session_balanced (os : WasapiCapture.InitOracle)
  (so : WasapiCapture.StartOracle) (s : WasapiCapture.t) :
  idle s -> calls_succeed os = true ->
  format_accepted (WasapiCapture.mixFormat os) = true ->
  idle (fst (run [CallInitialize os; CallStart so; CallShutdown] s))
  /\ (forall r, outstanding r (snd (run [CallInitialize os; CallStart so; CallShutdown] s))
                = 0)
  /\ stream_running false (snd (run [CallInitialize os; CallStart so; CallShutdown] s))
     = false.
Proof.
  intros Hidle Hc Ha.
  destruct (calls_succeed_ok os Hc Ha) as [Hok Hhr].
  assert (Hcom : WasapiCapture.m_comInitialized s = false) by apply Hidle.
  destruct (initialize_outcome os s Hcom) as (_ & Hs1 & _). specialize (Hs1 Hok).
  pose proof (initialize_log os s Hcom Hok) as Hl1. rewrite Hhr in Hl1.
  cbn [run call].
  destruct (WasapiCapture.initialize os s) as [[ok s1] l1]. cbn [fst snd] in Hs1, Hl1.
  subst s1 l1. unfold initialized.
  destruct Hidle as (_ & _ & _ & _ & _ & -> & -> & _).
  unfold WasapiCapture.start.
  cbn [WasapiCapture.m_capturing WasapiCapture.m_audioClient
       WasapiCapture.m_captureClient negb orb].
  destruct (FAILED (WasapiCapture.hrStart so));
    [| destruct (WasapiCapture.createThread so)];
    (split; [cbv; repeat split; reflexivity |]);
    (split; [intros r; destruct r; reflexivity | reflexivity]).
Qed.

Lemma shutdown_com (s : WasapiCapture.t) :
  outstanding ComLibrary (snd (WasapiCapture.shutdown s))
  = if WasapiCapture.m_comInitialized s then -1 else 0.
Proof.
  destruct_state s.
  destruct enumerator, device, client, capture, wave, capturing, thread, event, com;
    reflexivity.
Qed.

(** X10.  When [CoInitializeEx] reports [RPC_E_CHANGED_MODE], [initialize]
    goes on as after a success and marks COM as initialized, so that the
    object later calls [CoUninitialize] although its own [CoInitializeEx]
    did not succeed: whatever else the device answers, [initialize]
    followed by [shutdown] issues one [CoUninitialize] and no successful
    [CoInitializeEx]. *)
Theorem X10_changed_mode_uninitializes (os : WasapiCapture.InitOracle)
  (s : WasapiCapture.t) :
  WasapiCapture.m_comInitialized s = false ->
  WasapiCapture.hrCoInitializeEx os = RPC_E_CHANGED_MODE ->
  outstanding ComLibrary (snd (run [CallInitialize os; CallShutdown] s)) = -1.
Proof.
  intros Hcom Hhr. cbn [run call].
  assert (H : outstanding ComLibrary (snd (WasapiCapture.initialize os s))
              + (if WasapiCapture.m_comInitialized
                      (snd (fst (WasapiCapture.initialize os s)))
                 then -1 else 0) = -1).
  { destruct_state s. cbn [WasapiCapture.m_comInitialized] in Hcom. subst com.
    unfold_initialize. rewrite Hhr.
    change (FAILED RPC_E_CHANGED_MODE) with true.
    change (RPC_E_CHANGED_MODE =? RPC_E_CHANGED_MODE) with true.
    cbn [negb andb].
    destruct (FAILED (WasapiCapture.hrCoCreateInstance os)); [reflexivity |].
    destruct (FAILED (WasapiCapture.hrGetDefaultAudioEndpoint os)); [reflexivity |].
    destruct (FAILED (WasapiCapture.hrActivate os)); [reflexivity |].
    destruct (FAILED (WasapiCapture.hrGetMixFormat os)); [reflexivity |].
    destruct (negb (wFormatTag (WasapiCapture.mixFormat os) =? WAVE_FORMAT_PCM)
              && negb (wFormatTag (WasapiCapture.mixFormat os) =? WAVE_FORMAT_IEEE_FLOAT));
      [reflexivity |].
    destruct ((nChannels (WasapiCapture.mixFormat os) <? 1)
              || (nChannels (WasapiCapture.mixFormat os) >? 2)); [reflexivity |].
    destruct (FAILED (WasapiCapture.hrInitialize os)); [reflexivity |].
    destruct (FAILED (WasapiCapture.hrGetService os)); [reflexivity |].
    destruct (WasapiCapture.createEvent os); reflexivity. }
  destruct (WasapiCapture.initialize os s) as [[ok s1] l1]. cbn [fst snd] in H.
  pose proof (shutdown_com s1) as Hsd.
  destruct (WasapiCapture.shutdown s1) as [s2 l2]. cbn [fst snd] in *.
  rewrite app_nil_r, outstanding_app, Hsd. exact H.
Qed.

(** ** [start] and [stop] *)

(** X11.  [stop] undoes [start]: from a reachable object that is not
    capturing, a successful [start] sets [isCapturing], and the [stop]
    that follows restores the object exactly, with the device stream
    stopped and the thread joined and its handle closed. *)
Theorem X11_stop_undoes_start (os : WasapiCapture.StartOracle) (s : WasapiCapture.t) :
  reachable s -> WasapiCapture.m_capturing s = false ->
  fst (fst (WasapiCapture.start os s)) = true ->
  let s1 := snd (fst (WasapiCapture.start os s)) in
  let log := snd (WasapiCapture.start os s) ++ snd (WasapiCapture.stop s1) in
  WasapiCapture.isCapturing s1 = true
  /\ fst (WasapiCapture.stop s1) = s
  /\ stream_running false log = false
  /\ outstanding CaptureThread log = 0
  /\ In ThreadJoin log.
Proof.
  intros Hr Hcap Hok. apply reachable_thread in Hr. unfold thread_implies_capturing in Hr.
  destruct_state s. cbn in Hr, Hcap. subst capturing.
  assert (thread = false) as ->
    by (destruct thread; [discriminate (Hr eq_refl) | reflexivity]).
  unfold WasapiCapture.start in *.
  cbn [WasapiCapture.m_capturing WasapiCapture.m_audioClient
       WasapiCapture.m_captureClient] in *.
  destruct client, capture; cbn [negb orb] in *; try discriminate Hok.
  destruct (FAILED (WasapiCapture.hrStart os)); [discriminate Hok |].
  destruct (WasapiCapture.createThread os); cbn [negb] in *; [| discriminate Hok].
  destruct event; cbn; repeat split; try reflexivity; auto 10.
Qed.

(** X12.  [start] needs an initialized object: on a freshly constructed
    object and after [shutdown] it returns [false], changes nothing and
    makes no call into the operating system. *)
Theorem X12_start_needs_initialize (os : WasapiCapture.StartOracle) (s : WasapiCapture.t) :
  reachable s ->
  WasapiCapture.start os (fst (WasapiCapture.shutdown s))
  = (false, fst (WasapiCapture.shutdown s), [])
  /\ forall fmt, WasapiCapture.start os (WasapiCapture.constructed fmt)
                 = (false, WasapiCapture.constructed fmt, []).
Proof.
  intros Hr. split; [| intros fmt; reflexivity].
  pose proof (shutdown_idle s Hr) as (_ & _ & Hc & _ & _ & Hcap & _).
  unfold WasapiCapture.start. rewrite Hcap, Hc. reflexivity.
Qed.

(** ** The capture loop *)

(** X13.  The loop ends at a turn in which the capturing flag is clear or
    the stop event is found set: that turn calls nothing when the flag is
    clear and nothing but the wait otherwise, it acquires no buffer and
    delivers nothing, and nothing observed after it has any effect. *)
Theorem X13_loop_ends_at_stop (deliver : WasapiCapture.Delivery)
  (pre rest : list WasapiCapture.Iteration) (it : WasapiCapture.Iteration)
  (s : WasapiCapture.t) :
  stop_turn it ->
  WasapiCapture.captureThread deliver (pre ++ it :: rest) s
  = match WasapiCapture.captureThread deliver pre s with
    | Some (s', log, WasapiCapture.Polling) =>
        Some (s', log ++ stop_turn_log it, WasapiCapture.Exited)
    | other => other
    end.
Proof.
  intros Hstop.
  assert (Hit : forall t, WasapiCapture.captureThread deliver (it :: rest) t
                          = Some (t, stop_turn_log it, WasapiCapture.Exited)).
  { intros t. cbn [WasapiCapture.captureThread]. unfold stop_turn_log.
    destruct (WasapiCapture.capturing it) eqn:Ec; cbn [negb]; [| reflexivity].
    destruct Hstop as [H | ->]; [congruence | reflexivity]. }
  revert s. induction pre as [| t pre IH]; intros s; [apply Hit |].
  cbn [app WasapiCapture.captureThread].
  destruct (negb (WasapiCapture.capturing t)); [reflexivity |].
  destruct (WasapiCapture.waitResult t =? WAIT_OBJECT_0); [reflexivity |].
  destruct (FAILED (WasapiCapture.hrGetBuffer t)).
  { rewrite IH. destruct (WasapiCapture.captureThread deliver pre s)
      as [[[s' log] []] |]; reflexivity. }
  destruct (WasapiCapture.numFramesAvailable t =? 0).
  { rewrite IH. destruct (WasapiCapture.captureThread deliver pre s)
      as [[[s' log] []] |]; reflexivity. }
  match goal with
  | |- match ?p with _ => _ end = _ => destruct p as [[s1 l1] |]; [| reflexivity]
  end.
  rewrite IH. destruct (WasapiCapture.captureThread deliver pre s1)
    as [[[s' log] []] |]; [reflexivity | | reflexivity].
  cbn [app]. rewrite <- app_assoc. reflexivity.
Qed.

Lemma set_floatBuffer_same (s : WasapiCapture.t) :
  WasapiCapture.set_floatBuffer (WasapiCapture.m_floatBuffer s) s = s.
Proof. destruct s. reflexivity. Qed.

Lemma set_floatBuffer_callbacks (b : list spec_float) (s : WasapiCapture.t) :
  WasapiCapture.m_callbacks (WasapiCapture.set_floatBuffer b s)
  = WasapiCapture.m_callbacks s.
Proof. destruct s. reflexivity. Qed.

(** The loop changes the normalized buffer only, and every call it makes
    is the wait on the stop event, a buffer call or comes from the fan-out. *)
Lemma captureThread_events (deliver : WasapiCapture.Delivery) (P : Event -> bool)
  (cbs : list IAudioDataCallbackPtr) :
  (forall w, P (EventWait w) = true) ->
  (forall n, P (BufferGet n) = true) ->
  (forall hr, P (BufferGetFailed hr) = true) ->
  (forall n, P (BufferRelease n) = true) ->
  (forall s n, WasapiCapture.m_callbacks s = cbs ->
               forallb P (WasapiCapture.fan_out deliver s n) = true) ->
  forall (turns : list WasapiCapture.Iteration) (s s' : WasapiCapture.t)
         (log : list Event) (status : WasapiCapture.LoopStatus),
    WasapiCapture.m_callbacks s = cbs ->
    WasapiCapture.captureThread deliver turns s = Some (s', log, status) ->
    forallb P log = true
    /\ exists buffer, s' = WasapiCapture.set_floatBuffer buffer s.
Proof.
  intros Hwait Hget Hfail Hrel Hfan.
  induction turns as [| it rest IH]; intros s s' log status Hcbs H.
  - injection H as <- <- _. split; [reflexivity |].
    exists (WasapiCapture.m_floatBuffer s). symmetry. apply set_floatBuffer_same.
  - cbn [WasapiCapture.captureThread] in H.
    assert (Hexit : forall l, forallb P l = true ->
                    Some (s, l, WasapiCapture.Exited) = Some (s', log, status) ->
                    forallb P log = true
                    /\ exists buffer, s' = WasapiCapture.set_floatBuffer buffer s).
    { intros l Hl H0. injection H0 as <- <- _. split; [exact Hl |].
      exists (WasapiCapture.m_floatBuffer s). symmetry. apply set_floatBuffer_same. }
    destruct (negb (WasapiCapture.capturing it)); [exact (Hexit [] eq_refl H) |].
    destruct (WasapiCapture.waitResult it =? WAIT_OBJECT_0).
    { apply (Hexit [EventWait (WasapiCapture.waitResult it)]); [| exact H].
      cbn [forallb]. rewrite Hwait. reflexivity. }
    clear Hexit.
    destruct (FAILED (WasapiCapture.hrGetBuffer it)).
    { destruct (WasapiCapture.captureThread deliver rest s) as [[[s1 l1] st1] |] eqn:E;
        [| discriminate H].
      injection H as <- <- _. destruct (IH _ _ _ _ Hcbs E) as [Hl Hs].
      split; [cbn [forallb]; rewrite Hwait, Hfail, Hl; reflexivity | exact Hs]. }
    destruct (WasapiCapture.numFramesAvailable it =? 0).
    { destruct (WasapiCapture.captureThread deliver rest s) as [[[s1 l1] st1] |] eqn:E;
        [| discriminate H].
      injection H as <- <- _. destruct (IH _ _ _ _ Hcbs E) as [Hl Hs].
      split; [cbn [forallb]; rewrite Hwait, Hget, Hrel, Hl; reflexivity | exact Hs]. }
    match type of H with
    | match ?p with _ => _ end = _ => destruct p as [[s1 l1] |] eqn:Ep; [| discriminate H]
    end.
    destruct (WasapiCapture.captureThread deliver rest s1) as [[[s2 l2] st2] |] eqn:E;
      [| discriminate H].
    injection H as <- <- _.
    assert (Hstep : forallb P l1 = true
                    /\ exists b1, s1 = WasapiCapture.set_floatBuffer b1 s).
    { destruct (WasapiCapture.pData it) as [d |].
      - pose proof (process_frame _ _ _ _ _ _ _ Ep) as [b1 Hb1]. split; [| eauto].
        unfold WasapiCapture.processAudioData in Ep.
        destruct (WasapiCapture.numFramesAvailable it =? 0);
          [injection Ep as _ <-; reflexivity |].
        match type of Ep with
        | match ?c with _ => _ end = _ => destruct c as [buffer |]; [| discriminate Ep]
        end.
        injection Ep as _ <-. apply Hfan. rewrite set_floatBuffer_callbacks. exact Hcbs.
      - injection Ep as <- <-. split; [reflexivity |].
        exists (WasapiCapture.m_floatBuffer s). symmetry. apply set_floatBuffer_same. }
    destruct Hstep as [Hl1 [b1 Hb1]].
    assert (Hcbs1 : WasapiCapture.m_callbacks s1 = cbs)
      by (rewrite Hb1, set_floatBuffer_callbacks; exact Hcbs).
    destruct (IH _ _ _ _ Hcbs1 E) as [Hl2 [b2 Hb2]].
    split.
    + cbn [forallb]. rewrite Hwait, Hget, forallb_app, Hl1. cbn [forallb andb].
      rewrite Hrel, Hl2. reflexivity.
    + exists b2. rewrite Hb2, Hb1. apply set_floatBuffer_twice.
Qed.

Lemma loop_events_tally (r : Resource) (log : list Event) (n : Z) :
  forallb is_loop_event log = true -> tally r n log = n.
Proof.
  revert n. induction log as [| ev l IH]; intros n H; [reflexivity |].
  cbn [forallb] in H. apply andb_true_iff in H as [Hev Hl].
  unfold tally in *. cbn [fold_left].
  destruct ev; try discriminate Hev; apply IH, Hl.
Qed.

Lemma loop_events_stream (log : list Event) (before : bool) :
  forallb is_loop_event log = true -> stream_running before log = before.
Proof.
  revert before. induction log as [| ev l IH]; intros b H; [reflexivity |].
  cbn [forallb] in H. apply andb_true_iff in H as [Hev Hl].
  unfold stream_running in *. cbn [fold_left].
  destruct ev; try discriminate Hev; apply IH, Hl.
Qed.

Lemma deliveries_loop_events (l : list Event) :
  forallb is_delivery l = true -> forallb is_loop_event l = true.
Proof.
  induction l as [| ev l IH]; [reflexivity |].
  cbn [forallb]. intros H. apply andb_true_iff in H as [Hev Hl].
  rewrite (IH Hl), andb_true_r. destruct ev; try discriminate Hev; reflexivity.
Qed.

(** X14.  Whatever the registrations and the device buffers, the capture
    thread of an engine changes no member of the capture object but the
    normalized buffer, and calls nothing but the wait on the stop event,
    GetBuffer, ReleaseBuffer and the callbacks: it acquires and releases
    no session resource and neither starts nor stops the stream. *)
Theorem X14_capture_thread_footprint (e : AudioEngine.t)
  (turns : list WasapiCapture.Iteration) (s' : WasapiCapture.t)
  (log : list Event) (status : WasapiCapture.LoopStatus) :
  AudioEngine.captureThread e turns = Some (s', log, status) ->
  (exists buffer, s' = WasapiCapture.set_floatBuffer buffer (AudioEngine.m_capture e))
  /\ forallb is_loop_event log = true
  /\ (forall r, outstanding r log = 0)
  /\ (forall before, stream_running before log = before).
Proof.
  intros H. unfold AudioEngine.captureThread in H.
  destruct (captureThread_events (AudioEngine.call_onAudioData (AudioEngine.m_callbacks e))
              is_loop_event (WasapiCapture.m_callbacks (AudioEngine.m_capture e))
              (fun _ => eq_refl) (fun _ => eq_refl) (fun _ => eq_refl) (fun _ => eq_refl)
              (fun s n _ => deliveries_loop_events _ (fan_out_deliveries _ s n))
              turns _ _ _ _ eq_refl H) as [Hlog Hs].
  split; [exact Hs |]. split; [exact Hlog |]. split.
  - intros r. rewrite outstanding_tally. apply loop_events_tally, Hlog.
  - intros b. apply loop_events_stream, Hlog.
Qed.

(** ** The facade's registrations *)

Lemma start_callbacks (os : WasapiCapture.StartOracle) (s : WasapiCapture.t) :
  WasapiCapture.m_callbacks (snd (fst (WasapiCapture.start os s)))
  = WasapiCapture.m_callbacks s.
Proof.
  destruct_state s. unfold WasapiCapture.start.
  cbn [WasapiCapture.m_capturing WasapiCapture.m_audioClient
       WasapiCapture.m_captureClient].
  destruct_tests; reflexivity.
Qed.

Lemma stop_callbacks (s : WasapiCapture.t) :
  WasapiCapture.m_callbacks (fst (WasapiCapture.stop s)) = WasapiCapture.m_callbacks s.
Proof.
  destruct_state s. unfold WasapiCapture.stop.
  destruct capturing, thread; reflexivity.
Qed.

Lemma shutdown_callbacks (s : WasapiCapture.t) :
  WasapiCapture.m_callbacks (fst (WasapiCapture.shutdown s)) = WasapiCapture.m_callbacks s.
Proof.
  destruct_state s.
  destruct enumerator, device, client, capture, wave, capturing, thread, event, com;
    reflexivity.
Qed.

Lemma unregister_adapter_only (l : list IAudioDataCallbackPtr) :
  Forall (fun c => c = metering_adapter) l ->
  vector_unregister metering_adapter l = [].
Proof.
  intros H. unfold vector_unregister. cbn [is_null].
  induction H as [| c l -> _ IH]; [reflexivity |].
  cbn [List.filter ptr_eqb negb]. exact IH.
Qed.

Lemma engine_call_adapter_only (c : EngineCall) (e : AudioEngine.t) :
  adapter_only e -> adapter_only (fst (engine_call c e)).
Proof.
  unfold adapter_only. intros H.
  destruct c as [os | os | | | cb | cb]; cbn [engine_call].
  - unfold AudioEngine.initialize.
    pose proof (initialize_keeps os (AudioEngine.m_capture e)) as (_ & _ & Hcb & _).
    destruct (WasapiCapture.initialize os (AudioEngine.m_capture e)) as [[ok c] log].
    cbn [fst snd] in Hcb. destruct ok; cbn [negb fst AudioEngine.m_capture].
    + unfold WasapiCapture.registerCallback, vector_register. cbn [is_null].
      destruct c. cbn [WasapiCapture.set_callbacks WasapiCapture.m_callbacks] in *.
      rewrite Hcb. apply Forall_app. split; [exact H | repeat constructor].
    + rewrite Hcb. exact H.
  - unfold AudioEngine.start.
    pose proof (start_callbacks os (AudioEngine.m_capture e)) as Hcb.
    destruct (WasapiCapture.start os (AudioEngine.m_capture e)) as [[ok c] log].
    cbn [fst snd AudioEngine.m_capture] in *. rewrite Hcb. exact H.
  - unfold AudioEngine.stop.
    pose proof (stop_callbacks (AudioEngine.m_capture e)) as Hcb.
    destruct (WasapiCapture.stop (AudioEngine.m_capture e)) as [c log].
    cbn [fst snd AudioEngine.m_capture] in *. rewrite Hcb. exact H.
  - rewrite engine_shutdown_eq. cbn [fst AudioEngine.m_capture].
    unfold WasapiCapture.unregisterCallback.
    rewrite shutdown_callbacks, (unregister_adapter_only _ H).
    destruct (fst (WasapiCapture.shutdown (AudioEngine.m_capture e))).
    cbn [WasapiCapture.set_callbacks WasapiCapture.m_callbacks]. constructor.
  - exact H.
  - exact H.
Qed.

Lemma engine_run_adapter_only (calls : list EngineCall) (e : AudioEngine.t) :
  adapter_only e -> adapter_only (fst (engine_run calls e)).
Proof.
  revert e. induction calls as [| c rest IH]; intros e H; [exact H |].
  cbn [engine_run].
  pose proof (engine_call_adapter_only c e H) as H1.
  destruct (engine_call c e) as [e1 l1]. cbn [fst] in H1.
  specialize (IH e1 H1). destruct (engine_run rest e1) as [e2 l2]. exact IH.
Qed.

Lemma forwardMeterData_no_raw (callbacks : list IAudioDataCallbackPtr)
  (snapshot : MeterSnapshot) :
  forallb is_engine_loop_event (AudioEngine.forwardMeterData callbacks snapshot) = true.
Proof.
  rewrite forwardMeterData_observers.
  induction callbacks as [| c l IH]; [reflexivity |].
  cbn [flat_map]. rewrite forallb_app, IH, andb_true_r. destruct c; reflexivity.
Qed.

Lemma fan_out_adapter_only (callbacks : list IAudioDataCallbackPtr)
  (s : WasapiCapture.t) (frameCount : Z) :
  Forall (fun c => c = metering_adapter) (WasapiCapture.m_callbacks s) ->
  forallb is_engine_loop_event
    (WasapiCapture.fan_out (AudioEngine.call_onAudioData callbacks) s frameCount) = true.
Proof.
  unfold WasapiCapture.fan_out. intros H.
  induction H as [| c l -> _ IH]; [reflexivity |].
  cbn [flat_map is_null]. rewrite forallb_app, IH, andb_true_r.
  cbn [AudioEngine.call_onAudioData]. unfold AudioEngine.MeteringCallback_onAudioData.
  destruct (vector_data (WasapiCapture.m_floatBuffer s)); [| reflexivity].
  destruct (frameCount =? 0); [reflexivity |]. apply forwardMeterData_no_raw.
Qed.

(** X15.  Whatever sequence of facade calls is made on a constructed
    engine, the capture object's registrations hold nothing but the
    Metering Adapter: observers registered with the facade are never
    registered with the capture object.  So the capture thread hands raw
    audio to no observer (they get snapshots only), and a shutdown leaves
    both registration sets empty. *)
Theorem X15_observers_get_snapshots_only (calls : list EngineCall) (fmt : AudioFormat)
  (turns : list WasapiCapture.Iteration) (s' : WasapiCapture.t)
  (log : list Event) (status : WasapiCapture.LoopStatus) :
  let e := fst (engine_run calls (AudioEngine.constructed fmt)) in
  AudioEngine.captureThread e turns = Some (s', log, status) ->
  adapter_only e
  /\ forallb (fun ev => negb (is_raw_audio ev)) log = true
  /\ WasapiCapture.m_callbacks (AudioEngine.m_capture (fst (AudioEngine.shutdown e))) = []
  /\ AudioEngine.m_callbacks (fst (AudioEngine.shutdown e)) = [].
Proof.
  intros e H.
  assert (Ha : adapter_only e)
    by (apply engine_run_adapter_only; constructor).
  split; [exact Ha |]. split; [| split].
  - unfold AudioEngine.captureThread in H.
    destruct (captureThread_events (AudioEngine.call_onAudioData (AudioEngine.m_callbacks e))
                is_engine_loop_event (WasapiCapture.m_callbacks (AudioEngine.m_capture e))
                (fun _ => eq_refl) (fun _ => eq_refl) (fun _ => eq_refl)
                (fun _ => eq_refl)) with
      (turns := turns) (s := AudioEngine.m_capture e) (s' := s') (log := log)
      (status := status) as [Hlog _]; [| reflexivity | exact H |].
    + intros s n Hs. apply fan_out_adapter_only. rewrite Hs. exact Ha.
    + clear H. induction log as [| ev l IH]; [reflexivity |].
      cbn [forallb] in *. apply andb_true_iff in Hlog as [Hev Hl].
      rewrite (IH Hl), andb_true_r.
      unfold is_engine_loop_event in Hev. apply andb_true_iff in Hev as [_ Hev]. exact Hev.
  - pose proof (engine_call_adapter_only EngineShutdown e Ha) as Hs.
    cbn [engine_call] in Hs. unfold adapter_only in Hs.
    rewrite engine_shutdown_eq in *. cbn [fst AudioEngine.m_capture] in *.
    unfold WasapiCapture.unregisterCallback in *.
    rewrite shutdown_callbacks in *. rewrite (unregister_adapter_only _ Ha) in *.
    destruct (fst (WasapiCapture.shutdown (AudioEngine.m_capture e))). reflexivity.
  - rewrite engine_shutdown_eq. reflexivity.
Qed.

(** X16.  Registering a callback and unregistering it at once gives what
    unregistering alone gives, and gives back the registration set itself
    when the callback was not in it, in the capture object and in the
    facade: a register/unregister pair leaves no trace, but also removes
    every earlier registration of the same callback. *)
Theorem X16_register_unregister_round_trip (cb : IAudioDataCallbackPtr)
  (s : WasapiCapture.t) (e : AudioEngine.t) :
  WasapiCapture.unregisterCallback cb (WasapiCapture.registerCallback cb s)
  = WasapiCapture.unregisterCallback cb s
  /\ AudioEngine.unregisterCallback cb (AudioEngine.registerCallback cb e)
     = AudioEngine.unregisterCallback cb e
  /\ (~ In cb (WasapiCapture.m_callbacks s) ->
      WasapiCapture.unregisterCallback cb (WasapiCapture.registerCallback cb s) = s)
  /\ (~ In cb (AudioEngine.m_callbacks e) ->
      AudioEngine.unregisterCallback cb (AudioEngine.registerCallback cb e) = e)
  /\ (cb <> nullptr ->
      ~ In cb (WasapiCapture.m_callbacks
                 (WasapiCapture.unregisterCallback cb
                    (WasapiCapture.registerCallback cb s))))
  /\ (cb <> nullptr ->
      ~ In cb (AudioEngine.m_callbacks
                 (AudioEngine.unregisterCallback cb
                    (AudioEngine.registerCallback cb e)))).
Proof.
  assert (Hv : forall l, vector_unregister cb (vector_register cb l)
                         = vector_unregister cb l).
  { intros l. unfold vector_unregister, vector_register.
    destruct (is_null cb); [reflexivity |].
    rewrite List.filter_app. cbn [List.filter]. rewrite ptr_eqb_refl. cbn [negb].
    apply app_nil_r. }
  assert (Ha : forall l, ~ In cb l -> vector_unregister cb l = l).
  { intros l Hin. unfold vector_unregister. destruct (is_null cb); [reflexivity |].
    induction l as [| c l IH]; [reflexivity |].
    cbn [List.filter]. destruct (ptr_eqb c cb) eqn:E.
    - apply ptr_eqb_eq in E. subst c. exfalso. apply Hin. left. reflexivity.
    - cbn [negb]. f_equal. apply IH. intros Hl. apply Hin. right. exact Hl. }
  repeat split.
  - destruct s. unfold WasapiCapture.unregisterCallback, WasapiCapture.registerCallback.
    cbn [WasapiCapture.set_callbacks WasapiCapture.m_callbacks]. rewrite Hv. reflexivity.
  - destruct e. unfold AudioEngine.unregisterCallback, AudioEngine.registerCallback.
    cbn [AudioEngine.m_callbacks AudioEngine.m_capture]. rewrite Hv. reflexivity.
  - intros Hin. destruct s.
    unfold WasapiCapture.unregisterCallback, WasapiCapture.registerCallback.
    cbn [WasapiCapture.set_callbacks WasapiCapture.m_callbacks] in *.
    rewrite Hv, (Ha _ Hin). reflexivity.
  - intros Hin. destruct e.
    unfold AudioEngine.unregisterCallback, AudioEngine.registerCallback.
    cbn [AudioEngine.m_callbacks AudioEngine.m_capture] in *.
    rewrite Hv, (Ha _ Hin). reflexivity.
  - intros Hnn. destruct s.
    unfold WasapiCapture.unregisterCallback, WasapiCapture.registerCallback.
    cbn [WasapiCapture.set_callbacks WasapiCapture.m_callbacks].
    apply vector_unregister_removes. exact Hnn.
  - intros Hnn. destruct e.
    unfold AudioEngine.unregisterCallback, AudioEngine.registerCallback.
    cbn [AudioEngine.m_callbacks AudioEngine.m_capture].
    apply vector_unregister_removes. exact Hnn.
Qed.

(** ** What [shutdown] keeps *)

(** X17.  [shutdown] gives back the mix format block but does not reset
    the format the object reports, nor the registered callbacks: after a
    successful [initialize] followed by [shutdown], [getFormat] still
    returns the sample rate and channel count negotiated by that
    [initialize], and the capture object's registrations are those it had
    before. *)
Theorem X17_shutdown_keeps_format (os : WasapiCapture.InitOracle) (s : WasapiCapture.t) :
  WasapiCapture.m_comInitialized s = false -> initialize_ok os = true ->
  let s' := fst (run [CallInitialize os; CallShutdown] s) in
  WasapiCapture.m_waveFormat s' = None
  /\ WasapiCapture.getFormat s'
     = {| sampleRate := nSamplesPerSec (WasapiCapture.mixFormat os);
          channelCount := nChannels (WasapiCapture.mixFormat os) |}
  /\ WasapiCapture.m_callbacks s' = WasapiCapture.m_callbacks s
  /\ WasapiCapture.m_floatBuffer s' = WasapiCapture.m_floatBuffer s.
Proof.
  intros Hcom Hok.
  destruct (initialize_outcome os s Hcom) as (_ & Hs1 & _). specialize (Hs1 Hok).
  cbn [run call].
  destruct (WasapiCapture.initialize os s) as [[ok s1] l1]. cbn [fst snd] in Hs1.
  subst s1. unfold initialized. destruct_state s.
  cbn [WasapiCapture.m_capturing WasapiCapture.m_captureThread
       WasapiCapture.m_callbacks WasapiCapture.m_floatBuffer].
  destruct capturing, thread; cbn; repeat split; reflexivity.
Qed.

(** ** From a device buffer to the observers *)

(** X18.  With the Metering Adapter registered once with the capture
    object, a non-empty device buffer gives every observer entry of the
    facade exactly one snapshot, in the order of registration and the same
    for all, with timestamp 0; the capture object is left with the buffer
    just normalized, of [numFrames * channels] samples.  No other call is
    made. *)
Theorem X18_one_snapshot_per_observer (e : AudioEngine.t)
  (it : WasapiCapture.Iteration) (d : list byte) :
  WasapiCapture.m_callbacks (AudioEngine.m_capture e) = [metering_adapter] ->
  session_ok (AudioEngine.m_capture e) ->
  is_Some (WasapiCapture.m_waveFormat (AudioEngine.m_capture e)) ->
  turn_ok (AudioEngine.m_capture e) it ->
  WasapiCapture.pData it = Some d -> 0 < WasapiCapture.numFramesAvailable it ->
  exists buffer snapshot,
    WasapiCapture.processAudioData (AudioEngine.call_onAudioData (AudioEngine.m_callbacks e))
      (AudioEngine.m_capture e) (Some d) (WasapiCapture.numFramesAvailable it)
      (WasapiCapture.flags it)
    = Some (WasapiCapture.set_floatBuffer buffer (AudioEngine.m_capture e),
            snapshots_for (AudioEngine.m_callbacks e) snapshot)
    /\ timestampMs snapshot = 0
    /\ Z.of_nat (length buffer)
       = WasapiCapture.numFramesAvailable it
         * channelCount (WasapiCapture.getFormat (AudioEngine.m_capture e)).
Proof.
  intros Hcbs Hs Hw Ht Hd Hn.
  destruct (processAudioData_fresh (AudioEngine.call_onAudioData (AudioEngine.m_callbacks e))
              (AudioEngine.m_capture e) it d Hs Hw Ht Hd Hn) as (buffer & Hlen & Hp).
  exists buffer.
  specialize (Hp (WasapiCapture.m_floatBuffer (AudioEngine.m_capture e))).
  rewrite set_floatBuffer_same in Hp. rewrite Hp.
  unfold WasapiCapture.fan_out. rewrite set_floatBuffer_callbacks, Hcbs.
  cbn [flat_map is_null AudioEngine.call_onAudioData].
  rewrite app_nil_r. unfold AudioEngine.MeteringCallback_onAudioData.
  assert (Hbuf : WasapiCapture.m_floatBuffer
                   (WasapiCapture.set_floatBuffer buffer (AudioEngine.m_capture e))
                 = buffer) by (destruct (AudioEngine.m_capture e); reflexivity).
  rewrite Hbuf. destruct Hw as [wf Hwf]. destruct (Hs wf Hwf) as [Hch Hch12].
  rewrite vector_data_Some by nia.
  destruct (Z.eqb_spec (WasapiCapture.numFramesAvailable it) 0) as [E | _]; [lia |].
  rewrite forwardMeterData_observers. eexists.
  split; [reflexivity |]. split; [reflexivity | exact Hlen].
Qed.

(** ** [start] after a failed [initialize] *)

(** X19.  [start] tests the two client pointers only, not whether
    [initialize] succeeded.  When every device call of [initialize] goes
    through but [CreateEvent], [initialize] returns [false] with COM
    uninitialized and no stop event, and a [start] that follows
    nevertheless starts the stream and the capture thread and returns
    [true]. *)
Theorem X19_start_after_failed_initialize (os : WasapiCapture.InitOracle)
  (so : WasapiCapture.StartOracle) (s : WasapiCapture.t) :
  WasapiCapture.m_comInitialized s = false -> WasapiCapture.m_capturing s = false ->
  only_event_fails os = true ->
  FAILED (WasapiCapture.hrStart so) = false -> WasapiCapture.createThread so = true ->
  let s1 := snd (fst (WasapiCapture.initialize os s)) in
  fst (fst (WasapiCapture.initialize os s)) = false
  /\ WasapiCapture.m_comInitialized s1 = false
  /\ WasapiCapture.m_stopEvent s1 = false
  /\ fst (fst (WasapiCapture.start so s1)) = true
  /\ WasapiCapture.isCapturing (snd (fst (WasapiCapture.start so s1))) = true
  /\ snd (WasapiCapture.start so s1)
     = [EventReset; StreamStart; Acquire CaptureThread; ThreadPriority].
Proof.
  intros Hcom Hcap Hev Hstart Hthread.
  destruct_state s. cbn [WasapiCapture.m_comInitialized WasapiCapture.m_capturing] in *.
  subst com capturing.
  unfold only_event_fails in Hev. rewrite format_tests in Hev.
  repeat (apply andb_prop in Hev as [Hev ?]).
  match goal with
  | H : negb _ && negb _ = true |- _ => apply andb_prop in H as [? ?]
  end.
  repeat match goal with
         | H : negb _ = true |- _ => apply negb_true_iff in H
         end.
  assert (Hco : FAILED (WasapiCapture.hrCoInitializeEx os)
                && negb (WasapiCapture.hrCoInitializeEx os =? RPC_E_CHANGED_MODE) = false).
  { destruct (FAILED (WasapiCapture.hrCoInitializeEx os)); [| reflexivity].
    cbn [negb orb] in Hev. rewrite Hev. reflexivity. }
  unfold_initialize.
  repeat match goal with
         | H : _ = false |- _ => rewrite H; clear H
         end.
  cbn [negb]. unfold WasapiCapture.start. cbn. rewrite Hstart, Hthread.
  repeat split; reflexivity.
Qed.

(** ** Instances of the further properties *)

Lemma X1_unsupported_format_zero_filled_witness :
  (wFormatTag (pcm_stereo 24) <> WAVE_FORMAT_IEEE_FLOAT
   /\ wBitsPerSample (pcm_stereo 24) <> 16 /\ wBitsPerSample (pcm_stereo 24) <> 32)
  /\ convertToFloat32 (Some (pcm_stereo 24)) (Some frame24)
       (Some [F32.of_int 1; F32.of_int 1]) 1
     = Some (Some [F32.zero; F32.zero]).
Proof.
  split; [repeat split; discriminate |].
  apply (X1_unsupported_format_zero_filled (pcm_stereo 24) frame24
           [F32.of_int 1; F32.of_int 1] 1).
  - lia.
  - cbn. lia.
  - cbn. lia.
  - reflexivity.
  - discriminate.
  - intros _. split; discriminate.
Defined.

Lemma X2_integer_samples_within_unit_witness :
  (sample_bytes (pcm_stereo 16) * (1 * nChannels (pcm_stereo 16))
   <= Z.of_nat (length extreme_frame16)
   /\ wFormatTag (pcm_stereo 16) <> WAVE_FORMAT_IEEE_FLOAT)
  /\ exists out,
       convertToFloat32 (Some (pcm_stereo 16)) (Some extreme_frame16)
                        (Some [F32.zero; F32.zero]) 1 = Some (Some out)
       /\ Forall (fun x => within_unit x = true) out.
Proof.
  split; [split; [vm_compute; discriminate | discriminate] |].
  destruct (X2_integer_samples_within_unit (pcm_stereo 16) extreme_frame16
              [F32.zero; F32.zero] 1) as (out & Hc & Hu & _).
  - lia.
  - cbn. lia.
  - cbn. lia.
  - reflexivity.
  - vm_compute. discriminate.
  - discriminate.
  - exists out. split; [exact Hc | exact Hu].
Defined.

Lemma audio_turn_ok : turn_ok (AudioEngine.m_capture engine16) audio_turn.
Proof.
  split; [intros H; discriminate H |]. split; [reflexivity |].
  intros d wf Hd _ Hwf. injection Hd as <-. injection Hwf as <-.
  vm_compute. intros H. discriminate H.
Defined.

Lemma X3_delivered_buffer_is_fresh_witness :
  (session_ok (AudioEngine.m_capture engine16)
   /\ is_Some (WasapiCapture.m_waveFormat (AudioEngine.m_capture engine16))
   /\ turn_ok (AudioEngine.m_capture engine16) audio_turn)
  /\ exists buffer,
       Z.of_nat (length buffer) = 2
       /\ forall old,
            WasapiCapture.processAudioData
              (AudioEngine.call_onAudioData [observer 1])
              (WasapiCapture.set_floatBuffer old (AudioEngine.m_capture engine16))
              (Some extreme_frame16) 1 0
            = Some (WasapiCapture.set_floatBuffer buffer (AudioEngine.m_capture engine16),
                    WasapiCapture.fan_out (AudioEngine.call_onAudioData [observer 1])
                      (WasapiCapture.set_floatBuffer buffer
                         (AudioEngine.m_capture engine16)) 1).
Proof.
  assert (Hs : session_ok (AudioEngine.m_capture engine16))
    by exact (reachable_session _ engine16_reachable).
  assert (Hw : is_Some (WasapiCapture.m_waveFormat (AudioEngine.m_capture engine16)))
    by (eexists; reflexivity).
  split; [split; [exact Hs | split; [exact Hw | exact audio_turn_ok]] |].
  destruct (X3_delivered_buffer_is_fresh (AudioEngine.call_onAudioData [observer 1])
              (AudioEngine.m_capture engine16) audio_turn extreme_frame16
              Hs Hw audio_turn_ok eq_refl eq_refl) as (buffer & Hlen & Hp).
  exists buffer. split; [exact Hlen | exact Hp].
Defined.

Lemma X5_initialize_outcome_witness :
  WasapiCapture.m_comInitialized (WasapiCapture.constructed no_format) = false
  /\ fst (fst (WasapiCapture.initialize (device_with (pcm_stereo 16))
                 (WasapiCapture.constructed no_format))) = true
  /\ fst (fst (WasapiCapture.initialize no_endpoint
                 (WasapiCapture.constructed no_format))) = false.
Proof.
  split; [reflexivity |]. split.
  - exact (proj1 (X5_initialize_outcome (device_with (pcm_stereo 16))
                    (WasapiCapture.constructed no_format) eq_refl)).
  - exact (proj1 (X5_initialize_outcome no_endpoint
                    (WasapiCapture.constructed no_format) eq_refl)).
Defined.

Lemma X6_initialize_retry_witness :
  (WasapiCapture.m_comInitialized (WasapiCapture.constructed no_format) = false
   /\ fst (fst (WasapiCapture.initialize no_capture_service
                  (WasapiCapture.constructed no_format))) = false
   /\ initialize_ok (device_with (pcm_stereo 16)) = true)
  /\ fst (fst (WasapiCapture.initialize (device_with (pcm_stereo 16))
                 (snd (fst (WasapiCapture.initialize no_capture_service
                              (WasapiCapture.constructed no_format)))))) = true.
Proof.
  split; [repeat split; reflexivity |].
  exact (proj1 (X6_initialize_retry no_capture_service (device_with (pcm_stereo 16))
                  (WasapiCapture.constructed no_format) eq_refl eq_refl eq_refl)).
Defined.

Lemma X7_engine_initialized_twice_witness :
  (WasapiCapture.m_comInitialized
     (AudioEngine.m_capture (AudioEngine.constructed no_format)) = false
   /\ initialize_ok (device_with (pcm_stereo 16)) = true)
  /\ WasapiCapture.m_callbacks
       (AudioEngine.m_capture
          (snd (fst (AudioEngine.initialize (device_with (pcm_stereo 16))
                       (snd (fst (AudioEngine.initialize (device_with (pcm_stereo 16))
                                    (AudioEngine.constructed no_format))))))))
     = [metering_adapter; metering_adapter].
Proof.
  split; [split; reflexivity |].
  destruct (X7_engine_initialized_twice (device_with (pcm_stereo 16))
              (device_with (pcm_stereo 16)) (AudioEngine.constructed no_format)
              eq_refl eq_refl) as (_ & _ & _ & H & _).
  exact H.
Defined.

Lemma X8_never_released_twice_witness :
  AudioClient <> ComLibrary
  /\ never_over_released AudioClient 0
       (snd (run [CallInitialize no_capture_service;
                  CallInitialize (device_with (pcm_stereo 16));
                  CallStart thread_ok; CallShutdown; CallShutdown]
               (WasapiCapture.constructed no_format))) = true.
Proof.
  assert (H : AudioClient <> ComLibrary) by discriminate.
  split; [exact H |].
  exact (proj1 (X8_never_released_twice AudioClient
                  [CallInitialize no_capture_service;
                   CallInitialize (device_with (pcm_stereo 16));
                   CallStart thread_ok; CallShutdown; CallShutdown] no_format H)).
Defined.

Lemma constructed_idle : idle (WasapiCapture.constructed no_format).
Proof. repeat split; reflexivity. Defined.

Lemma X9_session_balanced_witness :
  (idle (WasapiCapture.constructed no_format)
   /\ calls_succeed (device_with (pcm_stereo 16)) = true
   /\ format_accepted (WasapiCapture.mixFormat (device_with (pcm_stereo 16))) = true)
  /\ forall r,
       outstanding r
         (snd (run [CallInitialize (device_with (pcm_stereo 16)); CallStart thread_ok;
                    CallShutdown] (WasapiCapture.constructed no_format))) = 0.
Proof.
  split; [split; [exact constructed_idle | split; reflexivity] |].
  exact (proj1 (proj2 (X9_session_balanced (device_with (pcm_stereo 16)) thread_ok
                         (WasapiCapture.constructed no_format)
                         constructed_idle eq_refl eq_refl))).
Defined.

Lemma X10_changed_mode_uninitializes_witness :
  (WasapiCapture.m_comInitialized (WasapiCapture.constructed no_format) = false
   /\ WasapiCapture.hrCoInitializeEx changed_mode_device = RPC_E_CHANGED_MODE)
  /\ outstanding ComLibrary
       (snd (run [CallInitialize changed_mode_device; CallShutdown]
               (WasapiCapture.constructed no_format))) = -1.
Proof.
  split; [split; reflexivity |].
  exact (X10_changed_mode_uninitializes changed_mode_device
           (WasapiCapture.constructed no_format) eq_refl eq_refl).
Defined.

Lemma X11_stop_undoes_start_witness :
  (reachable (AudioEngine.m_capture engine16)
   /\ WasapiCapture.m_capturing (AudioEngine.m_capture engine16) = false
   /\ fst (fst (WasapiCapture.start thread_ok (AudioEngine.m_capture engine16))) = true)
  /\ fst (WasapiCapture.stop
            (snd (fst (WasapiCapture.start thread_ok (AudioEngine.m_capture engine16)))))
     = AudioEngine.m_capture engine16.
Proof.
  split; [split; [exact engine16_reachable | split; reflexivity] |].
  destruct (X11_stop_undoes_start thread_ok (AudioEngine.m_capture engine16)
              engine16_reachable eq_refl eq_refl) as (_ & H & _).
  exact H.
Defined.

Lemma X12_start_needs_initialize_witness :
  reachable (AudioEngine.m_capture engine16)
  /\ WasapiCapture.start thread_ok
       (fst (WasapiCapture.shutdown (AudioEngine.m_capture engine16)))
     = (false, fst (WasapiCapture.shutdown (AudioEngine.m_capture engine16)), []).
Proof.
  split; [exact engine16_reachable |].
  exact (proj1 (X12_start_needs_initialize thread_ok (AudioEngine.m_capture engine16)
                  engine16_reachable)).
Defined.

Lemma X13_loop_ends_at_stop_witness :
  stop_turn stop_signalled
  /\ AudioEngine.captureThread engine16 ([audio_turn] ++ stop_signalled :: four_turns)
     = match AudioEngine.captureThread engine16 [audio_turn] with
       | Some (s', log, WasapiCapture.Polling) =>
           Some (s', log ++ [EventWait WAIT_OBJECT_0], WasapiCapture.Exited)
       | other => other
       end.
Proof.
  assert (H : stop_turn stop_signalled) by (right; reflexivity).
  split; [exact H |].
  exact (X13_loop_ends_at_stop
           (AudioEngine.call_onAudioData (AudioEngine.m_callbacks engine16))
           [audio_turn] four_turns stop_signalled (AudioEngine.m_capture engine16) H).
Defined.

Lemma X14_capture_thread_footprint_witness :
  exists s' log status,
    AudioEngine.captureThread engine16 four_turns = Some (s', log, status)
    /\ forallb is_loop_event log = true
    /\ forall r, outstanding r log = 0.
Proof.
  destruct (AudioEngine.captureThread engine16 four_turns) as [[[s' log] status] |] eqn:E.
  - exists s', log, status. split; [reflexivity |].
    destruct (X14_capture_thread_footprint engine16 four_turns s' log status E)
      as (_ & Hl & Ho & _).
    split; [exact Hl | exact Ho].
  - vm_compute in E. discriminate E.
Defined.

Lemma X15_observers_get_snapshots_only_witness :
  exists s' log status,
    AudioEngine.captureThread
      (fst (engine_run session_calls (AudioEngine.constructed no_format))) four_turns
    = Some (s', log, status)
    /\ forallb (fun ev => negb (is_raw_audio ev)) log = true.
Proof.
  destruct (AudioEngine.captureThread
              (fst (engine_run session_calls (AudioEngine.constructed no_format)))
              four_turns) as [[[s' log] status] |] eqn:E.
  - exists s', log, status. split; [reflexivity |].
    destruct (X15_observers_get_snapshots_only session_calls no_format four_turns
                s' log status E) as (_ & Hl & _).
    exact Hl.
  - vm_compute in E. discriminate E.
Defined.

Lemma X17_shutdown_keeps_format_witness :
  (WasapiCapture.m_comInitialized (WasapiCapture.constructed no_format) = false
   /\ initialize_ok (device_with (pcm_stereo 16)) = true)
  /\ WasapiCapture.getFormat
       (fst (run [CallInitialize (device_with (pcm_stereo 16)); CallShutdown]
               (WasapiCapture.constructed no_format)))
     = {| sampleRate := 48000; channelCount := 2 |}.
Proof.
  split; [split; reflexivity |].
  destruct (X17_shutdown_keeps_format (device_with (pcm_stereo 16))
              (WasapiCapture.constructed no_format) eq_refl eq_refl) as (_ & H & _).
  exact H.
Defined.

Lemma X18_one_snapshot_per_observer_witness :
  (WasapiCapture.m_callbacks (AudioEngine.m_capture engine16) = [metering_adapter]
   /\ turn_ok (AudioEngine.m_capture engine16) audio_turn)
  /\ exists buffer snapshot,
       WasapiCapture.processAudioData
         (AudioEngine.call_onAudioData (AudioEngine.m_callbacks engine16))
         (AudioEngine.m_capture engine16) (Some extreme_frame16) 1 0
       = Some (WasapiCapture.set_floatBuffer buffer (AudioEngine.m_capture engine16),
               [OnMeterData (observer 1) snapshot])
       /\ timestampMs snapshot = 0.
Proof.
  split; [split; [reflexivity | exact audio_turn_ok] |].
  destruct (X18_one_snapshot_per_observer engine16 audio_turn extreme_frame16 eq_refl
              (reachable_session _ engine16_reachable)
              (ex_intro _ (pcm_stereo 16) eq_refl) audio_turn_ok eq_refl eq_refl)
    as (buffer & snapshot & Hp & Hts & _).
  exists buffer, snapshot. split; [exact Hp | exact Hts].
Defined.

Lemma X19_start_after_failed_initialize_witness :
  (only_event_fails no_event = true
   /\ FAILED (WasapiCapture.hrStart thread_ok) = false)
  /\ fst (fst (WasapiCapture.initialize no_event (WasapiCapture.constructed no_format)))
     = false
  /\ fst (fst (WasapiCapture.start thread_ok
                 (snd (fst (WasapiCapture.initialize no_event
                              (WasapiCapture.constructed no_format)))))) = true.
Proof.
  split; [split; reflexivity |].
  destruct (X19_start_after_failed_initialize no_event thread_ok
              (WasapiCapture.constructed no_format) eq_refl eq_refl eq_refl eq_refl eq_refl)
    as (H1 & _ & _ & H2 & _).
  split; [exact H1 | exact H2].
Defined.

Lemma X16_register_unregister_round_trip_witness :
  ~ In (observer 2) (AudioEngine.m_callbacks engine16)
  /\ AudioEngine.unregisterCallback (observer 2)
       (AudioEngine.registerCallback (observer 2) engine16) = engine16.
Proof.
  assert (Hnot : ~ In (observer 2) (AudioEngine.m_callbacks engine16)).
  { intros [H | []]. discriminate H. }
  split; [exact Hnot |].
  destruct (X16_register_unregister_round_trip (observer 2)
              (AudioEngine.m_capture engine16) engine16) as (_ & _ & _ & H & _).
  exact (H Hnot).
Defined.
